(** * Clinic scheduling service: a shallow embedding of [app/services.py]

    The development follows the layout of the repository:
    - [Py]      the pieces of the Python runtime the service calls
                ([str] methods, [datetime], [strptime]/[strftime]);
    - [Mongo]   the document store as the service uses it (ordered
                collections, [find_one], [insert_one] with unique indexes,
                [update_one] with its modified count);
    - the models of [app/models.py], the indexes of [scripts/db.py];
    - [DatabaseService], one definition per method of the class;
    - the properties of the booking / availability core.

    Conventions.  Strings are byte strings holding UTF-8 text; integers
    are [Z].  A method that writes takes the database and returns the
    database it leaves with its result ([M]); exceptions are values of
    [Excecao], every [raise ValueError] of the service having its own
    message constructor.  The clock is an argument: [hoje] for
    [date.today()], [agora] (or [created], [updated]) for
    [datetime.utcnow()] in the millisecond units the store keeps.  A date
    is its ordinal, a time of day its minutes since midnight. *)

From Stdlib Require Import ZArith List String Ascii Bool Lia Sorting.Sorted
  Sorting.Permutation.
Import ListNotations.
Open Scope string_scope.
Open Scope Z_scope.

(* ================================================================== *)
(** ** Python runtime *)
(* ================================================================== *)

Module Py.

(** *** [str] *)

(** A Python [str] is a sequence of code points; a [string] here holds
    its UTF-8 bytes.  The methods that look at characters ([strip],
    [isdigit], [len]) work on the code points, [replace] of an ASCII
    character on the bytes, where it comes to the same. *)

Definition byte_de (c : ascii) : Z := Z.of_nat (nat_of_ascii c).

Definition ascii_de (b : Z) : ascii := ascii_of_nat (Z.to_nat b).

(** The code points of a UTF-8 text: [falta] continuation bytes are still
    to come for the code point whose leading bits are [acc].  A byte that
    cannot start a sequence counts as a code point of its own and a
    sequence cut short by the end of the text is dropped; neither occurs
    in the bytes of a [str]. *)
Fixpoint pontos_aux (falta : nat) (acc : Z) (s : string) : list Z :=
  match s with
  | String c t =>
      let b := byte_de c in
      match falta with
      | O =>
          if b <? 192 then b :: pontos_aux 0 0 t
          else if b <? 224 then pontos_aux 1 (b - 192) t
          else if b <? 240 then pontos_aux 2 (b - 224) t
          else if b <? 248 then pontos_aux 3 (b - 240) t
          else b :: pontos_aux 0 0 t
      | S O => (acc * 64 + b mod 64) :: pontos_aux 0 0 t
      | S n => pontos_aux n (acc * 64 + b mod 64) t
      end
  | EmptyString => []
  end.

Definition pontos (s : string) : list Z := pontos_aux 0 0 s.

(** The UTF-8 bytes of a code point, and of a sequence of code points. *)
Definition utf8_ponto (x : Z) : string :=
  if x <? 128 then String (ascii_de x) EmptyString
  else if x <? 2048 then
    String (ascii_de (192 + x / 64)) (String (ascii_de (128 + x mod 64)) EmptyString)
  else if x <? 65536 then
    String (ascii_de (224 + x / 4096))
      (String (ascii_de (128 + (x / 64) mod 64))
         (String (ascii_de (128 + x mod 64)) EmptyString))
  else
    String (ascii_de (240 + x / 262144))
      (String (ascii_de (128 + (x / 4096) mod 64))
         (String (ascii_de (128 + (x / 64) mod 64))
            (String (ascii_de (128 + x mod 64)) EmptyString))).

Fixpoint utf8 (l : list Z) : string :=
  match l with
  | x :: r => utf8_ponto x ++ utf8 r
  | [] => EmptyString
  end.

(** The code points [str.isspace] accepts, which are those [str.strip()]
    removes: the ASCII white space with the separators U+001C..U+001F,
    U+0085, U+00A0, U+1680, U+2000..U+200A, U+2028, U+2029, U+202F, U+205F
    and U+3000. *)
Definition tabela_espacos : list Z :=
  [ 9; 10; 11; 12; 13; 28; 29; 30; 31; 32; 133; 160; 5760; 8192; 8193; 8194;
    8195; 8196; 8197; 8198; 8199; 8200; 8201; 8202; 8232; 8233; 8239; 8287;
    12288 ].

Definition isspace (x : Z) : bool := existsb (Z.eqb x) tabela_espacos.

Fixpoint lstrip (l : list Z) : list Z :=
  match l with
  | x :: r => if isspace x then lstrip r else l
  | [] => []
  end.

Fixpoint rstrip (l : list Z) : list Z :=
  match l with
  | x :: r =>
      match rstrip r with
      | [] => if isspace x then [] else [x]
      | r' => x :: r'
      end
  | [] => []
  end.

(** [s.strip()] *)
Definition strip (s : string) : string := utf8 (rstrip (lstrip (pontos s))).

(** [s.replace(c, "")] for a one-character ASCII pattern [c]. *)
Fixpoint remove_char (c : ascii) (s : string) : string :=
  match s with
  | String d t => if Ascii.eqb c d then remove_char c t else String d (remove_char c t)
  | EmptyString => EmptyString
  end.

(** The ranges of the code points with [Numeric_Type] Digit or Decimal,
    as [str.isdigit] tests them (Unicode 14.0, the tables of CPython
    3.11): the decimal digits of every script, and the superscript,
    subscript, circled and parenthesised digits. *)
Definition tabela_digitos : list (Z * Z) :=
  [ (48, 57); (178, 179); (185, 185); (1632, 1641); (1776, 1785);
    (1984, 1993); (2406, 2415); (2534, 2543); (2662, 2671); (2790, 2799);
    (2918, 2927); (3046, 3055); (3174, 3183); (3302, 3311); (3430, 3439);
    (3558, 3567); (3664, 3673); (3792, 3801); (3872, 3881); (4160, 4169);
    (4240, 4249); (4969, 4977); (6112, 6121); (6160, 6169); (6470, 6479);
    (6608, 6618); (6784, 6793); (6800, 6809); (6992, 7001); (7088, 7097);
    (7232, 7241); (7248, 7257); (8304, 8304); (8308, 8313); (8320, 8329);
    (9312, 9320); (9332, 9340); (9352, 9360); (9450, 9450); (9461, 9469);
    (9471, 9471); (10102, 10110); (10112, 10120); (10122, 10130);
    (42528, 42537); (43216, 43225); (43264, 43273); (43472, 43481);
    (43504, 43513); (43600, 43609); (44016, 44025); (65296, 65305);
    (66720, 66729); (68160, 68163); (68912, 68921); (69216, 69224);
    (69714, 69722); (69734, 69743); (69872, 69881); (69942, 69951);
    (70096, 70105); (70384, 70393); (70736, 70745); (70864, 70873);
    (71248, 71257); (71360, 71369); (71472, 71481); (71904, 71913);
    (72016, 72025); (72784, 72793); (73040, 73049); (73120, 73129);
    (92768, 92777); (92864, 92873); (93008, 93017); (120782, 120831);
    (123200, 123209); (123632, 123641); (125264, 125273); (127232, 127242);
    (130032, 130041) ].

Definition digito (x : Z) : bool :=
  existsb (fun r => (fst r <=? x) && (x <=? snd r)) tabela_digitos.

(** [s.isdigit()]: every character is a digit and there is at least one. *)
Definition isdigit (s : string) : bool :=
  match pontos s with
  | [] => false
  | l => forallb digito l
  end.

(** [len(s)] *)
Definition len (s : string) : Z := Z.of_nat (List.length (pontos s)).

(** An ASCII digit, as a byte. *)
Definition is_digit (c : ascii) : bool :=
  let n := nat_of_ascii c in ((48 <=? n) && (n <=? 57))%nat.

Definition lower_ascii_char (c : ascii) : ascii :=
  let n := nat_of_ascii c in
  if ((65 <=? n) && (n <=? 90))%nat then ascii_of_nat (n + 32) else c.

(** [s.lower()] on UTF-8 text: ASCII letters and the two-byte Latin-1
    capitals U+00C0..U+00DE (lead byte 0xC3, second byte 0x80..0x9E, the
    multiplication sign 0x97 excepted).  These are the only capitals whose
    lower case occurs in the words [obter_data_por_termo_relativo] looks
    for. *)
Fixpoint lower (s : string) : string :=
  match s with
  | String c t =>
      if (nat_of_ascii c =? 195)%nat then
        match t with
        | String d u =>
            let n := nat_of_ascii d in
            if ((128 <=? n) && (n <=? 158) && negb (n =? 151))%nat
            then String c (String (ascii_of_nat (n + 32)) (lower u))
            else String c (String d (lower u))
        | EmptyString => String c EmptyString
        end
      else String (lower_ascii_char c) (lower t)
  | EmptyString => EmptyString
  end.

(** ASCII-only case folding, as a caseless regex applies it. *)
Fixpoint lower_ascii (s : string) : string :=
  match s with
  | String c t => String (lower_ascii_char c) (lower_ascii t)
  | EmptyString => EmptyString
  end.

(** [sub in s] *)
Fixpoint contem (sub s : string) : bool :=
  String.prefix sub s ||
  match s with
  | String _ t => contem sub t
  | EmptyString => false
  end.

(** [x in lst] for a list of strings *)
Definition in_lista (x : string) (l : list string) : bool :=
  existsb (String.eqb x) l.

(** Truth value of an optional integer: [None] and [0] are falsy. *)
Definition truthy (o : option Z) : bool :=
  match o with
  | Some z => negb (z =? 0)
  | None => false
  end.

(** *** Decimal digits *)

Definition digit_val (c : ascii) : Z := Z.of_nat (nat_of_ascii c) - 48.

Definition digit_char (d : Z) : ascii := ascii_of_nat (Z.to_nat (d + 48)).

(** ["%02d" % n] for [0 <= n < 100] *)
Definition fmt02 (n : Z) : string :=
  String (digit_char (n / 10)) (String (digit_char (n mod 10)) EmptyString).

(** ["%04d" % n] for [0 <= n < 10000] *)
Definition fmt04 (n : Z) : string :=
  String (digit_char (n / 1000))
    (String (digit_char ((n / 100) mod 10)) (fmt02 (n mod 100))).

(** *** [datetime.date], kept as its proleptic Gregorian ordinal
    ([date.toordinal()], 1 = 0001-01-01). *)

Definition MAXORDINAL : Z := 3652059.

Definition is_leap (year : Z) : bool :=
  (year mod 4 =? 0) && (negb (year mod 100 =? 0) || (year mod 400 =? 0)).

Definition days_before_year (year : Z) : Z :=
  let y := year - 1 in y * 365 + y / 4 - y / 100 + y / 400.

Definition DAYS_IN_MONTH : list Z := [-1; 31; 28; 31; 30; 31; 30; 31; 31; 30; 31; 30; 31].

Definition DAYS_BEFORE_MONTH : list Z :=
  [-1; 0; 31; 59; 90; 120; 151; 181; 212; 243; 273; 304; 334].

Definition days_in_month (year month : Z) : Z :=
  if (month =? 2) && is_leap year then 29
  else nth (Z.to_nat month) DAYS_IN_MONTH 0.

Definition days_before_month (year month : Z) : Z :=
  nth (Z.to_nat month) DAYS_BEFORE_MONTH 0
  + (if (2 <? month) && is_leap year then 1 else 0).

Definition ymd2ord (year month day : Z) : Z :=
  days_before_year year + days_before_month year month + day.

Definition DI400Y : Z := 146097.
Definition DI100Y : Z := 36524.
Definition DI4Y : Z := 1461.

Definition ord2ymd (n0 : Z) : Z * Z * Z :=
  let n := n0 - 1 in
  let n400 := n / DI400Y in
  let n := n mod DI400Y in
  let year := n400 * 400 + 1 in
  let n100 := n / DI100Y in
  let n := n mod DI100Y in
  let n4 := n / DI4Y in
  let n := n mod DI4Y in
  let n1 := n / 365 in
  let n := n mod 365 in
  let year := year + n100 * 100 + n4 * 4 + n1 in
  if (n1 =? 4) || (n100 =? 4) then (year - 1, 12, 31)
  else
    let leapyear := (n1 =? 3) && (negb (n4 =? 24) || (n100 =? 3)) in
    let month := Z.shiftr (n + 50) 5 in
    let preceding :=
      nth (Z.to_nat month) DAYS_BEFORE_MONTH 0
      + (if (2 <? month) && leapyear then 1 else 0) in
    if n <? preceding then
      let month := month - 1 in
      let preceding :=
        preceding - (nth (Z.to_nat month) DAYS_IN_MONTH 0
                     + (if (month =? 2) && leapyear then 1 else 0)) in
      (year, month, n - preceding + 1)
    else (year, month, n - preceding + 1).

(** A [date] object; the ordinal of a valid one lies in [1..MAXORDINAL]. *)
Definition date := Z.

(** [d.weekday()], Monday = 0 *)
Definition weekday (d : date) : Z := (d + 6) mod 7.

(** [d.isoformat()] *)
Definition isoformat (d : date) : string :=
  let '(y, m, dd) := ord2ymd d in
  fmt04 y ++ "-" ++ fmt02 m ++ "-" ++ fmt02 dd.

(** [d + timedelta(days=k)]: [None] stands for [OverflowError]. *)
Definition date_add_days (d : date) (k : Z) : option date :=
  let o := d + k in
  if (0 <? o) && (o <=? MAXORDINAL) then Some o else None.

(** *** [datetime.time] with zero seconds, kept as minutes since midnight,
    and [datetime.datetime] as a date with such a time. *)

Definition time := Z.

Definition mk_time (hour minute : Z) : time := hour * 60 + minute.

Definition datetime := (date * time)%type.

(** [datetime.combine(d, t)] *)
Definition combine (d : date) (t : time) : datetime := (d, t).

(** [dt + timedelta(minutes=k)]: [None] stands for [OverflowError]. *)
Definition datetime_add_minutes (dt : datetime) (k : Z) : option datetime :=
  let total := snd dt + k in
  let o := fst dt + total / 1440 in
  if (0 <? o) && (o <=? MAXORDINAL) then Some (o, total mod 1440) else None.

(** [t.strftime("%H:%M")] *)
Definition strftime_HM (t : time) : string :=
  fmt02 (t / 60) ++ ":" ++ fmt02 (t mod 60).

(** *** [datetime.strptime]

    The directives are matched as CPython's [_strptime] does: each one is a
    regular-expression alternation tried left to right, the literal
    characters of the format must follow, and no input may remain. *)

Definition in_range (lo hi : nat) (c : ascii) : bool :=
  let n := nat_of_ascii c in ((lo <=? n) && (n <=? hi))%nat.

(** [%H]: [2[0-3]|[0-1]\d|\d] *)
Definition match_H (s : string) : option (Z * string) :=
  match s with
  | String a (String b r) =>
      if ((Ascii.eqb a "2" && in_range 48 51 b) || (in_range 48 49 a && is_digit b))%bool
      then Some (digit_val a * 10 + digit_val b, r)
      else if is_digit a then Some (digit_val a, String b r) else None
  | String a EmptyString => if is_digit a then Some (digit_val a, EmptyString) else None
  | EmptyString => None
  end.

(** [%M]: [[0-5]\d|\d] *)
Definition match_M (s : string) : option (Z * string) :=
  match s with
  | String a (String b r) =>
      if in_range 48 53 a && is_digit b
      then Some (digit_val a * 10 + digit_val b, r)
      else if is_digit a then Some (digit_val a, String b r) else None
  | String a EmptyString => if is_digit a then Some (digit_val a, EmptyString) else None
  | EmptyString => None
  end.

(** [%Y]: [\d\d\d\d] *)
Definition match_Y (s : string) : option (Z * string) :=
  match s with
  | String a (String b (String c (String d r))) =>
      if is_digit a && is_digit b && is_digit c && is_digit d
      then Some (((digit_val a * 10 + digit_val b) * 10 + digit_val c) * 10 + digit_val d, r)
      else None
  | _ => None
  end.

(** [%m]: [1[0-2]|0[1-9]|[1-9]] *)
Definition match_m (s : string) : option (Z * string) :=
  match s with
  | String a (String b r) =>
      if ((Ascii.eqb a "1" && in_range 48 50 b) || (Ascii.eqb a "0" && in_range 49 57 b))%bool
      then Some (digit_val a * 10 + digit_val b, r)
      else if in_range 49 57 a then Some (digit_val a, String b r) else None
  | String a EmptyString => if in_range 49 57 a then Some (digit_val a, EmptyString) else None
  | EmptyString => None
  end.

(** [%d]: [3[0-1]|[1-2]\d|0[1-9]|[1-9]| [1-9]] *)
Definition match_d (s : string) : option (Z * string) :=
  match s with
  | String a (String b r) =>
      if ((Ascii.eqb a "3" && in_range 48 49 b) || (in_range 49 50 a && is_digit b)
          || (Ascii.eqb a "0" && in_range 49 57 b))%bool
      then Some (digit_val a * 10 + digit_val b, r)
      else if in_range 49 57 a then Some (digit_val a, String b r)
      else if Ascii.eqb a " " && in_range 49 57 b then Some (digit_val b, r)
      else None
  | String a EmptyString => if in_range 49 57 a then Some (digit_val a, EmptyString) else None
  | EmptyString => None
  end.

Definition match_lit (c : ascii) (s : string) : option string :=
  match s with
  | String a r => if Ascii.eqb a c then Some r else None
  | EmptyString => None
  end.

(** [datetime.strptime(s, "%H:%M").time()]; [None] stands for [ValueError]. *)
Definition strptime_HM (s : string) : option time :=
  match match_H s with
  | Some (h, r1) =>
      match match_lit ":" r1 with
      | Some r2 =>
          match match_M r2 with
          | Some (m, EmptyString) => Some (mk_time h m)
          | _ => None
          end
      | None => None
      end
  | None => None
  end.

(** [datetime.strptime(s, "%Y-%m-%d").date()]; [None] stands for
    [ValueError] (no match, text left over, year 0, or a day the month does
    not have). *)
Definition strptime_Ymd (s : string) : option date :=
  match match_Y s with
  | Some (y, r1) =>
      match match_lit "-" r1 with
      | Some r2 =>
          match match_m r2 with
          | Some (m, r3) =>
              match match_lit "-" r3 with
              | Some r4 =>
                  match match_d r4 with
                  | Some (d, EmptyString) =>
                      if (1 <=? y) && (d <=? days_in_month y m)
                      then Some (ymd2ord y m d) else None
                  | _ => None
                  end
              | None => None
              end
          | None => None
          end
      | None => None
      end
  | None => None
  end.

End Py.

(* ================================================================== *)
(** ** The document store *)
(* ================================================================== *)

Module Mongo.

(** Field values, as far as index keys need them; a missing field reads
    as null. *)
Inductive Valor :=
| VNull
| VInt (z : Z)
| VStr (s : string).

Definition Valor_eqb (a b : Valor) : bool :=
  match a, b with
  | VNull, VNull => true
  | VInt x, VInt y => x =? y
  | VStr x, VStr y => String.eqb x y
  | _, _ => false
  end.

Fixpoint chave_eqb (a b : list Valor) : bool :=
  match a, b with
  | [], [] => true
  | x :: a', y :: b' => Valor_eqb x y && chave_eqb a' b'
  | _, _ => false
  end.

Definition opt_int (o : option Z) : Valor :=
  match o with Some z => VInt z | None => VNull end.

Definition opt_str (o : option string) : Valor :=
  match o with Some s => VStr s | None => VNull end.

(** What the store needs to know of a document type: its primary key and
    how to read a field by name. *)
Class Documento (D : Type) := {
  id_de : D -> Z;
  campo : D -> string -> Valor
}.

(** [create_index(keys, unique=...)] *)
Record Indice := { chaves : list string; unique : bool }.

Section Colecao.
Context {D : Type} `{Documento D}.

Definition chave_de (ix : Indice) (d : D) : list Valor :=
  map (campo d) (chaves ix).

(** A new document clashes when its [_id] is taken or when it repeats the
    key of a unique index. *)
Definition chave_duplicada (ixs : list Indice) (docs : list D) (d : D) : bool :=
  existsb (fun x => id_de x =? id_de d) docs
  || existsb (fun ix =>
        unique ix && existsb (fun x => chave_eqb (chave_de ix x) (chave_de ix d)) docs) ixs.

(** [insert_one(d)]: [None] stands for [DuplicateKeyError]; a new
    document goes to the end of the natural order. *)
Definition insert_one (ixs : list Indice) (docs : list D) (d : D) : option (list D) :=
  if chave_duplicada ixs docs d then None else Some (docs ++ [d])%list.

(** [find_one(filter)]: the first match in natural order. *)
Definition find_one (filtro : D -> bool) (docs : list D) : option D :=
  List.find filtro docs.

(** [find(filter)] *)
Definition find (filtro : D -> bool) (docs : list D) : list D :=
  List.filter filtro docs.

(** [find_one(sort=[("_id", -1)])]: the document with the greatest id. *)
Fixpoint find_one_maior_id (docs : list D) : option D :=
  match docs with
  | [] => None
  | d :: r =>
      match find_one_maior_id r with
      | Some m => if id_de d <? id_de m then Some m else Some d
      | None => Some d
      end
  end.

(** The id the service allocates: one past the greatest, or the seed. *)
Definition proximo_id (semente : Z) (docs : list D) : Z :=
  match find_one_maior_id docs with
  | Some d => id_de d + 1
  | None => semente
  end.

Variable D_eq_dec : forall a b : D, {a = b} + {a <> b}.

(** [update_one(filter, {"$set": ...})]: the first match is rewritten by
    [set]; the second component is [modified_count], 0 when nothing
    matched or when the document already held the values set. *)
Fixpoint update_one (filtro : D -> bool) (set : D -> D) (docs : list D) : list D * Z :=
  match docs with
  | [] => ([], 0)
  | d :: r =>
      if filtro d then
        (set d :: r, if D_eq_dec d (set d) then 0 else 1)
      else
        let '(r', n) := update_one filtro set r in (d :: r', n)
  end.

End Colecao.

(** [cursor.sort(key, ASCENDING)] on a string key (byte order), stable. *)
Section Sort.
Context {D : Type} (key : D -> string).

Fixpoint inserir (d : D) (l : list D) : list D :=
  match l with
  | [] => [d]
  | x :: r => if String.leb (key d) (key x) then d :: l else x :: inserir d r
  end.

Definition sort_asc (l : list D) : list D :=
  fold_right inserir [] l.
End Sort.

End Mongo.
Import Mongo.

(* ================================================================== *)
(** ** [app/models.py] and the stored documents *)
(* ================================================================== *)

Inductive StatusConsulta := AGENDADA | CANCELADA | CONCLUIDA.

(** [StatusConsulta.X.value] *)
Definition StatusConsulta_value (s : StatusConsulta) : string :=
  match s with
  | AGENDADA => "agendada"
  | CANCELADA => "cancelada"
  | CONCLUIDA => "concluida"
  end.

Definition StatusConsulta_eqb (a b : StatusConsulta) : bool :=
  match a, b with
  | AGENDADA, AGENDADA | CANCELADA, CANCELADA | CONCLUIDA, CONCLUIDA => true
  | _, _ => false
  end.

Record EspecialidadeDoc := { esp_id : Z; esp_nome : string }.

Record MedicoDoc := { med_id : Z; med_nome : string; med_crm : string; med_especialidade_id : Z }.

Record TipoExameDoc := { exa_id : Z; exa_descricao : string }.

Record PacienteDoc := { pac_id : Z; pac_nome : string; pac_cpf : string }.

(** A document of the [consulta] collection.  [medico_id] and
    [tipo_exame_id] may be missing; [observacoes] may hold [None];
    timestamps are the stored millisecond values. *)
Record ConsultaDoc := {
  _id : Z;
  paciente_id : Z;
  data : string;
  hora_inicio : string;
  duracao_minutos : Z;
  status : StatusConsulta;
  observacoes : option string;
  created_at : Z;
  updated_at : Z;
  medico_id : option Z;
  tipo_exame_id : option Z
}.

(** [Paciente] *)
Record Paciente := { id : Z; nome : string; cpf : string }.

(** [AgendamentoDetalhado] *)
Record AgendamentoDetalhado := {
  ad_id : Z;
  ad_paciente_id : Z;
  ad_data : string;
  ad_hora_inicio : string;
  ad_status : StatusConsulta;
  ad_observacoes : string;
  ad_medico_id : option Z;
  ad_tipo_exame_id : option Z;
  nome_medico : string;
  descricao_exame : string
}.

(** An element of [SlotsDisponiveis.slots_livres] *)
Record Slot := { slot_hora_inicio : string; slot_hora_fim : string }.

#[export] Instance Documento_Especialidade : Documento EspecialidadeDoc := {
  id_de := esp_id;
  campo d k :=
    if String.eqb k "_id" then VInt (esp_id d)
    else if String.eqb k "nome" then VStr (esp_nome d) else VNull
}.

#[export] Instance Documento_Medico : Documento MedicoDoc := {
  id_de := med_id;
  campo d k :=
    if String.eqb k "_id" then VInt (med_id d)
    else if String.eqb k "nome" then VStr (med_nome d)
    else if String.eqb k "crm" then VStr (med_crm d)
    else if String.eqb k "especialidade_id" then VInt (med_especialidade_id d)
    else VNull
}.

#[export] Instance Documento_TipoExame : Documento TipoExameDoc := {
  id_de := exa_id;
  campo d k :=
    if String.eqb k "_id" then VInt (exa_id d)
    else if String.eqb k "descricao" then VStr (exa_descricao d) else VNull
}.

#[export] Instance Documento_Paciente : Documento PacienteDoc := {
  id_de := pac_id;
  campo d k :=
    if String.eqb k "_id" then VInt (pac_id d)
    else if String.eqb k "nome" then VStr (pac_nome d)
    else if String.eqb k "cpf" then VStr (pac_cpf d) else VNull
}.

#[export] Instance Documento_Consulta : Documento ConsultaDoc := {
  id_de := _id;
  campo d k :=
    if String.eqb k "_id" then VInt (_id d)
    else if String.eqb k "paciente_id" then VInt (paciente_id d)
    else if String.eqb k "data" then VStr (data d)
    else if String.eqb k "hora_inicio" then VStr (hora_inicio d)
    else if String.eqb k "duracao_minutos" then VInt (duracao_minutos d)
    else if String.eqb k "status" then VStr (StatusConsulta_value (status d))
    else if String.eqb k "observacoes" then opt_str (observacoes d)
    else if String.eqb k "created_at" then VInt (created_at d)
    else if String.eqb k "updated_at" then VInt (updated_at d)
    else if String.eqb k "medico_id" then opt_int (medico_id d)
    else if String.eqb k "tipo_exame_id" then opt_int (tipo_exame_id d)
    else VNull
}.

Definition StatusConsulta_eq_dec (a b : StatusConsulta) : {a = b} + {a <> b}.
Proof. decide equality. Defined.

Definition ConsultaDoc_eq_dec (a b : ConsultaDoc) : {a = b} + {a <> b}.
Proof.
  decide equality;
    try apply Z.eq_dec; try apply string_dec; try apply StatusConsulta_eq_dec;
    decide equality; try apply Z.eq_dec; apply string_dec.
Defined.

(** The database handle: one ordered list of documents per collection. *)
Record Database := {
  medico : list MedicoDoc;
  consulta : list ConsultaDoc;
  especialidade : list EspecialidadeDoc;
  tipo_exame : list TipoExameDoc;
  paciente : list PacienteDoc
}.

(* ================================================================== *)
(** ** [scripts/db.py] *)
(* ================================================================== *)

Record Indices := {
  ix_especialidade : list Indice;
  ix_medico : list Indice;
  ix_tipo_exame : list Indice;
  ix_consulta : list Indice;
  ix_paciente : list Indice
}.

(** The indexes [criar_collections] creates. *)
Definition criar_collections : Indices := {|
  ix_especialidade := [ {| chaves := ["nome"]; unique := true |} ];
  ix_medico := [ {| chaves := ["crm"]; unique := true |};
                 {| chaves := ["especialidade_id"]; unique := false |} ];
  ix_tipo_exame := [ {| chaves := ["descricao"]; unique := true |} ];
  ix_consulta := [ {| chaves := ["medico_id"; "data"]; unique := false |};
                   {| chaves := ["status"]; unique := false |} ];
  ix_paciente := [ {| chaves := ["cpf"]; unique := true |} ]
|}.

(* ================================================================== *)
(** ** Exceptions and the service monad *)
(* ================================================================== *)

(** The messages of the [ValueError]s the service raises, one constructor
    per [raise] statement and one for [strptime]'s own failure. *)
Inductive Mensagem :=
| CPFInvalido
| DataInvalida
| ExameNaoSimples (nome_exame : string)
| ExameNaoEncontrado (nome_exame : string)
| ConflitoAgendar
| ConsultaNaoEncontrada (consulta_id : Z)
| ConflitoReagendar (nova_data nova_hora : string)
| NaoFoiPossivelReagendar
| NaoEncontradaOuCancelada (consulta_id : Z)
| StrptimeNaoCasa (texto : string).

Inductive Excecao :=
| ValueError (m : Mensagem)
| DuplicateKeyError
| ValidationErrorPydantic
| OverflowError.

(** The error taxonomy of the specification, read off the raise sites. *)
Inductive ClasseErro := ValidationError | NotFoundError | ConflictError.

Definition classe (e : Excecao) : option ClasseErro :=
  match e with
  | ValueError CPFInvalido => Some ValidationError
  | ValueError DataInvalida => Some ValidationError
  | ValueError (ExameNaoSimples _) => Some ValidationError
  | ValueError (ExameNaoEncontrado _) => Some NotFoundError
  | ValueError (ConsultaNaoEncontrada _) => Some NotFoundError
  | ValueError (NaoEncontradaOuCancelada _) => Some NotFoundError
  | ValueError ConflitoAgendar => Some ConflictError
  | ValueError (ConflitoReagendar _ _) => Some ConflictError
  | ValueError NaoFoiPossivelReagendar => Some ConflictError
  | _ => None
  end.

Inductive Resultado (A : Type) :=
| Retorna (a : A)
| Levanta (e : Excecao).
Arguments Retorna {A} a.
Arguments Levanta {A} e.

(** A method that may write to the database: the database it leaves behind
    (writes made before an exception stay) and how it ends. *)
Definition M (A : Type) : Type := Database -> Database * Resultado A.

Definition ret {A} (a : A) : M A := fun db => (db, Retorna a).

Definition levanta {A} (e : Excecao) : M A := fun db => (db, Levanta e).

Definition bind {A B} (m : M A) (k : A -> M B) : M B :=
  fun db =>
    match m db with
    | (db', Retorna a) => k a db'
    | (db', Levanta e) => (db', Levanta e)
    end.

Definition lift {A} (r : Resultado A) : M A := fun db => (db, r).

(** Reading the database *)
Definition ler {A} (f : Database -> A) : M A := fun db => (db, Retorna (f db)).

Notation "x <- m ;; k" := (bind m (fun x => k))
  (at level 61, m at next level, right associativity).

(** [[f(x) for x in xs]] where [f] may raise *)
Fixpoint mapR {A B} (f : A -> Resultado B) (xs : list A) : Resultado (list B) :=
  match xs with
  | [] => Retorna []
  | x :: r =>
      match f x with
      | Levanta e => Levanta e
      | Retorna y =>
          match mapR f r with
          | Levanta e => Levanta e
          | Retorna ys => Retorna (y :: ys)
          end
      end
  end.

(* ================================================================== *)
(** ** [DatabaseService] *)
(* ================================================================== *)

Definition set_paciente (db : Database) (l : list PacienteDoc) : Database :=
  {| medico := medico db; consulta := consulta db; especialidade := especialidade db;
     tipo_exame := tipo_exame db; paciente := l |}.

Definition set_consulta (db : Database) (l : list ConsultaDoc) : Database :=
  {| medico := medico db; consulta := l; especialidade := especialidade db;
     tipo_exame := tipo_exame db; paciente := paciente db |}.

(** [self.pacientes_collection.insert_one(doc)] *)
Definition pacientes_insert_one (doc : PacienteDoc) : M unit :=
  fun db =>
    match insert_one (ix_paciente criar_collections) (paciente db) doc with
    | Some l => (set_paciente db l, Retorna tt)
    | None => (db, Levanta DuplicateKeyError)
    end.

(** [self.consultas_collection.insert_one(doc)] *)
Definition consultas_insert_one (doc : ConsultaDoc) : M unit :=
  fun db =>
    match insert_one (ix_consulta criar_collections) (consulta db) doc with
    | Some l => (set_consulta db l, Retorna tt)
    | None => (db, Levanta DuplicateKeyError)
    end.

(** [self.consultas_collection.update_one(filter, {"$set": ...})], giving
    [resultado.modified_count] *)
Definition consultas_update_one (filtro : ConsultaDoc -> bool) (set : ConsultaDoc -> ConsultaDoc)
  : M Z :=
  fun db =>
    let '(l, n) := update_one ConsultaDoc_eq_dec filtro set (consulta db) in
    (set_consulta db l, Retorna n).

(** [Paciente.model_validate(doc)] *)
Definition Paciente_model_validate (doc : PacienteDoc) : Paciente :=
  {| id := pac_id doc; nome := pac_nome doc; cpf := pac_cpf doc |}.

(** [AgendamentoDetalhado.model_validate(doc)] on a consultation document
    already carrying [nome_medico] and [descricao_exame]: [observacoes] is a
    required [str], so [None] is refused; fields outside the model are
    dropped. *)
Definition AgendamentoDetalhado_model_validate
  (doc : ConsultaDoc) (nm de : string) : Resultado AgendamentoDetalhado :=
  match observacoes doc with
  | Some obs =>
      Retorna {| ad_id := _id doc; ad_paciente_id := paciente_id doc; ad_data := data doc;
                 ad_hora_inicio := hora_inicio doc; ad_status := status doc;
                 ad_observacoes := obs; ad_medico_id := medico_id doc;
                 ad_tipo_exame_id := tipo_exame_id doc;
                 nome_medico := nm; descricao_exame := de |}
  | None => Levanta ValidationErrorPydantic
  end.

Definition _limpar_e_validar_cpf (cpf_bruto : string) : Resultado string :=
  let cpf_limpo := Py.strip (Py.remove_char "-" (Py.remove_char "." cpf_bruto)) in
  if negb (Py.isdigit cpf_limpo) || negb (Py.len cpf_limpo =? 11)
  then Levanta (ValueError CPFInvalido)
  else Retorna cpf_limpo.

Definition _obter_ou_criar_paciente (nome_completo cpf : string) : M Paciente :=
  cpf_limpo <- lift (_limpar_e_validar_cpf cpf) ;;
  paciente_doc <- ler (fun db => find_one (fun p => String.eqb (pac_cpf p) cpf_limpo) (paciente db)) ;;
  match paciente_doc with
  | None =>
      maior_id_doc <- ler (fun db => find_one_maior_id (paciente db)) ;;
      let novo_id := match maior_id_doc with Some d => pac_id d + 1 | None => 101 end in
      let novo_paciente_doc :=
        {| pac_id := novo_id; pac_nome := nome_completo; pac_cpf := cpf_limpo |} in
      _ <- pacientes_insert_one novo_paciente_doc ;;
      ret (Paciente_model_validate novo_paciente_doc)
  | Some doc => ret (Paciente_model_validate doc)
  end.

(** The query [{"_id": v}] where [v] comes from [dict.get]: a missing
    field gives [None], which no integer id equals. *)
Definition id_igual (v : option Z) (i : Z) : bool :=
  match v with Some z => i =? z | None => false end.

(** A method that only reads the database *)
Definition ler_r {A} (f : Database -> Resultado A) : M A := fun db => (db, f db).

Definition _enriquecer_e_validar_agendamento (db : Database) (doc_consulta : option ConsultaDoc)
  : Resultado (option AgendamentoDetalhado) :=
  match doc_consulta with
  | None => Retorna None
  | Some doc =>
      let medico_doc := find_one (fun m => id_igual (medico_id doc) (med_id m)) (medico db) in
      let exame_doc := find_one (fun e => id_igual (tipo_exame_id doc) (exa_id e)) (tipo_exame db) in
      let nm := match medico_doc with Some m => med_nome m | None => "N/A (Apenas Exame)" end in
      let de := match exame_doc with Some e => exa_descricao e | None => "Consulta de Rotina" end in
      match AgendamentoDetalhado_model_validate doc nm de with
      | Retorna v => Retorna (Some v)
      | Levanta e => Levanta e
      end
  end.

Definition horario_inicio : Py.time := Py.mk_time 8 0.
Definition horario_fim : Py.time := Py.mk_time 18 0.
Definition duracao_slot : Z := 30.

(** One element of [horarios_ocupados]: the start time and the time of day
    at which the consultation ends. *)
Definition horario_ocupado (data_consulta : Py.date) (c : ConsultaDoc)
  : Resultado (Py.time * Py.time) :=
  match Py.strptime_HM (hora_inicio c) with
  | None => Levanta (ValueError (StrptimeNaoCasa (hora_inicio c)))
  | Some inicio =>
      match Py.datetime_add_minutes (Py.combine data_consulta inicio) (duracao_minutos c) with
      | None => Levanta OverflowError
      | Some fim => Retorna (inicio, snd fim)
      end
  end.

(** [any(inicio_slot < fim and fim_slot > inicio for inicio, fim in horarios_ocupados)] *)
Definition sobrepoe (inicio_slot fim_slot : Py.time) (horarios_ocupados : list (Py.time * Py.time))
  : bool :=
  existsb (fun o => (inicio_slot <? snd o) && (fst o <? fim_slot)) horarios_ocupados.

(** The [while slot_atual.time() < horario_fim] loop.  [n] bounds the
    number of iterations; [None] means the bound was reached. *)
Fixpoint gerar_slots (n : nat) (horarios_ocupados : list (Py.time * Py.time))
  (slot_atual : Py.datetime) (slots_livres : list Slot) : option (Resultado (list Slot)) :=
  match n with
  | O => None
  | S n' =>
      if snd slot_atual <? horario_fim then
        let inicio_slot := snd slot_atual in
        match Py.datetime_add_minutes slot_atual duracao_slot with
        | None => Some (Levanta OverflowError)
        | Some proximo =>
            let fim_slot := snd proximo in
            let slots_livres' :=
              if negb (sobrepoe inicio_slot fim_slot horarios_ocupados)
              then (slots_livres ++ [ {| slot_hora_inicio := Py.strftime_HM inicio_slot;
                                         slot_hora_fim := Py.strftime_HM fim_slot |} ])%list
              else slots_livres in
            gerar_slots n' horarios_ocupados proximo slots_livres'
        end
      else Some (Retorna slots_livres)
  end.

(** Iterations allowed to the slot loop: one more than the half hours of a
    day. *)
Definition limite_slots : nat := 49.

Definition verificar_disponibilidade_medico (db : Database) (medico_id_arg : Z) (data_str : string)
  : option (Resultado (list Slot)) :=
  match Py.strptime_Ymd data_str with
  | None => Some (Levanta (ValueError DataInvalida))
  | Some data_consulta =>
      let consultas_agendadas :=
        find (fun c => id_igual (medico_id c) medico_id_arg
                       && String.eqb (data c) data_str
                       && StatusConsulta_eqb (status c) AGENDADA) (consulta db) in
      match mapR (horario_ocupado data_consulta) consultas_agendadas with
      | Levanta e => Some (Levanta e)
      | Retorna horarios_ocupados =>
          gerar_slots limite_slots horarios_ocupados
            (Py.combine data_consulta horario_inicio) []
      end
  end.

Definition dias_semana : list (string * Z) :=
  [("segunda", 0); ("terca", 1); ("terça", 1); ("quarta", 2); ("quinta", 3);
   ("sexta", 4); ("sabado", 5); ("sábado", 5); ("domingo", 6)].

(** [hoje] is the value of [date.today()]. *)
Definition obter_data_por_termo_relativo (hoje : Py.date) (termo_data : string)
  : Resultado string :=
  let termo := Py.lower termo_data in
  if Py.contem "hoje" termo then Retorna (Py.isoformat hoje)
  else if Py.contem "amanha" termo || Py.contem "amanhã" termo then
    match Py.date_add_days hoje 1 with
    | Some d => Retorna (Py.isoformat d)
    | None => Levanta OverflowError
    end
  else
    match List.find (fun nd => Py.contem (fst nd) termo) dias_semana with
    | Some (_, num_dia) =>
        let dias_a_frente := (num_dia - Py.weekday hoje + 7) mod 7 in
        let dias_a_frente := if dias_a_frente =? 0 then 7 else dias_a_frente in
        match Py.date_add_days hoje dias_a_frente with
        | Some d => Retorna (Py.isoformat d)
        | None => Levanta OverflowError
        end
    | None => Retorna (Py.isoformat hoje)
    end.

(** [created] and [updated] are the two readings of [datetime.utcnow()]. *)
Definition agendar_consulta (created updated : Z) (paciente_id_arg : Z)
  (data_str hora_inicio_str : string) (medico_id_arg tipo_exame_id_arg : option Z)
  (observacoes_arg : option string) : M (option AgendamentoDetalhado) :=
  maior_id_doc <- ler (fun db => find_one_maior_id (consulta db)) ;;
  let novo_id := match maior_id_doc with Some d => _id d + 1 | None => 123 end in
  let nova_consulta :=
    {| _id := novo_id; paciente_id := paciente_id_arg; data := data_str;
       hora_inicio := hora_inicio_str; duracao_minutos := 30; status := AGENDADA;
       observacoes := observacoes_arg; created_at := created; updated_at := updated;
       medico_id := if Py.truthy medico_id_arg then medico_id_arg else None;
       tipo_exame_id := if Py.truthy tipo_exame_id_arg then tipo_exame_id_arg else None |} in
  fun db =>
    match consultas_insert_one nova_consulta db with
    | (db', Levanta DuplicateKeyError) => (db', Levanta (ValueError ConflitoAgendar))
    | (db', Levanta e) => (db', Levanta e)
    | (db', Retorna _) =>
        (consulta_criada <- ler (fun db => find_one (fun c => _id c =? novo_id) (consulta db)) ;;
         ler_r (fun db => _enriquecer_e_validar_agendamento db consulta_criada)) db'
    end.

Definition EXAMES_SEM_ESPECIALISTA : list string := ["exame de sangue"; "raio-x"].

(** The query [{"descricao": {"$regex": "^" + nome + "$", "$options": "i"}}]
    for a name free of regex metacharacters (the names of
    [EXAMES_SEM_ESPECIALISTA] are): the whole description, ASCII case
    folded, is the name; [$] also accepts one final line feed. *)
Definition regex_exato_i (nome_exame descricao : string) : bool :=
  let n := Py.lower_ascii nome_exame in
  let d := Py.lower_ascii descricao in
  String.eqb d n || String.eqb d (n ++ String (ascii_of_nat 10) EmptyString).

Definition agendar_exame_simples (created updated : Z)
  (nome_paciente cpf_paciente data_str hora_inicio_str nome_exame : string)
  : M (option AgendamentoDetalhado) :=
  if negb (Py.in_lista (Py.lower nome_exame) EXAMES_SEM_ESPECIALISTA)
  then levanta (ValueError (ExameNaoSimples nome_exame))
  else
    paciente <- _obter_ou_criar_paciente nome_paciente cpf_paciente ;;
    exame_doc <- ler (fun db =>
      find_one (fun e => regex_exato_i nome_exame (exa_descricao e)) (tipo_exame db)) ;;
    match exame_doc with
    | None => levanta (ValueError (ExameNaoEncontrado nome_exame))
    | Some e =>
        agendar_consulta created updated (id paciente) data_str hora_inicio_str
          None (Some (exa_id e)) (Some ("Exame: " ++ nome_exame))
    end.

(** [hoje] is the value of [date.today()]. *)
Definition ver_minhas_consultas (hoje : Py.date) (cpf_paciente : string)
  : M (list (option AgendamentoDetalhado)) :=
  paciente <- _obter_ou_criar_paciente "Busca" cpf_paciente ;;
  let hoje_str := Py.isoformat hoje in
  fun db =>
    let consultas_cursor :=
      sort_asc data
        (find (fun c => (paciente_id c =? id paciente)
                        && StatusConsulta_eqb (status c) AGENDADA
                        && String.leb hoje_str (data c)) (consulta db)) in
    (db, mapR (fun c => _enriquecer_e_validar_agendamento db (Some c)) consultas_cursor).

(** [agora] is the value of [datetime.utcnow()] as the store keeps it. *)
Definition reagendar_consulta (agora : Z) (consulta_id : Z) (nova_data_str nova_hora_str : string)
  : M (option AgendamentoDetalhado) :=
  consulta_original <- ler (fun db => find_one (fun c => _id c =? consulta_id) (consulta db)) ;;
  match consulta_original with
  | None => levanta (ValueError (ConsultaNaoEncontrada consulta_id))
  | Some original =>
      let medico_id_orig := medico_id original in
      conflito <- ler (fun db =>
        if Py.truthy medico_id_orig then
          find_one (fun c => Valor_eqb (opt_int (medico_id c)) (opt_int medico_id_orig)
                             && String.eqb (data c) nova_data_str
                             && String.eqb (hora_inicio c) nova_hora_str
                             && negb (_id c =? consulta_id)) (consulta db)
        else None) ;;
      match conflito with
      | Some _ => levanta (ValueError (ConflitoReagendar nova_data_str nova_hora_str))
      | None =>
          modified_count <- consultas_update_one (fun c => _id c =? consulta_id)
            (fun c => {| _id := _id c; paciente_id := paciente_id c; data := nova_data_str;
                         hora_inicio := nova_hora_str; duracao_minutos := duracao_minutos c;
                         status := status c; observacoes := observacoes c;
                         created_at := created_at c; updated_at := agora;
                         medico_id := medico_id c; tipo_exame_id := tipo_exame_id c |}) ;;
          if modified_count =? 0 then levanta (ValueError NaoFoiPossivelReagendar)
          else
            consulta_atualizada <- ler (fun db =>
              find_one (fun c => _id c =? consulta_id) (consulta db)) ;;
            ler_r (fun db => _enriquecer_e_validar_agendamento db consulta_atualizada)
      end
  end.

(** [agora] is the value of [datetime.utcnow()] as the store keeps it. *)
Definition cancelar_consulta (agora : Z) (consulta_id : Z) : M (option AgendamentoDetalhado) :=
  modified_count <- consultas_update_one (fun c => _id c =? consulta_id)
    (fun c => {| _id := _id c; paciente_id := paciente_id c; data := data c;
                 hora_inicio := hora_inicio c; duracao_minutos := duracao_minutos c;
                 status := CANCELADA; observacoes := observacoes c;
                 created_at := created_at c; updated_at := agora;
                 medico_id := medico_id c; tipo_exame_id := tipo_exame_id c |}) ;;
  if modified_count =? 0 then levanta (ValueError (NaoEncontradaOuCancelada consulta_id))
  else
    consulta_cancelada <- ler (fun db => find_one (fun c => _id c =? consulta_id) (consulta db)) ;;
    ler_r (fun db => _enriquecer_e_validar_agendamento db consulta_cancelada).

(* ================================================================== *)
(** ** Vocabulary of the properties *)
(* ================================================================== *)

(** [d] is the first day after [hoje] that falls on weekday [num_dia]. *)
Definition proxima_ocorrencia (hoje : Py.date) (num_dia : Z) (d : Py.date) : Prop :=
  hoje < d /\ Py.weekday d = num_dia /\
  forall d', hoje < d' < d -> Py.weekday d' <> num_dia.

(** What [(hoje + timedelta(days=k)).isoformat()] evaluates to. *)
Definition data_apos (hoje : Py.date) (k : Z) : Resultado string :=
  match Py.date_add_days hoje k with
  | Some d => Retorna (Py.isoformat d)
  | None => Levanta OverflowError
  end.

(** The query [{"cpf": cpf_limpo}] *)
Definition cpf_igual (cpf_limpo : string) (p : PacienteDoc) : bool :=
  String.eqb (pac_cpf p) cpf_limpo.

(** The document a first lookup of [cpf_limpo] inserts. *)
Definition novo_paciente (db : Database) (nome_completo cpf_limpo : string) : PacienteDoc :=
  {| pac_id := proximo_id 101 (paciente db); pac_nome := nome_completo; pac_cpf := cpf_limpo |}.

(** A store whose only appointment names patient 101 while the patient
    collection is empty. *)
Definition db_consulta_orfa : Database := {|
  medico := []; especialidade := []; tipo_exame := []; paciente := [];
  consulta := [ {| _id := 123; paciente_id := 101; data := "2099-01-01";
                   hora_inicio := "14:00"; duracao_minutos := 30; status := AGENDADA;
                   observacoes := Some "Retorno"; created_at := 1000; updated_at := 1000;
                   medico_id := None; tipo_exame_id := None |} ]
|}.

(** The start times the slot loop visits: 08:00, 08:30, ..., 17:30. *)
Definition inicios_do_dia : list Py.time :=
  map (fun i => 480 + 30 * Z.of_nat i) (seq 0 20).

(** The slot of half an hour that starts at [a]. *)
Definition slot_de (a : Py.time) : Slot :=
  {| slot_hora_inicio := Py.strftime_HM a; slot_hora_fim := Py.strftime_HM (a + 30) |}.

(** The slot starting at [a] overlaps none of the occupied intervals. *)
Definition livre (horarios_ocupados : list (Py.time * Py.time)) (a : Py.time) : bool :=
  negb (sobrepoe a (a + 30) horarios_ocupados).

(** The query of [verificar_disponibilidade_medico] *)
Definition agendada_com (medico_id_arg : Z) (data_str : string) (c : ConsultaDoc) : bool :=
  id_igual (medico_id c) medico_id_arg && String.eqb (data c) data_str
  && StatusConsulta_eqb (status c) AGENDADA.

(** Slot [x] starts earlier in the day than slot [y]. *)
Definition antes (x y : Slot) : Prop :=
  exists a b, Py.strptime_HM (slot_hora_inicio x) = Some a
              /\ Py.strptime_HM (slot_hora_inicio y) = Some b /\ a < b.

(** The store [inserir_exemplos] of [scripts/db.py] sets up (the fields
    the service reads). *)
Definition db_exemplos : Database := {|
  especialidade := [ {| esp_id := 1; esp_nome := "Cardiologia" |};
                     {| esp_id := 2; esp_nome := "Ortopedia" |} ];
  medico := [ {| med_id := 42; med_nome := "Dr. João Silva"; med_crm := "12345";
                 med_especialidade_id := 1 |};
              {| med_id := 58; med_nome := "Dra. Maria Souza"; med_crm := "67890";
                 med_especialidade_id := 2 |} ];
  tipo_exame := [ {| exa_id := 1; exa_descricao := "Exame de Sangue" |};
                  {| exa_id := 2; exa_descricao := "Raio-X" |} ];
  paciente := [ {| pac_id := 101; pac_nome := "Carlos Silva"; pac_cpf := "11122233344" |};
                {| pac_id := 102; pac_nome := "Ana Pereira"; pac_cpf := "55566677788" |} ];
  consulta := [ {| _id := 123; medico_id := Some 42; paciente_id := 101;
                   tipo_exame_id := Some 1; data := "2025-06-10"; hora_inicio := "14:00";
                   duracao_minutos := 30; status := AGENDADA;
                   observacoes := Some "Primeira consulta";
                   created_at := 1749500000000; updated_at := 1749500000000 |} ]
|}.

(** The twenty slots of a day without consultations. *)
Definition dia_inteiro : list Slot :=
  [ {| slot_hora_inicio := "08:00"; slot_hora_fim := "08:30" |};
    {| slot_hora_inicio := "08:30"; slot_hora_fim := "09:00" |};
    {| slot_hora_inicio := "09:00"; slot_hora_fim := "09:30" |};
    {| slot_hora_inicio := "09:30"; slot_hora_fim := "10:00" |};
    {| slot_hora_inicio := "10:00"; slot_hora_fim := "10:30" |};
    {| slot_hora_inicio := "10:30"; slot_hora_fim := "11:00" |};
    {| slot_hora_inicio := "11:00"; slot_hora_fim := "11:30" |};
    {| slot_hora_inicio := "11:30"; slot_hora_fim := "12:00" |};
    {| slot_hora_inicio := "12:00"; slot_hora_fim := "12:30" |};
    {| slot_hora_inicio := "12:30"; slot_hora_fim := "13:00" |};
    {| slot_hora_inicio := "13:00"; slot_hora_fim := "13:30" |};
    {| slot_hora_inicio := "13:30"; slot_hora_fim := "14:00" |};
    {| slot_hora_inicio := "14:00"; slot_hora_fim := "14:30" |};
    {| slot_hora_inicio := "14:30"; slot_hora_fim := "15:00" |};
    {| slot_hora_inicio := "15:00"; slot_hora_fim := "15:30" |};
    {| slot_hora_inicio := "15:30"; slot_hora_fim := "16:00" |};
    {| slot_hora_inicio := "16:00"; slot_hora_fim := "16:30" |};
    {| slot_hora_inicio := "16:30"; slot_hora_fim := "17:00" |};
    {| slot_hora_inicio := "17:00"; slot_hora_fim := "17:30" |};
    {| slot_hora_inicio := "17:30"; slot_hora_fim := "18:00" |} ].

(** The document [agendar_consulta] builds. *)
Definition nova_consulta_de (db : Database) (created updated paciente_id_arg : Z)
  (data_str hora_inicio_str : string) (medico_id_arg tipo_exame_id_arg : option Z)
  (observacoes_arg : option string) : ConsultaDoc :=
  {| _id := proximo_id 123 (consulta db); paciente_id := paciente_id_arg; data := data_str;
     hora_inicio := hora_inicio_str; duracao_minutos := 30; status := AGENDADA;
     observacoes := observacoes_arg; created_at := created; updated_at := updated;
     medico_id := if Py.truthy medico_id_arg then medico_id_arg else None;
     tipo_exame_id := if Py.truthy tipo_exame_id_arg then tipo_exame_id_arg else None |}.

(** The query [{"_id": consulta_id}] *)
Definition com_id (consulta_id : Z) (c : ConsultaDoc) : bool := _id c =? consulta_id.

(** [{"$set": {"status": "cancelada", "updated_at": agora}}] *)
Definition set_cancelada (agora : Z) (c : ConsultaDoc) : ConsultaDoc :=
  {| _id := _id c; paciente_id := paciente_id c; data := data c;
     hora_inicio := hora_inicio c; duracao_minutos := duracao_minutos c;
     status := CANCELADA; observacoes := observacoes c;
     created_at := created_at c; updated_at := agora;
     medico_id := medico_id c; tipo_exame_id := tipo_exame_id c |}.

(** [{"$set": {"data": nova_data, "hora_inicio": nova_hora, "updated_at": agora}}] *)
Definition set_reagendada (agora : Z) (nova_data_str nova_hora_str : string) (c : ConsultaDoc)
  : ConsultaDoc :=
  {| _id := _id c; paciente_id := paciente_id c; data := nova_data_str;
     hora_inicio := nova_hora_str; duracao_minutos := duracao_minutos c;
     status := status c; observacoes := observacoes c;
     created_at := created_at c; updated_at := agora;
     medico_id := medico_id c; tipo_exame_id := tipo_exame_id c |}.

(** The query of the conflict check of [reagendar_consulta] *)
Definition conflita (medico_id_orig : option Z) (nova_data_str nova_hora_str : string)
  (consulta_id : Z) (c : ConsultaDoc) : bool :=
  Valor_eqb (opt_int (medico_id c)) (opt_int medico_id_orig)
  && String.eqb (data c) nova_data_str
  && String.eqb (hora_inicio c) nova_hora_str
  && negb (_id c =? consulta_id).

(** Appointment [c] is another appointment of physician [m] at that date
    and start time. *)
Definition ocupa (m : Z) (data_str hora_str : string) (consulta_id : Z) (c : ConsultaDoc) : Prop :=
  medico_id c = Some m /\ data c = data_str /\ hora_inicio c = hora_str
  /\ _id c <> consulta_id.

(** The operation fails with an error of class [k] and writes nothing. *)
Definition falha_com {A} (r : Database * Resultado A) (db : Database) (k : ClasseErro) : Prop :=
  exists e, r = (db, Levanta e) /\ classe e = Some k.

(** The store [db_exemplos] after its appointment 123 was cancelled at
    time 1749600000000. *)
Definition db_cancelada : Database :=
  fst (cancelar_consulta 1749600000000 123 db_exemplos).

(** [db_exemplos] with a second appointment of physician 42, cancelled,
    at 2025-06-11 10:00. *)
Definition db_com_cancelada : Database :=
  set_consulta db_exemplos
    (consulta db_exemplos ++
     [ {| _id := 124; medico_id := Some 42; paciente_id := 102; tipo_exame_id := None;
          data := "2025-06-11"; hora_inicio := "10:00"; duracao_minutos := 30;
          status := CANCELADA; observacoes := Some "Retorno";
          created_at := 1749500000000; updated_at := 1749550000000 |} ])%list.

(** What the store guarantees of the two collections the service writes:
    primary keys are unique and so is the [cpf] of the unique index. *)
Definition bd_integra (db : Database) : Prop :=
  NoDup (map pac_id (paciente db))
  /\ NoDup (map pac_cpf (paciente db))
  /\ NoDup (map _id (consulta db)).

(** [c'] is appointment [c] up to the fields a reschedule or a cancel may
    set: same id, patient, physician, exam type, duration, notes and
    creation time. *)
Definition mesmo_atendimento (c c' : ConsultaDoc) : Prop :=
  _id c' = _id c /\ paciente_id c' = paciente_id c /\ medico_id c' = medico_id c
  /\ tipo_exame_id c' = tipo_exame_id c /\ duracao_minutos c' = duracao_minutos c
  /\ observacoes c' = observacoes c /\ created_at c' = created_at c.

(** From [db] to [db'] only appointment [consulta_id] may have changed, and
    only in date, start time, status or update time. *)
Definition so_toca (consulta_id : Z) (db db' : Database) : Prop :=
  paciente db' = paciente db /\ medico db' = medico db
  /\ tipo_exame db' = tipo_exame db /\ especialidade db' = especialidade db
  /\ map _id (consulta db') = map _id (consulta db)
  /\ forall j c, find_one (com_id j) (consulta db) = Some c ->
       exists c', find_one (com_id j) (consulta db') = Some c'
                  /\ mesmo_atendimento c c' /\ (j <> consulta_id -> c' = c).

(** An appointment read as cancelled in [db] is read as cancelled in [db']. *)
Definition permanece_cancelada (db db' : Database) : Prop :=
  forall i c, find_one (com_id i) (consulta db) = Some c -> status c = CANCELADA ->
    exists c', find_one (com_id i) (consulta db') = Some c' /\ status c' = CANCELADA.

(** The appointment of [db_exemplos], marked as completed. *)
Definition consulta_concluida : ConsultaDoc :=
  {| _id := 123; medico_id := Some 42; paciente_id := 101; tipo_exame_id := Some 1;
     data := "2025-06-10"; hora_inicio := "14:00"; duracao_minutos := 30;
     status := CONCLUIDA; observacoes := Some "Primeira consulta";
     created_at := 1749500000000; updated_at := 1749500000000 |}.

(** A returned view shows the stored fields of appointment [c]. *)
Definition vista_de (c : ConsultaDoc) (ov : option AgendamentoDetalhado) : Prop :=
  exists v, ov = Some v
            /\ ad_id v = _id c /\ ad_paciente_id v = paciente_id c /\ ad_data v = data c
            /\ ad_hora_inicio v = hora_inicio c /\ ad_status v = status c
            /\ ad_medico_id v = medico_id c /\ ad_tipo_exame_id v = tipo_exame_id c.

(** The query of [ver_minhas_consultas] *)
Definition futura_de (paciente_id_arg : Z) (hoje_str : string) (c : ConsultaDoc) : bool :=
  (paciente_id c =? paciente_id_arg) && StatusConsulta_eqb (status c) AGENDADA
  && String.leb hoje_str (data c).

(* ================================================================== *)
(** ** The remaining methods of [DatabaseService] *)
(* ================================================================== *)

(** [Medico] *)
Record Medico := {
  m_id : Z;
  m_nome : string;
  m_crm : string;
  m_especialidade_id : Z;
  nome_especialidade : string
}.

(** [s.endswith(sufixo)] *)
Fixpoint endswith (sufixo s : string) : bool :=
  String.eqb s sufixo ||
  match s with
  | String _ t => endswith sufixo t
  | EmptyString => false
  end.

(** [s[:-n]] for [n > 0] *)
Definition corta_final (n : nat) (s : string) : string :=
  String.substring 0 (String.length s - n) s.

(** [collection.distinct("especialidade_id")] *)
Definition distinct_especialidade_id (medicos : list MedicoDoc) : list Z :=
  nodup Z.eq_dec (map med_especialidade_id medicos).

(** The names are returned as [ListaEspecialidades] wraps them. *)
Definition listar_especialidades_com_medicos (db : Database) : list string :=
  let ids_ativas := distinct_especialidade_id (medico db) in
  match ids_ativas with
  | [] => []
  | _ =>
      map esp_nome
        (find (fun e => existsb (Z.eqb (esp_id e)) ids_ativas) (especialidade db))
  end.

(** [Medico.model_validate] on a physician document to which
    [nome_especialidade] has been added. *)
Definition Medico_model_validate (doc : MedicoDoc) (ne : string) : Medico :=
  {| m_id := med_id doc; m_nome := med_nome doc; m_crm := med_crm doc;
     m_especialidade_id := med_especialidade_id doc; nome_especialidade := ne |}.

(** The exceptions of the two methods that query by a caller-supplied
    regular expression: those of [Excecao], the driver's
    [OperationFailure] for a pattern the server rejects, and the
    [ValueError] of an unknown physician. *)
Inductive ExcecaoBusca :=
| DoServico (e : Excecao)
| OperationFailure
| MedicoNaoEncontrado (nome_medico : string).

Section Regex.

(** The server's regular-expression engine, as the queries
    [{"$regex": padrao, "$options": "i"}] use it: [regex_i padrao] is
    [None] when the server rejects the pattern, otherwise the test "the
    pattern is found somewhere in the text, case ignored". *)
Variable regex_i : string -> option (string -> bool).

(** The loop that adds [nome_especialidade] to each physician found. *)
Definition com_especialidade (db : Database) (medico_data : MedicoDoc) : Medico :=
  let esp_info :=
    find_one (fun e => esp_id e =? med_especialidade_id medico_data) (especialidade db) in
  Medico_model_validate medico_data
    (match esp_info with Some e => esp_nome e | None => "N/A" end).

(** [None] in the outer option is [OperationFailure]. *)
Definition procurar_medicos (db : Database) (especialidade_arg : option string)
  : option (list Medico) :=
  match especialidade_arg with
  | None | Some EmptyString => Some (map (com_especialidade db) (medico db))
  | Some esp =>
      let termo_base := Py.lower esp in
      let termo_base :=
        if endswith "logista" termo_base then corta_final 7 termo_base
        else if endswith "logia" termo_base then corta_final 5 termo_base
        else termo_base in
      match regex_i termo_base with
      | None => None
      | Some casa =>
          match find_one (fun e => casa (esp_nome e)) (especialidade db) with
          | None => Some []
          | Some esp_doc =>
              Some (map (com_especialidade db)
                      (find (fun m => med_especialidade_id m =? esp_id esp_doc) (medico db)))
          end
      end
  end.

(** [created] and [updated] are the two readings of [datetime.utcnow()]
    that [agendar_consulta] makes. *)
Definition agendar_consulta_com_medico (created updated : Z)
  (nome_paciente cpf_paciente data_str hora_inicio_str nome_medico_arg : string)
  (motivo_consulta : option string) (db : Database)
  : Database * (ExcecaoBusca + option AgendamentoDetalhado) :=
  match regex_i nome_medico_arg with
  | None => (db, inl OperationFailure)
  | Some casa_medico =>
      match find_one (fun m => casa_medico (med_nome m)) (medico db) with
      | None => (db, inl (MedicoNaoEncontrado nome_medico_arg))
      | Some medico_doc =>
          match _obter_ou_criar_paciente nome_paciente cpf_paciente db with
          | (db1, Levanta e) => (db1, inl (DoServico e))
          | (db1, Retorna paciente) =>
              let agenda (tipo_exame_id_opt : option Z) :=
                match agendar_consulta created updated (id paciente) data_str hora_inicio_str
                        (Some (med_id medico_doc)) tipo_exame_id_opt motivo_consulta db1 with
                | (db2, Levanta e) => (db2, inl (DoServico e))
                | (db2, Retorna v) => (db2, inr v)
                end in
              match motivo_consulta with
              | None | Some EmptyString => agenda None
              | Some motivo =>
                  match regex_i motivo with
                  | None => (db1, inl OperationFailure)
                  | Some casa_exame =>
                      match find_one (fun e => casa_exame (exa_descricao e)) (tipo_exame db1) with
                      | Some exame_doc => agenda (Some (exa_id exame_doc))
                      | None => agenda None
                      end
                  end
              end
          end
      end
  end.

End Regex.

(** A regular-expression engine for patterns without metacharacters: the
    pattern occurs in the text, ASCII case ignored. *)
Definition regex_literal (padrao : string) : option (string -> bool) :=
  Some (fun texto => Py.contem (Py.lower_ascii padrao) (Py.lower_ascii texto)).

(* ================================================================== *)
(** ** [server.py]: the tools *)
(* ================================================================== *)

(** How a tool call ends: with the service's value, with the
    [HTTPException] the tool raises in place of a [ValueError] (its detail
    is the text of that error), or with an exception the tool lets
    through. *)
Inductive Resposta (A : Type) :=
| Responde (a : A)
| HTTPException (status_code : Z) (detail : Excecao)
| Propaga (e : Excecao).
Arguments Responde {A} a.
Arguments HTTPException {A} status_code detail.
Arguments Propaga {A} e.

(** [isinstance(e, ValueError)]: the service's own errors and pydantic's
    validation error are; the driver's and [OverflowError] are not. *)
Definition e_ValueError (e : Excecao) : bool :=
  match e with
  | ValueError _ | ValidationErrorPydantic => true
  | DuplicateKeyError | OverflowError => false
  end.

(** [try: return f(...) except ValueError as e: raise HTTPException(status_code=codigo, detail=str(e))] *)
Definition except_ValueError {A} (codigo : Z) (r : Resultado A) : Resposta A :=
  match r with
  | Retorna a => Responde a
  | Levanta e => if e_ValueError e then HTTPException codigo e else Propaga e
  end.

Definition tool_verificar_disponibilidade_medico (db : Database) (medico_id_arg : Z)
  (data_str : string) : option (Resposta (list Slot)) :=
  option_map (except_ValueError 400)
    (verificar_disponibilidade_medico db medico_id_arg data_str).

Definition tool_agendar_exame_simples (created updated : Z)
  (nome_paciente cpf_paciente data_str hora_inicio_str nome_exame : string) (db : Database)
  : Database * Resposta (option AgendamentoDetalhado) :=
  let '(db', r) := agendar_exame_simples created updated nome_paciente cpf_paciente data_str
                     hora_inicio_str nome_exame db in
  (db', except_ValueError 400 r).

Definition tool_ver_minhas_consultas (hoje : Py.date) (cpf_paciente : string) (db : Database)
  : Database * Resposta (list (option AgendamentoDetalhado)) :=
  let '(db', r) := ver_minhas_consultas hoje cpf_paciente db in
  (db', except_ValueError 404 r).

(** This tool has no [try]. *)
Definition tool_obter_data_por_termo_relativo (hoje : Py.date) (termo_data : string)
  : Resposta string :=
  match obter_data_por_termo_relativo hoje termo_data with
  | Retorna s => Responde s
  | Levanta e => Propaga e
  end.

(** The request body [ReagendamentoRequest] is given by its two fields. *)
Definition tool_reagendar_consulta (agora consulta_id : Z) (nova_data_str nova_hora_str : string)
  (db : Database) : Database * Resposta (option AgendamentoDetalhado) :=
  let '(db', r) := reagendar_consulta agora consulta_id nova_data_str nova_hora_str db in
  (db', except_ValueError 400 r).

Definition tool_cancelar_consulta (agora consulta_id : Z) (db : Database)
  : Database * Resposta (option AgendamentoDetalhado) :=
  let '(db', r) := cancelar_consulta agora consulta_id db in
  (db', except_ValueError 404 r).

(* ================================================================== *)
(** ** [scripts/db.py]: the example documents *)
(* ================================================================== *)

Section InsertMany.
Context {D : Type} `{Documento D}.

(** [insert_many(docs, ordered=False)] inside [try: ... except Exception:
    pass]: every document is attempted, those that clash are skipped and
    the error raised at the end is swallowed. *)
Definition insert_many_ignorando (ixs : list Indice) (docs novos : list D) : list D :=
  fold_left (fun acc d => match insert_one ixs acc d with Some l => l | None => acc end)
    novos docs.

End InsertMany.

(** [inserir_exemplos], on the fields the service reads ([email],
    [telefone] and [senha_hash] are stored too and never looked at);
    [created] and [updated] are its two readings of the clock. *)
Definition inserir_exemplos (created updated : Z) (db : Database) : Database :=
  let especialidades :=
    [ {| esp_id := 1; esp_nome := "Cardiologia" |}; {| esp_id := 2; esp_nome := "Ortopedia" |} ] in
  let medicos :=
    [ {| med_id := 42; med_nome := "Dr. João Silva"; med_crm := "12345";
         med_especialidade_id := 1 |};
      {| med_id := 58; med_nome := "Dra. Maria Souza"; med_crm := "67890";
         med_especialidade_id := 2 |} ] in
  let tipos_exame :=
    [ {| exa_id := 1; exa_descricao := "Exame de Sangue" |};
      {| exa_id := 2; exa_descricao := "Raio-X" |} ] in
  let pacientes :=
    [ {| pac_id := 101; pac_nome := "Carlos Silva"; pac_cpf := "11122233344" |};
      {| pac_id := 102; pac_nome := "Ana Pereira"; pac_cpf := "55566677788" |} ] in
  let consulta_doc :=
    {| _id := 123; medico_id := Some 42; paciente_id := 101; tipo_exame_id := Some 1;
       data := "2025-06-10"; hora_inicio := "14:00"; duracao_minutos := 30;
       status := AGENDADA; observacoes := Some "Primeira consulta";
       created_at := created; updated_at := updated |} in
  {| especialidade :=
       insert_many_ignorando (ix_especialidade criar_collections) (especialidade db)
         especialidades;
     medico := insert_many_ignorando (ix_medico criar_collections) (medico db) medicos;
     tipo_exame :=
       insert_many_ignorando (ix_tipo_exame criar_collections) (tipo_exame db) tipos_exame;
     paciente := insert_many_ignorando (ix_paciente criar_collections) (paciente db) pacientes;
     consulta :=
       insert_many_ignorando (ix_consulta criar_collections) (consulta db) [consulta_doc] |}.

(* ================================================================== *)
(** ** The embedding on concrete inputs *)
(* ================================================================== *)

Example strptime_Ymd_iso : Py.strptime_Ymd "2025-07-15" = Some 739447.
Proof. reflexivity. Qed.

Example strptime_Ymd_um_digito : Py.strptime_Ymd "2025-7-5" = Py.strptime_Ymd "2025-07-05".
Proof. reflexivity. Qed.

Example strptime_Ymd_fevereiro : Py.strptime_Ymd "2025-02-29" = None.
Proof. reflexivity. Qed.

Example strptime_Ymd_sobra : Py.strptime_Ymd "2025-07-150" = None.
Proof. reflexivity. Qed.

Example strptime_HM_nove : Py.strptime_HM "9:05" = Some 545.
Proof. reflexivity. Qed.

Example strptime_HM_vinte_e_quatro : Py.strptime_HM "24:00" = None.
Proof. reflexivity. Qed.

Example isoformat_ordinal : Py.isoformat 739447 = "2025-07-15".
Proof. reflexivity. Qed.

Example isoformat_ultimo_dia : Py.isoformat Py.MAXORDINAL = "9999-12-31".
Proof. reflexivity. Qed.

Example weekday_terca : Py.weekday 739447 = 1.
Proof. reflexivity. Qed.

Example lower_acentos : Py.lower "AMANHÃ, Terça ou SÁBADO" = "amanhã, terça ou sábado".
Proof. reflexivity. Qed.

Example limpar_cpf_formatado :
  _limpar_e_validar_cpf " 111.222.333-44 " = Retorna "11122233344".
Proof. reflexivity. Qed.

Example limpar_cpf_curto :
  _limpar_e_validar_cpf "111.222.333-4" = Levanta (ValueError CPFInvalido).
Proof. reflexivity. Qed.

(** Digits of other scripts are digits, and U+00A0 (bytes 194, 160) is
    white space. *)
Example limpar_cpf_arabico :
  _limpar_e_validar_cpf "٠١٢.٣٤٥.٦٧٨-٩٠" = Retorna "٠١٢٣٤٥٦٧٨٩٠"
  /\ Py.len "٠١٢٣٤٥٦٧٨٩٠" = 11 /\ String.length "٠١٢٣٤٥٦٧٨٩٠" = 22%nat.
Proof. repeat split; reflexivity. Qed.

Example limpar_cpf_largura_total :
  _limpar_e_validar_cpf "１１１２２２３３３４４" = Retorna "１１１２２２３３３４４".
Proof. reflexivity. Qed.

Example limpar_cpf_espaco_rigido :
  _limpar_e_validar_cpf
    (String (Py.ascii_de 194) (String (Py.ascii_de 160) "111.222.333-44"))
  = Retorna "11122233344".
Proof. reflexivity. Qed.

Example limpar_cpf_letra :
  _limpar_e_validar_cpf "1112223334á" = Levanta (ValueError CPFInvalido).
Proof. reflexivity. Qed.

Example proxima_sexta :
  obter_data_por_termo_relativo 739446 "Próxima SEXTA-feira" = Retorna "2025-07-18".
Proof. reflexivity. Qed.

Example mesma_segunda :
  obter_data_por_termo_relativo 739446 "segunda" = Retorna "2025-07-21".
Proof. reflexivity. Qed.

Example termo_desconhecido :
  obter_data_por_termo_relativo 739446 "depois" = Retorna "2025-07-14".
Proof. reflexivity. Qed.

(* ================================================================== *)
(** ** Properties: relative dates *)
(* ================================================================== *)

Lemma dias_semana_num (nd : string * Z) :
  In nd dias_semana -> 0 <= snd nd < 7.
Proof.
  unfold dias_semana; simpl.
  intuition (subst; simpl; lia).
Qed.

Lemma dias_a_frente_proxima (hoje num_dia : Z) :
  0 <= num_dia < 7 ->
  let k0 := (num_dia - Py.weekday hoje + 7) mod 7 in
  let k := if k0 =? 0 then 7 else k0 in
  1 <= k <= 7 /\ (num_dia = Py.weekday hoje <-> k = 7) /\
  proxima_ocorrencia hoje num_dia (hoje + k).
Proof.
  intros Hn k0 k. unfold proxima_ocorrencia, Py.weekday in *.
  assert (Hk0 : 0 <= k0 < 7) by (apply Z.mod_pos_bound; lia).
  subst k. destruct (Z.eqb_spec k0 0) as [E|E]; subst k0;
    repeat split; intros; try lia;
    revert E; Z.div_mod_to_equations; lia.
Qed.

(** C7. [obter_data_por_termo_relativo] looks for its words in the
    lower-cased term, in this order.  With "hoje" it returns today.
    Failing that, with "amanha" or "amanhã" it returns today plus one day.
    Failing that, with a weekday name it returns the first day strictly
    after today that falls on that weekday: the names are, in the order
    they are tried, "segunda" (Monday, weekday 0), "terca" and "terça" (1),
    "quarta" (2), "quinta" (3), "sexta" (4), "sabado" and "sábado" (5) and
    "domingo" (6), and the first of them that occurs in the term decides;
    the result is today plus [k] days with [1 <= k <= 7], and [k = 7]
    exactly when the weekday is today's.  With none of these words it
    returns today.  Dates are returned in ISO format; adding days is
    Python's date addition. *)
Theorem C7_obter_data_por_termo_relativo (hoje : Py.date) (termo_data : string) :
  let termo := Py.lower termo_data in
  let r := obter_data_por_termo_relativo hoje termo_data in
  let nomes :=
    [("segunda", 0); ("terca", 1); ("terça", 1); ("quarta", 2); ("quinta", 3);
     ("sexta", 4); ("sabado", 5); ("sábado", 5); ("domingo", 6)] in
  (Py.contem "hoje" termo = true -> r = Retorna (Py.isoformat hoje))
  /\ (Py.contem "hoje" termo = false ->
      Py.contem "amanha" termo = true \/ Py.contem "amanhã" termo = true ->
      r = data_apos hoje 1)
  /\ (Py.contem "hoje" termo = false ->
      Py.contem "amanha" termo = false -> Py.contem "amanhã" termo = false ->
      forall anteriores nome_dia num_dia seguintes,
        nomes = (anteriores ++ (nome_dia, num_dia) :: seguintes)%list ->
        Py.contem nome_dia termo = true ->
        (forall nd, In nd anteriores -> Py.contem (fst nd) termo = false) ->
        exists k, 1 <= k <= 7 /\ (num_dia = Py.weekday hoje <-> k = 7)
                  /\ proxima_ocorrencia hoje num_dia (hoje + k)
                  /\ r = data_apos hoje k)
  /\ (Py.contem "hoje" termo = false ->
      Py.contem "amanha" termo = false -> Py.contem "amanhã" termo = false ->
      (forall nd, In nd nomes -> Py.contem (fst nd) termo = false) ->
      r = Retorna (Py.isoformat hoje)).
Proof.
  intros termo r nomes. subst r. unfold obter_data_por_termo_relativo. fold termo.
  change dias_semana with nomes.
  split; [|split; [|split]].
  - intros ->. reflexivity.
  - intros -> [H|H]; rewrite H; [|rewrite orb_true_r]; reflexivity.
  - intros -> -> -> anteriores nome_dia num_dia seguintes Hn Hc Hant. cbn [orb].
    assert (Hf : List.find (fun nd => Py.contem (fst nd) termo) nomes
                 = Some (nome_dia, num_dia)).
    { rewrite Hn. clear Hn. induction anteriores as [|x l IH]; cbn [List.find app fst].
      - rewrite Hc. reflexivity.
      - rewrite (Hant x (or_introl eq_refl)). apply IH.
        intros nd Hnd. apply Hant. right. exact Hnd. }
    rewrite Hf.
    assert (Hnum : 0 <= num_dia < 7).
    { apply find_some in Hf. destruct Hf as [Hin _].
      exact (dias_semana_num (nome_dia, num_dia) Hin). }
    destruct (dias_a_frente_proxima hoje num_dia Hnum) as (Hk & H7 & Hp).
    eexists. split; [exact Hk|]. split; [exact H7|]. split; [exact Hp|]. reflexivity.
  - intros -> -> -> Hnone. cbn [orb].
    destruct (List.find _ nomes) as [[n d]|] eqn:Hf; [|reflexivity].
    apply find_some in Hf. destruct Hf as [Hin Hc].
    rewrite (Hnone _ Hin) in Hc. discriminate.
Qed.

(** On Monday 2025-07-14: "amanhã" is the 15th; "sexta" is the 18th, four
    days ahead, though the term also holds "domingo", which comes later in
    the order of the names; "segunda" is the 21st, a full week ahead. *)
Lemma C7_witness :
  obter_data_por_termo_relativo 739446 "Amanhã cedo" = Retorna "2025-07-15"
  /\ (exists k, 1 <= k <= 7 /\ (4 = Py.weekday 739446 <-> k = 7)
                /\ proxima_ocorrencia 739446 4 (739446 + k)
                /\ obter_data_por_termo_relativo 739446 "Domingo ou SEXTA-feira"
                   = data_apos 739446 k)
  /\ (exists k, 1 <= k <= 7 /\ (0 = Py.weekday 739446 <-> k = 7)
                /\ proxima_ocorrencia 739446 0 (739446 + k)
                /\ obter_data_por_termo_relativo 739446 "na segunda" = data_apos 739446 k).
Proof.
  split; [|split].
  - exact (proj1 (proj2 (C7_obter_data_por_termo_relativo 739446 "Amanhã cedo"))
             eq_refl (or_intror eq_refl)).
  - refine (proj1 (proj2 (proj2 (C7_obter_data_por_termo_relativo 739446
                                   "Domingo ou SEXTA-feira")))
              eq_refl eq_refl eq_refl
              [("segunda", 0); ("terca", 1); ("terça", 1); ("quarta", 2); ("quinta", 3)]
              "sexta" 4 [("sabado", 5); ("sábado", 5); ("domingo", 6)]
              eq_refl eq_refl _).
    intros nd [<-|[<-|[<-|[<-|[<-|[]]]]]]; reflexivity.
  - refine (proj1 (proj2 (proj2 (C7_obter_data_por_termo_relativo 739446 "na segunda")))
              eq_refl eq_refl eq_refl [] "segunda" 0
              [("terca", 1); ("terça", 1); ("quarta", 2); ("quinta", 3);
               ("sexta", 4); ("sabado", 5); ("sábado", 5); ("domingo", 6)]
              eq_refl eq_refl _).
    intros nd [].
Defined.

Example sexta_antes_de_domingo :
  obter_data_por_termo_relativo 739446 "Domingo ou SEXTA-feira" = Retorna "2025-07-18"
  /\ obter_data_por_termo_relativo 739446 "na segunda" = Retorna "2025-07-21".
Proof. split; reflexivity. Qed.

(* ================================================================== *)
(** ** Properties of the store operations *)
(* ================================================================== *)

Section StoreFacts.
Context {D : Type} `{Documento D}.

Lemma find_one_maior_id_None (docs : list D) :
  find_one_maior_id docs = None -> docs = [].
Proof.
  destruct docs as [|d r]; [reflexivity|]. simpl.
  destruct (find_one_maior_id r) as [m|]; [|discriminate].
  destruct (id_de d <? id_de m); discriminate.
Qed.

Lemma find_one_maior_id_max (docs : list D) (m : D) :
  find_one_maior_id docs = Some m ->
  In m docs /\ forall d, In d docs -> id_de d <= id_de m.
Proof.
  revert m. induction docs as [|d r IH]; intros m Hm; [discriminate|].
  simpl in Hm. destruct (find_one_maior_id r) as [m'|] eqn:Hr.
  - destruct (IH m' eq_refl) as [Hin Hmax].
    destruct (Z.ltb_spec (id_de d) (id_de m')) as [Hlt|Hge];
      inversion Hm; subst m; clear Hm.
    + split; [right; exact Hin|].
      intros x [<-|Hx]; [lia|apply Hmax, Hx].
    + split; [left; reflexivity|].
      intros x [<-|Hx]; [lia|]. specialize (Hmax x Hx). lia.
  - inversion Hm; subst m. apply find_one_maior_id_None in Hr. subst r.
    split; [left; reflexivity|]. intros x [<-|[]]. lia.
Qed.

Lemma proximo_id_novo (semente : Z) (docs : list D) (d : D) :
  In d docs -> id_de d <> proximo_id semente docs.
Proof.
  intros Hin. unfold proximo_id.
  destruct (find_one_maior_id docs) as [m|] eqn:Hm.
  - apply find_one_maior_id_max in Hm. destruct Hm as [_ Hmax].
    specialize (Hmax d Hin). lia.
  - apply find_one_maior_id_None in Hm. subst docs. destruct Hin.
Qed.

Lemma existsb_id_novo (semente : Z) (docs : list D) :
  existsb (fun x => id_de x =? proximo_id semente docs) docs = false.
Proof.
  destruct (existsb _ docs) eqn:E; [|reflexivity].
  apply existsb_exists in E. destruct E as (x & Hin & Hx).
  apply Z.eqb_eq in Hx. exfalso. exact (proximo_id_novo semente docs x Hin Hx).
Qed.

Lemma find_one_app_None (p : D -> bool) (l l' : list D) :
  find_one p l = None -> find_one p (l ++ l')%list = find_one p l'.
Proof.
  unfold find_one. induction l as [|x r IH]; simpl; [reflexivity|].
  destruct (p x); [discriminate|exact IH].
Qed.

Lemma find_one_app_Some (p : D -> bool) (l l' : list D) (x : D) :
  find_one p l = Some x -> find_one p (l ++ l')%list = Some x.
Proof.
  unfold find_one. induction l as [|y r IH]; simpl; [discriminate|].
  destruct (p y); [trivial|exact IH].
Qed.

Lemma find_one_None_forall (p : D -> bool) (l : list D) :
  find_one p l = None -> forall x, In x l -> p x = false.
Proof. unfold find_one. intros Hn x Hx. exact (find_none p l Hn x Hx). Qed.

Lemma existsb_false_of_find_None (p : D -> bool) (l : list D) :
  find_one p l = None -> existsb p l = false.
Proof.
  intros Hn. destruct (existsb p l) eqn:E; [|reflexivity].
  apply existsb_exists in E. destruct E as (x & Hin & Hx).
  rewrite (find_one_None_forall p l Hn x Hin) in Hx. discriminate.
Qed.

(** A document with a fresh id that repeats no unique key is appended. *)
Lemma insert_one_novo (ixs : list Indice) (docs : list D) (d : D) :
  existsb (fun x => id_de x =? id_de d) docs = false ->
  (forall ix, In ix ixs -> unique ix = true ->
     existsb (fun x => chave_eqb (chave_de ix x) (chave_de ix d)) docs = false) ->
  insert_one ixs docs d = Some (docs ++ [d])%list.
Proof.
  intros Hid Hix. unfold insert_one, chave_duplicada. rewrite Hid. simpl.
  replace (existsb _ ixs) with false; [reflexivity|].
  symmetry. destruct (existsb _ ixs) eqn:E; [|reflexivity].
  apply existsb_exists in E. destruct E as (ix & Hin & Hx).
  apply andb_true_iff in Hx. destruct Hx as [Hu Hx].
  rewrite (Hix ix Hin Hu) in Hx. discriminate.
Qed.

Variable D_eq_dec : forall a b : D, {a = b} + {a <> b}.

Lemma update_one_None (p : D -> bool) (set : D -> D) (docs : list D) :
  find_one p docs = None -> update_one D_eq_dec p set docs = (docs, 0).
Proof.
  unfold find_one. induction docs as [|d r IH]; simpl; [reflexivity|].
  destruct (p d); [discriminate|]. intros Hn. rewrite (IH Hn). reflexivity.
Qed.

(** The write lands on the first match and nowhere else. *)
Lemma update_one_Some (p : D -> bool) (set : D -> D) (docs : list D) (d : D) :
  find_one p docs = Some d ->
  exists l1 l2, docs = (l1 ++ d :: l2)%list /\ find_one p l1 = None /\
    update_one D_eq_dec p set docs
    = ((l1 ++ set d :: l2)%list, if D_eq_dec d (set d) then 0 else 1).
Proof.
  unfold find_one. induction docs as [|x r IH]; simpl; [discriminate|].
  destruct (p x) eqn:Hp.
  - intros Hs. inversion Hs; subst x. exists [], r. simpl. auto.
  - intros Hs. destruct (IH Hs) as (l1 & l2 & -> & Hn & Hu).
    exists (x :: l1), l2. simpl. rewrite Hp, Hu. auto.
Qed.

End StoreFacts.

(* ================================================================== *)
(** ** Properties: patient identity *)
(* ================================================================== *)

Lemma obter_paciente_existente (db : Database) (nome_completo cpf cpf_limpo : string)
  (doc : PacienteDoc) :
  _limpar_e_validar_cpf cpf = Retorna cpf_limpo ->
  find_one (cpf_igual cpf_limpo) (paciente db) = Some doc ->
  _obter_ou_criar_paciente nome_completo cpf db = (db, Retorna (Paciente_model_validate doc)).
Proof.
  intros Hcpf Hfind. unfold _obter_ou_criar_paciente, bind, lift, ler.
  rewrite Hcpf. unfold cpf_igual in Hfind. rewrite Hfind. reflexivity.
Qed.

Lemma pacientes_insert_novo (db : Database) (nome_completo cpf_limpo : string) :
  find_one (cpf_igual cpf_limpo) (paciente db) = None ->
  pacientes_insert_one (novo_paciente db nome_completo cpf_limpo) db
  = (set_paciente db (paciente db ++ [novo_paciente db nome_completo cpf_limpo])%list,
     Retorna tt).
Proof.
  intros Hfind. unfold pacientes_insert_one.
  rewrite insert_one_novo; [reflexivity| |].
  - apply (existsb_id_novo 101 (paciente db)).
  - intros ix [<-|[]] _.
    match goal with |- ?b = false => destruct b eqn:E end; [|reflexivity].
    apply existsb_exists in E. destruct E as (p & Hin & Hp). cbn in Hp.
    rewrite andb_true_r in Hp.
    pose proof (find_one_None_forall _ _ Hfind p Hin) as Hq.
    unfold cpf_igual in Hq. rewrite Hq in Hp. discriminate.
Qed.

Lemma obter_paciente_novo (db : Database) (nome_completo cpf cpf_limpo : string) :
  _limpar_e_validar_cpf cpf = Retorna cpf_limpo ->
  find_one (cpf_igual cpf_limpo) (paciente db) = None ->
  _obter_ou_criar_paciente nome_completo cpf db
  = (set_paciente db (paciente db ++ [novo_paciente db nome_completo cpf_limpo])%list,
     Retorna (Paciente_model_validate (novo_paciente db nome_completo cpf_limpo))).
Proof.
  intros Hcpf Hfind. unfold _obter_ou_criar_paciente, bind, lift, ler.
  rewrite Hcpf. pose proof Hfind as Hf. unfold cpf_igual in Hf. rewrite Hf.
  pose proof (pacientes_insert_novo db nome_completo cpf_limpo Hfind) as Hins.
  unfold novo_paciente, proximo_id in Hins. cbn [id_de Documento_Paciente] in Hins.
  rewrite Hins. reflexivity.
Qed.

(** A validated CPF is eleven digit characters. *)
Lemma cpf_limpo_onze_digitos (cpf cpf_limpo : string) :
  _limpar_e_validar_cpf cpf = Retorna cpf_limpo ->
  Py.len cpf_limpo = 11 /\ Py.isdigit cpf_limpo = true.
Proof.
  unfold _limpar_e_validar_cpf.
  set (c := Py.strip _).
  destruct (Py.isdigit c) eqn:Hd; [|discriminate].
  destruct (Z.eqb_spec (Py.len c) 11) as [Hl|Hl]; [|discriminate].
  cbn. intros E. inversion E; subst cpf_limpo. split; [exact Hl|exact Hd].
Qed.

(** C6. For a national ID that cleans up to eleven digits, looking the
    patient up twice with [_obter_ou_criar_paciente] returns the same
    patient (so the same id) both times, whatever names are supplied, and
    the second call leaves the database, hence the stored patient record
    and its name, as the first call left it. *)
Theorem C6_obter_ou_criar_paciente_idempotente
  (db : Database) (nome1 nome2 cpf cpf_limpo : string) :
  _limpar_e_validar_cpf cpf = Retorna cpf_limpo ->
  exists (p : Paciente) (doc : PacienteDoc) (db1 : Database),
    _obter_ou_criar_paciente nome1 cpf db = (db1, Retorna p)
    /\ _obter_ou_criar_paciente nome2 cpf db1 = (db1, Retorna p)
    /\ find_one (cpf_igual cpf_limpo) (paciente db1) = Some doc
    /\ pac_id doc = id p /\ pac_nome doc = nome p /\ pac_cpf doc = cpf_limpo
    /\ Py.len cpf_limpo = 11.
Proof.
  intros Hcpf.
  destruct (cpf_limpo_onze_digitos _ _ Hcpf) as [Hlen _].
  destruct (find_one (cpf_igual cpf_limpo) (paciente db)) as [doc|] eqn:Hfind.
  - exists (Paciente_model_validate doc), doc, db.
    rewrite !(obter_paciente_existente db _ cpf cpf_limpo doc Hcpf Hfind).
    repeat (split; [reflexivity || exact Hfind|]).
    split; [|exact Hlen].
    apply find_some in Hfind. destruct Hfind as [_ Hc].
    apply String.eqb_eq in Hc. exact Hc.
  - set (novo := novo_paciente db nome1 cpf_limpo).
    set (db1 := set_paciente db (paciente db ++ [novo])%list).
    assert (Hfind1 : find_one (cpf_igual cpf_limpo) (paciente db1) = Some novo).
    { cbn. rewrite (find_one_app_None _ _ _ Hfind). cbn.
      unfold cpf_igual. cbn. rewrite String.eqb_refl. reflexivity. }
    exists (Paciente_model_validate novo), novo, db1.
    rewrite (obter_paciente_novo db nome1 cpf cpf_limpo Hcpf Hfind).
    rewrite (obter_paciente_existente db1 nome2 cpf cpf_limpo novo Hcpf Hfind1).
    repeat (split; [reflexivity || exact Hfind1|]). exact Hlen.
Qed.

Lemma C6_witness :
  exists (p : Paciente) (doc : PacienteDoc) (db1 : Database),
    let db := {| medico := []; consulta := []; especialidade := []; tipo_exame := [];
                 paciente := [] |} in
    _obter_ou_criar_paciente "Carlos Silva" "111.222.333-44" db = (db1, Retorna p)
    /\ _obter_ou_criar_paciente "Outro Nome" "111.222.333-44" db1 = (db1, Retorna p)
    /\ find_one (cpf_igual "11122233344") (paciente db1) = Some doc
    /\ pac_id doc = id p /\ pac_nome doc = nome p /\ pac_cpf doc = "11122233344"
    /\ Py.len "11122233344" = 11.
Proof.
  exact (C6_obter_ou_criar_paciente_idempotente
           {| medico := []; consulta := []; especialidade := []; tipo_exame := [];
              paciente := [] |}
           "Carlos Silva" "Outro Nome" "111.222.333-44" "11122233344" eq_refl).
Defined.

(* ================================================================== *)
(** ** Properties: listing a patient's appointments *)
(* ================================================================== *)

(** C10, counterexample without the proviso on stored appointments: the
    national ID is valid and matches no patient, yet the listing is not
    empty, because the freshly created patient receives id 101, which a
    stored appointment already names. *)
Lemma C10_counterexample :
  _limpar_e_validar_cpf "999.888.777-66" = Retorna "99988877766"
  /\ find_one (cpf_igual "99988877766") (paciente db_consulta_orfa) = None
  /\ snd (ver_minhas_consultas 739447 "999.888.777-66" db_consulta_orfa)
     = Retorna [ Some {| ad_id := 123; ad_paciente_id := 101; ad_data := "2099-01-01";
                         ad_hora_inicio := "14:00"; ad_status := AGENDADA;
                         ad_observacoes := "Retorno"; ad_medico_id := None;
                         ad_tipo_exame_id := None; nome_medico := "N/A (Apenas Exame)";
                         descricao_exame := "Consulta de Rotina" |} ]
  /\ snd (ver_minhas_consultas 739447 "999.888.777-66" db_consulta_orfa) <> Retorna [].
Proof.
  split; [reflexivity|]. split; [reflexivity|]. split; [reflexivity|].
  vm_compute. discriminate.
Qed.

Lemma filter_nenhum {A} (p : A -> bool) (l : list A) :
  (forall x, In x l -> p x = false) -> filter p l = [].
Proof.
  induction l as [|x r IH]; intros Hp; [reflexivity|]. simpl.
  rewrite (Hp x (or_introl eq_refl)). apply IH. intros y Hy. apply Hp. right. exact Hy.
Qed.

(** C10. For a national ID that cleans up to eleven digits and
    matches no stored patient, provided no stored appointment carries the
    id the new patient receives, [ver_minhas_consultas] appends a patient
    named "Busca" with that national ID to the patient collection, returns
    the empty list instead of failing, and leaves every other collection,
    the appointments among them, as it was. *)
Theorem C10_ver_minhas_consultas_cria_paciente
  (db : Database) (hoje : Py.date) (cpf cpf_limpo : string) :
  _limpar_e_validar_cpf cpf = Retorna cpf_limpo ->
  find_one (cpf_igual cpf_limpo) (paciente db) = None ->
  (forall c, In c (consulta db) -> paciente_id c <> proximo_id 101 (paciente db)) ->
  exists db',
    ver_minhas_consultas hoje cpf db = (db', Retorna [])
    /\ paciente db'
       = (paciente db ++ [ {| pac_id := proximo_id 101 (paciente db); pac_nome := "Busca";
                              pac_cpf := cpf_limpo |} ])%list
    /\ consulta db' = consulta db
    /\ medico db' = medico db /\ tipo_exame db' = tipo_exame db
    /\ especialidade db' = especialidade db.
Proof.
  intros Hcpf Hfind Hfresh.
  exists (set_paciente db (paciente db ++ [novo_paciente db "Busca" cpf_limpo])%list).
  split; [|repeat split].
  unfold ver_minhas_consultas, bind.
  rewrite (obter_paciente_novo db "Busca" cpf cpf_limpo Hcpf Hfind).
  cbn [set_paciente consulta Paciente_model_validate id novo_paciente pac_id].
  unfold find. rewrite filter_nenhum; [reflexivity|].
  intros c Hc. specialize (Hfresh c Hc).
  destruct (Z.eqb_spec (paciente_id c) (proximo_id 101 (paciente db))); [contradiction|].
  reflexivity.
Qed.

Lemma C10_witness :
  exists db',
    ver_minhas_consultas 739447 "999.888.777-66"
      {| medico := []; especialidade := []; tipo_exame := [];
         paciente := [ {| pac_id := 101; pac_nome := "Carlos Silva"; pac_cpf := "11122233344" |} ];
         consulta := consulta db_consulta_orfa |} = (db', Retorna [])
    /\ paciente db'
       = [ {| pac_id := 101; pac_nome := "Carlos Silva"; pac_cpf := "11122233344" |};
           {| pac_id := 102; pac_nome := "Busca"; pac_cpf := "99988877766" |} ]
    /\ consulta db' = consulta db_consulta_orfa
    /\ medico db' = [] /\ tipo_exame db' = [] /\ especialidade db' = [].
Proof.
  refine (C10_ver_minhas_consultas_cria_paciente
            {| medico := []; especialidade := []; tipo_exame := [];
               paciente := [ {| pac_id := 101; pac_nome := "Carlos Silva";
                                pac_cpf := "11122233344" |} ];
               consulta := consulta db_consulta_orfa |}
            739447 "999.888.777-66" "99988877766" eq_refl eq_refl _).
  intros c [<-|[]]. vm_compute. discriminate.
Defined.

(** Referential integrity is enough for the proviso of C10: when every
    appointment names a stored patient, none names the next id. *)
Lemma integridade_referencial_basta (db : Database) :
  (forall c, In c (consulta db) -> exists p, In p (paciente db) /\ pac_id p = paciente_id c) ->
  forall c, In c (consulta db) -> paciente_id c <> proximo_id 101 (paciente db).
Proof.
  intros Hri c Hc. destruct (Hri c Hc) as (p & Hp & <-).
  exact (proximo_id_novo 101 (paciente db) p Hp).
Qed.

(* ================================================================== *)
(** ** Properties of dates and times of day *)
(* ================================================================== *)

Lemma in_range_digit_val (lo hi : nat) (c : ascii) :
  Py.in_range lo hi c = true ->
  Z.of_nat lo - 48 <= Py.digit_val c <= Z.of_nat hi - 48.
Proof.
  unfold Py.in_range, Py.digit_val. intros H.
  apply andb_true_iff in H. destruct H as [H1 H2].
  apply Nat.leb_le in H1. apply Nat.leb_le in H2. lia.
Qed.

Lemma is_digit_val (c : ascii) :
  Py.is_digit c = true -> 0 <= Py.digit_val c <= 9.
Proof. intros H. apply (in_range_digit_val 48 57 c) in H. lia. Qed.

Lemma ascii_eqb_digit_val (a b : ascii) :
  Ascii.eqb a b = true -> Py.digit_val a = Py.digit_val b.
Proof. intros H. apply Ascii.eqb_eq in H. subst. reflexivity. Qed.

(** Collects what the character tests of a directive say about the
    digits read. *)
Ltac digitos :=
  repeat match goal with
  | H : (_ || _)%bool = true |- _ => apply orb_true_iff in H; destruct H as [H|H]
  | H : (_ && _)%bool = true |- _ => apply andb_true_iff in H; destruct H
  | H : Py.in_range _ _ _ = true |- _ => apply in_range_digit_val in H; cbn in H
  | H : Py.is_digit _ = true |- _ => apply is_digit_val in H
  | H : Ascii.eqb _ ?b = true |- _ =>
      apply ascii_eqb_digit_val in H;
      let v := eval vm_compute in (Py.digit_val b) in change (Py.digit_val b) with v in H
  | H : (if ?b then _ else _) = Some _ |- _ => destruct b eqn:?
  | H : Some _ = Some _ |- _ => inversion H; subst; clear H
  | H : None = Some _ |- _ => discriminate H
  end.

Lemma match_Y_range (s r : string) (y : Z) :
  Py.match_Y s = Some (y, r) -> 0 <= y <= 9999.
Proof.
  unfold Py.match_Y. destruct s as [|a [|b [|c [|d t]]]]; try discriminate.
  intros H. digitos. lia.
Qed.

Lemma match_m_range (s r : string) (m : Z) :
  Py.match_m s = Some (m, r) -> 1 <= m <= 12.
Proof.
  unfold Py.match_m. destruct s as [|a [|b t]]; try discriminate;
    intros H; digitos; lia.
Qed.

Lemma match_d_range (s r : string) (d : Z) :
  Py.match_d s = Some (d, r) -> 1 <= d <= 31.
Proof.
  unfold Py.match_d. destruct s as [|a [|b t]]; try discriminate;
    intros H; digitos; lia.
Qed.

Lemma ymd2ord_range (y m d : Z) :
  1 <= y <= 9999 -> 1 <= m <= 12 -> 1 <= d <= Py.days_in_month y m ->
  1 <= Py.ymd2ord y m d <= Py.MAXORDINAL.
Proof.
  intros Hy Hm Hd.
  unfold Py.ymd2ord, Py.days_before_year, Py.days_before_month, Py.MAXORDINAL.
  unfold Py.days_in_month in Hd.
  assert (Hleap : Py.is_leap y = true -> y <= 9996).
  { unfold Py.is_leap. intros H. apply andb_true_iff in H. destruct H as [H _].
    apply Z.eqb_eq in H. revert H. Z.div_mod_to_equations. lia. }
  assert (Hm' : m = 1 \/ m = 2 \/ m = 3 \/ m = 4 \/ m = 5 \/ m = 6 \/ m = 7 \/ m = 8
                \/ m = 9 \/ m = 10 \/ m = 11 \/ m = 12) by lia.
  destruct (Py.is_leap y);
    [specialize (Hleap eq_refl)|clear Hleap];
    repeat (destruct Hm' as [->|Hm']); try subst m;
    repeat match goal with
    | |- context [nth ?n ?l ?d] =>
        let v := eval vm_compute in (nth n l d) in change (nth n l d) with v
    | H : context [nth ?n ?l ?d] |- _ =>
        let v := eval vm_compute in (nth n l d) in change (nth n l d) with v in H
    end;
    cbn in Hd |- *; Z.div_mod_to_equations; lia.
Qed.

Lemma strptime_Ymd_range (s : string) (d : Py.date) :
  Py.strptime_Ymd s = Some d -> 1 <= d <= Py.MAXORDINAL.
Proof.
  unfold Py.strptime_Ymd.
  destruct (Py.match_Y s) as [[y r1]|] eqn:HY; [|discriminate].
  destruct (Py.match_lit "-" r1) as [r2|]; [|discriminate].
  destruct (Py.match_m r2) as [[m r3]|] eqn:Hm; [|discriminate].
  destruct (Py.match_lit "-" r3) as [r4|]; [|discriminate].
  destruct (Py.match_d r4) as [[dd [|? ?]]|] eqn:Hd; try discriminate.
  destruct (Z.leb_spec 1 y); [|discriminate].
  destruct (Z.leb_spec dd (Py.days_in_month y m)); [|discriminate].
  cbn. intros E. inversion E; subst d.
  apply match_Y_range in HY. apply match_m_range in Hm. apply match_d_range in Hd.
  apply ymd2ord_range; lia.
Qed.

(** Within a day, adding minutes moves only the time of day. *)
Lemma datetime_add_minutes_mesmo_dia (d : Py.date) (t k : Z) :
  1 <= d <= Py.MAXORDINAL -> 0 <= t + k < 1440 ->
  Py.datetime_add_minutes (d, t) k = Some (d, t + k).
Proof.
  intros Hd Ht. unfold Py.datetime_add_minutes. cbn [fst snd].
  rewrite (Z.div_small (t + k) 1440) by lia.
  rewrite (Z.mod_small (t + k) 1440) by lia.
  rewrite Z.add_0_r.
  destruct (Z.ltb_spec 0 d); [|lia].
  destruct (Z.leb_spec d Py.MAXORDINAL); [|lia]. reflexivity.
Qed.

(** [strptime] reads back what [strftime] writes. *)
Lemma strptime_strftime_HM (t : Py.time) :
  0 <= t < 1440 -> Py.strptime_HM (Py.strftime_HM t) = Some t.
Proof.
  intros Ht.
  assert (Hall : forallb (fun n => match Py.strptime_HM (Py.strftime_HM (Z.of_nat n)) with
                                   | Some t' => t' =? Z.of_nat n
                                   | None => false
                                   end) (seq 0 1440) = true) by (vm_compute; reflexivity).
  rewrite forallb_forall in Hall.
  specialize (Hall (Z.to_nat t)). rewrite Z2Nat.id in Hall by lia.
  assert (Hin : In (Z.to_nat t) (seq 0 1440)) by (apply in_seq; lia).
  specialize (Hall Hin).
  destruct (Py.strptime_HM (Py.strftime_HM t)) as [t'|]; [|discriminate].
  apply Z.eqb_eq in Hall. subst. reflexivity.
Qed.

(* ================================================================== *)
(** ** Properties: slot availability *)
(* ================================================================== *)

Lemma gerar_slots_desde (k : nat) :
  forall (n : nat) (oc : list (Py.time * Py.time)) (d : Py.date) (t : Py.time)
         (acc : list Slot),
    1 <= d <= Py.MAXORDINAL -> t = 1080 - 30 * Z.of_nat k -> 0 <= t -> (k < n)%nat ->
    gerar_slots n oc (d, t) acc
    = Some (Retorna (acc ++ map slot_de
                       (filter (livre oc) (map (fun i => t + 30 * Z.of_nat i) (seq 0 k))))%list).
Proof.
  induction k as [|k IH]; intros n oc d t acc Hd Ht Ht0 Hn;
    (destruct n as [|n]; [lia|]); cbn [gerar_slots snd].
  - replace t with 1080 by lia. cbn. rewrite app_nil_r. reflexivity.
  - change horario_fim with 1080. change duracao_slot with 30.
    destruct (Z.ltb_spec t 1080) as [_|Hge]; [|lia].
    rewrite datetime_add_minutes_mesmo_dia by lia. cbn [snd].
    rewrite (IH n oc d (t + 30)) by lia.
    cbn [seq map filter]. rewrite <- seq_shift, map_map.
    rewrite (map_ext (fun i => t + 30 * Z.of_nat (S i)) (fun i => t + 30 + 30 * Z.of_nat i))
      by (intros; lia).
    replace (t + 30 * Z.of_nat 0) with t by lia.
    change (negb (sobrepoe t (t + 30) oc)) with (livre oc t). fold (slot_de t).
    destruct (livre oc t); cbn [map];
      rewrite <- ?app_assoc; reflexivity.
Qed.

Lemma mapR_Retorna {A B} (f : A -> Resultado B) (xs : list A) (ys : list B) :
  mapR f xs = Retorna ys ->
  forall x, In x xs -> exists y, In y ys /\ f x = Retorna y.
Proof.
  revert ys. induction xs as [|a r IH]; intros ys Hm x Hx; [destruct Hx|].
  cbn in Hm. destruct (f a) as [b|] eqn:Hfa; [|discriminate].
  destruct (mapR f r) as [bs|] eqn:Hr; [|discriminate].
  inversion Hm; subst ys. destruct Hx as [<-|Hx].
  - exists b. split; [left; reflexivity|exact Hfa].
  - destruct (IH bs eq_refl x Hx) as (y & Hy & Hfy).
    exists y. split; [right; exact Hy|exact Hfy].
Qed.

(** What [verificar_disponibilidade_medico] returns once the date and the
    stored start times have been read. *)
Lemma verificar_disponibilidade_medico_livres
  (db : Database) (medico_id_arg : Z) (data_str : string) (d : Py.date)
  (oc : list (Py.time * Py.time)) :
  Py.strptime_Ymd data_str = Some d ->
  mapR (horario_ocupado d) (find (agendada_com medico_id_arg data_str) (consulta db))
  = Retorna oc ->
  verificar_disponibilidade_medico db medico_id_arg data_str
  = Some (Retorna (map slot_de (filter (livre oc) inicios_do_dia))).
Proof.
  intros Hd Hoc. unfold verificar_disponibilidade_medico. rewrite Hd.
  unfold agendada_com in Hoc. rewrite Hoc.
  unfold Py.combine. change horario_inicio with 480.
  rewrite (gerar_slots_desde 20 limite_slots oc d 480 []);
    [reflexivity|exact (strptime_Ymd_range _ _ Hd)|reflexivity|lia|unfold limite_slots; lia].
Qed.

(** The slot loop never reaches its bound: the method always ends, with a
    list of slots or with an exception. *)
Lemma verificar_disponibilidade_medico_termina
  (db : Database) (medico_id_arg : Z) (data_str : string) :
  exists r, verificar_disponibilidade_medico db medico_id_arg data_str = Some r.
Proof.
  destruct (Py.strptime_Ymd data_str) as [d|] eqn:Hd.
  - destruct (mapR (horario_ocupado d)
                (find (agendada_com medico_id_arg data_str) (consulta db))) as [oc|e] eqn:Hoc.
    + eexists. exact (verificar_disponibilidade_medico_livres db _ _ d oc Hd Hoc).
    + exists (Levanta e). unfold verificar_disponibilidade_medico. rewrite Hd.
      unfold agendada_com in Hoc. rewrite Hoc. reflexivity.
  - eexists. unfold verificar_disponibilidade_medico. rewrite Hd. reflexivity.
Qed.

(** For a consultation that ends on the day it starts, the interval the
    code computes is [start, start + duration). *)
Lemma horario_ocupado_intervalo (d : Py.date) (c : ConsultaDoc) (s : Py.time) :
  1 <= d <= Py.MAXORDINAL ->
  Py.strptime_HM (hora_inicio c) = Some s ->
  0 <= s + duracao_minutos c < 1440 ->
  horario_ocupado d c = Retorna (s, s + duracao_minutos c).
Proof.
  intros Hd Hs Hdur. unfold horario_ocupado, Py.combine. rewrite Hs.
  rewrite datetime_add_minutes_mesmo_dia by assumption. reflexivity.
Qed.

Lemma inicios_do_dia_range (a : Py.time) :
  In a inicios_do_dia -> 480 <= a <= 1050.
Proof.
  unfold inicios_do_dia. intros H. apply in_map_iff in H.
  destruct H as (i & <- & Hi). apply in_seq in Hi. lia.
Qed.

Lemma StronglySorted_filter {A} (R : A -> A -> Prop) (p : A -> bool) (l : list A) :
  StronglySorted R l -> StronglySorted R (filter p l).
Proof.
  induction 1 as [|x l Hs IH Hx]; cbn; [constructor|].
  destruct (p x); [|exact IH]. constructor; [exact IH|].
  rewrite Forall_forall in *. intros y Hy. apply filter_In in Hy. apply Hx, Hy.
Qed.

Lemma StronglySorted_map {A B} (R : B -> B -> Prop) (f : A -> B) (l : list A) :
  StronglySorted (fun x y => R (f x) (f y)) l -> StronglySorted R (map f l).
Proof.
  induction 1 as [|x l Hs IH Hx]; cbn; constructor; [exact IH|].
  rewrite Forall_forall in *. intros y Hy. apply in_map_iff in Hy.
  destruct Hy as (z & <- & Hz). apply Hx, Hz.
Qed.

Lemma inicios_do_dia_crescente :
  forall (k : nat) (s : nat),
    StronglySorted Z.lt (map (fun i => 480 + 30 * Z.of_nat i) (seq s k)).
Proof.
  induction k as [|k IH]; intros s; cbn [seq map]; constructor; [apply IH|].
  rewrite Forall_forall. intros y Hy. apply in_map_iff in Hy.
  destruct Hy as (i & <- & Hi). apply in_seq in Hi. lia.
Qed.

Lemma StronglySorted_impl_In {A} (R S : A -> A -> Prop) (l : list A) :
  (forall x y, In x l -> In y l -> R x y -> S x y) ->
  StronglySorted R l -> StronglySorted S l.
Proof.
  intros HRS Hs. induction Hs as [|x l Hs IH Hx]; constructor.
  - apply IH. intros a b Ha Hb. apply HRS; right; assumption.
  - rewrite Forall_forall in *. intros y Hy.
    apply HRS; [left; reflexivity|right; exact Hy|apply Hx, Hy].
Qed.

Lemma Some_Retorna_inj {A} (x y : A) : Some (Retorna x) = Some (Retorna y) -> x = y.
Proof. intros H. injection H as H. exact H. Qed.

(** The occupied interval of a consultation: it starts at the time of day
    [hora_inicio] spells and its end is start plus duration, kept as a time
    of day. *)
Lemma horario_ocupado_inv (d : Py.date) (c : ConsultaDoc) (s e : Py.time) :
  horario_ocupado d c = Retorna (s, e) ->
  Py.strptime_HM (hora_inicio c) = Some s /\ e = (s + duracao_minutos c) mod 1440.
Proof.
  unfold horario_ocupado, Py.combine, Py.datetime_add_minutes. cbn [fst snd].
  destruct (Py.strptime_HM (hora_inicio c)) as [i|]; [|discriminate].
  destruct ((0 <? _) && (_ <=? Py.MAXORDINAL)); [|discriminate].
  cbn [snd]. intros E. inversion E; subst. auto.
Qed.

(** C4. Whenever [verificar_disponibilidade_medico] returns a list of
    slots for a physician and a date, the date is well formed and the
    following holds for every returned slot [[a,b)] and every stored
    consultation of that physician on that date with status AGENDADA.  The
    start [s] of the consultation is the time of day its [hora_inicio]
    spells, and its end is [e = s + duracao_minutos].  The code keeps the
    end as a time of day, [e mod 1440], and the slot fails the overlap test
    [a < end and b > s] against it.  When the consultation ends before
    midnight, or starts at or after 18:00 (one or the other holds for every
    consultation of thirty minutes), the slot does not overlap [[s,e)]: it
    ends by [s] or starts at or after [e].  The returned slots are in
    strictly increasing order of start time. *)
Theorem C4_slots_livres_nao_sobrepoem
  (db : Database) (medico_id_arg : Z) (data_str : string) (slots : list Slot) :
  verificar_disponibilidade_medico db medico_id_arg data_str = Some (Retorna slots) ->
  (exists d, Py.strptime_Ymd data_str = Some d)
  /\ (forall sl, In sl slots ->
        exists a b,
          Py.strptime_HM (slot_hora_inicio sl) = Some a
          /\ Py.strptime_HM (slot_hora_fim sl) = Some b
          /\ forall c, In c (consulta db) ->
               medico_id c = Some medico_id_arg -> data c = data_str ->
               status c = AGENDADA ->
               exists s, Py.strptime_HM (hora_inicio c) = Some s
                 /\ let e := s + duracao_minutos c in
                    ((a <? e mod 1440) && (b >? s) = false)
                    /\ (e < 1440 \/ 1080 <= s ->
                        (b <= s \/ a >= e) /\ ((a <? e) && (b >? s) = false)))
  /\ StronglySorted antes slots.
Proof.
  intros Hv.
  destruct (Py.strptime_Ymd data_str) as [d|] eqn:Hd;
    [|unfold verificar_disponibilidade_medico in Hv; rewrite Hd in Hv; discriminate].
  destruct (mapR (horario_ocupado d) (find (agendada_com medico_id_arg data_str) (consulta db)))
    as [oc|e] eqn:Hoc.
  2:{ unfold verificar_disponibilidade_medico in Hv. rewrite Hd in Hv.
      unfold agendada_com in Hoc. rewrite Hoc in Hv. discriminate. }
  rewrite (verificar_disponibilidade_medico_livres db medico_id_arg data_str d oc Hd Hoc) in Hv.
  apply Some_Retorna_inj in Hv. subst slots.
  split; [exists d; reflexivity|]. split.
  - intros sl Hsl. apply in_map_iff in Hsl. destruct Hsl as (a & <- & Ha).
    apply filter_In in Ha. destruct Ha as [Ha Hlivre].
    apply inicios_do_dia_range in Ha.
    exists a, (a + 30). cbn [slot_de slot_hora_inicio slot_hora_fim].
    rewrite !strptime_strftime_HM by lia.
    split; [reflexivity|]. split; [reflexivity|].
    intros c Hc Hm Hdata Hst.
    assert (Hin : In c (find (agendada_com medico_id_arg data_str) (consulta db))).
    { apply filter_In. split; [exact Hc|]. unfold agendada_com.
      rewrite Hm, Hdata, Hst. cbn. rewrite Z.eqb_refl, String.eqb_refl. reflexivity. }
    destruct (mapR_Retorna _ _ _ Hoc c Hin) as ([s e] & Hse & Hhc).
    destruct (horario_ocupado_inv d c s e Hhc) as [Hs He].
    exists s. split; [exact Hs|]. cbv zeta.
    unfold livre, sobrepoe in Hlivre. apply negb_true_iff in Hlivre.
    assert (Hno : (a <? e) && (s <? a + 30) = false).
    { destruct ((a <? e) && (s <? a + 30)) eqn:E; [|reflexivity].
      rewrite <- Hlivre. symmetry. apply existsb_exists.
      exists (s, e). split; [exact Hse|exact E]. }
    rewrite Z.gtb_ltb. split; [rewrite <- He; exact Hno|].
    intros Hdia.
    assert (Hfora : a + 30 <= s \/ a >= s + duracao_minutos c).
    { apply andb_false_iff in Hno. destruct Hno as [H|H]; apply Z.ltb_ge in H; [|lia].
      destruct Hdia as [Hdia|Hdia]; [|lia].
      destruct (Z.lt_ge_cases (s + duracao_minutos c) 0) as [Hneg|Hpos]; [lia|].
      rewrite He, Z.mod_small in H by lia. lia. }
    split; [exact Hfora|].
    apply andb_false_iff. destruct Hfora as [H|H]; [right|left]; apply Z.ltb_ge; lia.
  - apply StronglySorted_map, StronglySorted_filter.
    apply (StronglySorted_impl_In Z.lt).
    + intros x y Hx Hy Hxy. apply inicios_do_dia_range in Hx, Hy.
      exists x, y. cbn [slot_de slot_hora_inicio].
      rewrite !strptime_strftime_HM by lia. auto.
    + apply (inicios_do_dia_crescente 20 0).
Qed.

Lemma C4_witness :
  (exists d, Py.strptime_Ymd "2025-06-10" = Some d)
  /\ (forall sl, In sl (map slot_de (filter (fun a => negb (a =? 840)) inicios_do_dia)) ->
        exists a b,
          Py.strptime_HM (slot_hora_inicio sl) = Some a
          /\ Py.strptime_HM (slot_hora_fim sl) = Some b
          /\ forall c, In c (consulta db_exemplos) ->
               medico_id c = Some 42 -> data c = "2025-06-10" ->
               status c = AGENDADA ->
               exists s, Py.strptime_HM (hora_inicio c) = Some s
                 /\ let e := s + duracao_minutos c in
                    ((a <? e mod 1440) && (b >? s) = false)
                    /\ (e < 1440 \/ 1080 <= s ->
                        (b <= s \/ a >= e) /\ ((a <? e) && (b >? s) = false)))
  /\ StronglySorted antes (map slot_de (filter (fun a => negb (a =? 840)) inicios_do_dia)).
Proof.
  apply (C4_slots_livres_nao_sobrepoem db_exemplos 42 "2025-06-10").
  vm_compute. reflexivity.
Defined.

(** The end of a consultation is kept as a time of day: one stored with a
    duration that carries it past midnight (17:00 for ten hours) does not
    take its own slot off the list. *)
Example verificar_disponibilidade_medico_alem_da_meia_noite :
  exists slots,
    verificar_disponibilidade_medico
      (set_consulta db_exemplos
         [ {| _id := 123; medico_id := Some 42; paciente_id := 101; tipo_exame_id := None;
              data := "2025-06-10"; hora_inicio := "17:00"; duracao_minutos := 600;
              status := AGENDADA; observacoes := Some "Procedimento";
              created_at := 1; updated_at := 1 |} ])
      42 "2025-06-10" = Some (Retorna slots)
    /\ In {| slot_hora_inicio := "17:00"; slot_hora_fim := "17:30" |} slots.
Proof. eexists. split; [vm_compute; reflexivity|]. cbn. tauto. Qed.

Lemma filter_todos {A} (p : A -> bool) (l : list A) :
  (forall x, In x l -> p x = true) -> filter p l = l.
Proof.
  induction l as [|x r IH]; intros Hp; [reflexivity|]. simpl.
  rewrite (Hp x (or_introl eq_refl)). f_equal. apply IH.
  intros y Hy. apply Hp. right. exact Hy.
Qed.

(** The slots of [dia_inteiro] are contiguous half hours from 08:00 to
    18:00. *)
Lemma dia_inteiro_contiguo :
  List.length dia_inteiro = 20%nat
  /\ (forall i sl, nth_error dia_inteiro i = Some sl ->
        Py.strptime_HM (slot_hora_inicio sl) = Some (480 + 30 * Z.of_nat i)
        /\ Py.strptime_HM (slot_hora_fim sl) = Some (480 + 30 * Z.of_nat i + 30))
  /\ (forall i x y, nth_error dia_inteiro i = Some x -> nth_error dia_inteiro (S i) = Some y ->
        slot_hora_fim x = slot_hora_inicio y).
Proof.
  split; [reflexivity|]. split.
  - intros i sl.
    do 20 (destruct i as [|i]; [intros E; injection E as <-; split; reflexivity|]).
    cbn. destruct i; discriminate.
  - intros i x y.
    do 19 (destruct i as [|i];
           [intros E1 E2; injection E1 as <-; injection E2 as <-; reflexivity|]).
    destruct i as [|i]; cbn; [discriminate 2|]. destruct i; discriminate 1.
Qed.

(** C5. For a well-formed date on which the physician has no stored
    consultation with status AGENDADA, [verificar_disponibilidade_medico]
    returns exactly the twenty slots 08:00-08:30, 08:30-09:00, ...,
    17:30-18:00: each lasts 30 minutes, each starts where the previous one
    ends, the first starts at 08:00 and the last ends at 18:00. *)
Theorem C5_dia_sem_consultas
  (db : Database) (medico_id_arg : Z) (data_str : string) (d : Py.date) :
  Py.strptime_Ymd data_str = Some d ->
  (forall c, In c (consulta db) ->
     medico_id c = Some medico_id_arg -> data c = data_str -> status c <> AGENDADA) ->
  verificar_disponibilidade_medico db medico_id_arg data_str = Some (Retorna dia_inteiro)
  /\ List.length dia_inteiro = 20%nat
  /\ (forall i sl, nth_error dia_inteiro i = Some sl ->
        Py.strptime_HM (slot_hora_inicio sl) = Some (480 + 30 * Z.of_nat i)
        /\ Py.strptime_HM (slot_hora_fim sl) = Some (480 + 30 * Z.of_nat i + 30))
  /\ (forall i x y, nth_error dia_inteiro i = Some x -> nth_error dia_inteiro (S i) = Some y ->
        slot_hora_fim x = slot_hora_inicio y)
  /\ option_map slot_hora_inicio (hd_error dia_inteiro) = Some "08:00"
  /\ slot_hora_fim (last dia_inteiro {| slot_hora_inicio := ""; slot_hora_fim := "" |}) = "18:00".
Proof.
  intros Hd Hnone.
  assert (Hvazio : find (agendada_com medico_id_arg data_str) (consulta db) = []).
  { apply filter_nenhum. intros c Hc. unfold agendada_com.
    destruct (medico_id c) as [m|] eqn:Hm; [|reflexivity]. cbn.
    destruct (Z.eqb_spec medico_id_arg m) as [->|]; [|reflexivity].
    destruct (String.eqb_spec (data c) data_str) as [Hdt|]; [|reflexivity].
    specialize (Hnone c Hc Hm Hdt). destruct (status c); try reflexivity. contradiction. }
  split.
  - rewrite (verificar_disponibilidade_medico_livres db medico_id_arg data_str d [] Hd);
      [|rewrite Hvazio; reflexivity].
    rewrite filter_todos by reflexivity. reflexivity.
  - destruct dia_inteiro_contiguo as (H1 & H2 & H3).
    split; [exact H1|]. split; [exact H2|]. split; [exact H3|]. split; reflexivity.
Qed.

Lemma C5_witness :
  verificar_disponibilidade_medico db_exemplos 58 "2025-06-10" = Some (Retorna dia_inteiro)
  /\ List.length dia_inteiro = 20%nat.
Proof.
  assert (Hnone : forall c, In c (consulta db_exemplos) ->
            medico_id c = Some 58 -> data c = "2025-06-10" -> status c <> AGENDADA).
  { intros c [<-|[]] Hm. discriminate Hm. }
  pose proof (C5_dia_sem_consultas db_exemplos 58 "2025-06-10" 739412 eq_refl Hnone) as H.
  split; [exact (proj1 H)|exact (proj1 (proj2 H))].
Defined.

(* ================================================================== *)
(** ** Properties: booking *)
(* ================================================================== *)

Lemma find_one_nenhum {D} (p : D -> bool) (l : list D) :
  (forall x, In x l -> p x = false) -> find_one p l = None.
Proof.
  unfold find_one. induction l as [|x r IH]; intros Hp; [reflexivity|]. simpl.
  rewrite (Hp x (or_introl eq_refl)). apply IH. intros y Hy. apply Hp. right. exact Hy.
Qed.

Lemma find_one_existe {D} (p : D -> bool) (l : list D) (x : D) :
  In x l -> p x = true -> exists y, find_one p l = Some y.
Proof.
  unfold find_one. induction l as [|a r IH]; intros Hin Hp; [destruct Hin|]. simpl.
  destruct (p a) eqn:Ha; [eexists; reflexivity|].
  destruct Hin as [->|Hin]; [congruence|exact (IH Hin Hp)].
Qed.

(** With the indexes of [criar_collections], the insert of
    [agendar_consulta] always goes through: the id is new and no index of
    the collection is unique. *)
Lemma agendar_consulta_insere (db : Database) (created updated paciente_id_arg : Z)
  (data_str hora_inicio_str : string) (medico_id_arg tipo_exame_id_arg : option Z)
  (observacoes_arg : option string) :
  let nova := nova_consulta_de db created updated paciente_id_arg data_str hora_inicio_str
                medico_id_arg tipo_exame_id_arg observacoes_arg in
  let db' := set_consulta db (consulta db ++ [nova])%list in
  agendar_consulta created updated paciente_id_arg data_str hora_inicio_str
    medico_id_arg tipo_exame_id_arg observacoes_arg db
  = (db', _enriquecer_e_validar_agendamento db' (Some nova)).
Proof.
  intros nova db'. unfold agendar_consulta, bind, ler, ler_r, consultas_insert_one.
  change (match find_one_maior_id (consulta db) with
          | Some d => _id d + 1
          | None => 123
          end) with (proximo_id 123 (consulta db)).
  fold (nova_consulta_de db created updated paciente_id_arg data_str hora_inicio_str
          medico_id_arg tipo_exame_id_arg observacoes_arg).
  fold nova.
  rewrite insert_one_novo.
  - fold db'. cbn [consulta set_consulta db'].
    rewrite find_one_app_None.
    + cbn. rewrite Z.eqb_refl. reflexivity.
    + apply find_one_nenhum. intros x Hx.
      apply Z.eqb_neq. exact (proximo_id_novo 123 (consulta db) x Hx).
  - apply (existsb_id_novo 123 (consulta db)).
  - intros ix [<-|[<-|[]]]; discriminate.
Qed.

(** The conflict branch of [agendar_consulta] is never taken. *)
Lemma agendar_consulta_nunca_conflita (db : Database) (created updated paciente_id_arg : Z)
  (data_str hora_inicio_str : string) (medico_id_arg tipo_exame_id_arg : option Z)
  (observacoes_arg : option string) :
  snd (agendar_consulta created updated paciente_id_arg data_str hora_inicio_str
         medico_id_arg tipo_exame_id_arg observacoes_arg db)
  <> Levanta (ValueError ConflitoAgendar).
Proof.
  rewrite agendar_consulta_insere. cbn [snd].
  unfold _enriquecer_e_validar_agendamento, AgendamentoDetalhado_model_validate.
  cbn [observacoes nova_consulta_de]. destruct observacoes_arg; discriminate.
Qed.

(** C1, as the code behaves. After [agendar_consulta] has booked physician
    [m] at a date and start time, a second call for the same physician,
    date and start time does not fail: it returns a new appointment, and
    the store then holds two AGENDADA appointments of [m] at that date and
    time.  The conflict message of the [except DuplicateKeyError] branch is
    unreachable, since [criar_collections] declares no unique index on the
    appointment collection. *)
Theorem C1_segundo_agendamento_aceito
  (db : Database) (c1 u1 c2 u2 pac1 pac2 m : Z) (data_str hora_str obs1 obs2 : string) :
  m <> 0 ->
  let r1 := agendar_consulta c1 u1 pac1 data_str hora_str (Some m) None (Some obs1) db in
  let r2 := agendar_consulta c2 u2 pac2 data_str hora_str (Some m) None (Some obs2) (fst r1) in
  exists v1 v2,
    snd r1 = Retorna (Some v1) /\ snd r2 = Retorna (Some v2)
    /\ ad_id v1 <> ad_id v2
    /\ ad_medico_id v1 = Some m /\ ad_medico_id v2 = Some m
    /\ ad_data v1 = data_str /\ ad_data v2 = data_str
    /\ ad_hora_inicio v1 = hora_str /\ ad_hora_inicio v2 = hora_str
    /\ ad_status v1 = AGENDADA /\ ad_status v2 = AGENDADA
    /\ (exists d1 d2, In d1 (consulta (fst r2)) /\ In d2 (consulta (fst r2))
          /\ _id d1 = ad_id v1 /\ _id d2 = ad_id v2
          /\ medico_id d1 = Some m /\ medico_id d2 = Some m
          /\ data d1 = data_str /\ data d2 = data_str
          /\ hora_inicio d1 = hora_str /\ hora_inicio d2 = hora_str
          /\ status d1 = AGENDADA /\ status d2 = AGENDADA).
Proof.
  intros Hm r1 r2. subst r2 r1. rewrite agendar_consulta_insere. cbn [fst snd].
  rewrite agendar_consulta_insere. cbn [fst snd].
  set (n1 := nova_consulta_de db c1 u1 pac1 data_str hora_str (Some m) None (Some obs1)).
  set (db1 := set_consulta db (consulta db ++ [n1])%list).
  set (n2 := nova_consulta_de db1 c2 u2 pac2 data_str hora_str (Some m) None (Some obs2)).
  set (db2 := set_consulta db1 (consulta db1 ++ [n2])%list).
  assert (Ht : Py.truthy (Some m) = true).
  { cbn. destruct (Z.eqb_spec m 0); [contradiction|reflexivity]. }
  assert (Hn1 : In n1 (consulta db1)).
  { cbn. apply in_or_app. right. left. reflexivity. }
  assert (Hid : _id n1 <> _id n2).
  { exact (proximo_id_novo 123 (consulta db1) n1 Hn1). }
  unfold _enriquecer_e_validar_agendamento, AgendamentoDetalhado_model_validate.
  cbn [observacoes n1 n2 nova_consulta_de].
  eexists. eexists. split; [reflexivity|]. split; [reflexivity|].
  cbn [ad_id ad_medico_id ad_data ad_hora_inicio ad_status
       _id medico_id data hora_inicio status n1 n2 nova_consulta_de].
  rewrite Ht.
  split; [exact Hid|]. do 8 (split; [reflexivity|]).
  exists n1, n2. split.
  { cbn. apply in_or_app. left. exact Hn1. }
  split.
  { cbn. apply in_or_app. right. left. reflexivity. }
  cbn [_id medico_id data hora_inicio status n1 n2 nova_consulta_de]. rewrite Ht.
  repeat (split; [reflexivity|]). reflexivity.
Qed.

Lemma C1_witness :
  let r1 := agendar_consulta 1 1 101 "2025-07-15" "09:00" (Some 42) None (Some "Consulta")
              db_exemplos in
  let r2 := agendar_consulta 2 2 102 "2025-07-15" "09:00" (Some 42) None (Some "Consulta")
              (fst r1) in
  exists v1 v2,
    snd r1 = Retorna (Some v1) /\ snd r2 = Retorna (Some v2)
    /\ ad_id v1 <> ad_id v2
    /\ ad_medico_id v1 = Some 42 /\ ad_medico_id v2 = Some 42
    /\ ad_data v1 = "2025-07-15" /\ ad_data v2 = "2025-07-15"
    /\ ad_hora_inicio v1 = "09:00" /\ ad_hora_inicio v2 = "09:00"
    /\ ad_status v1 = AGENDADA /\ ad_status v2 = AGENDADA
    /\ (exists d1 d2, In d1 (consulta (fst r2)) /\ In d2 (consulta (fst r2))
          /\ _id d1 = ad_id v1 /\ _id d2 = ad_id v2
          /\ medico_id d1 = Some 42 /\ medico_id d2 = Some 42
          /\ data d1 = "2025-07-15" /\ data d2 = "2025-07-15"
          /\ hora_inicio d1 = "09:00" /\ hora_inicio d2 = "09:00"
          /\ status d1 = AGENDADA /\ status d2 = AGENDADA).
Proof.
  apply (C1_segundo_agendamento_aceito db_exemplos 1 1 2 2 101 102 42
           "2025-07-15" "09:00" "Consulta" "Consulta").
  lia.
Defined.

(* ================================================================== *)
(** ** Properties: cancelling and rescheduling *)
(* ================================================================== *)

Lemma conflita_ocupa (m : Z) (nova_data_str nova_hora_str : string) (consulta_id : Z)
  (c : ConsultaDoc) :
  conflita (Some m) nova_data_str nova_hora_str consulta_id c = true
  <-> ocupa m nova_data_str nova_hora_str consulta_id c.
Proof.
  unfold conflita, ocupa. rewrite !andb_true_iff, negb_true_iff, Z.eqb_neq.
  rewrite !String.eqb_eq. cbn [opt_int].
  destruct (medico_id c) as [z|]; cbn [opt_int Valor_eqb].
  - rewrite Z.eqb_eq. intuition congruence.
  - intuition congruence.
Qed.

(** After a write by id, a read by the same id sees the written document
    and every other document is as before. *)
Lemma update_por_id (docs : list ConsultaDoc) (consulta_id : Z) (set : ConsultaDoc -> ConsultaDoc)
  (c : ConsultaDoc) :
  (forall x, _id (set x) = _id x) ->
  find_one (com_id consulta_id) docs = Some c ->
  exists l1 l2,
    docs = (l1 ++ c :: l2)%list
    /\ update_one ConsultaDoc_eq_dec (com_id consulta_id) set docs
       = ((l1 ++ set c :: l2)%list, if ConsultaDoc_eq_dec c (set c) then 0 else 1)
    /\ find_one (com_id consulta_id) (l1 ++ set c :: l2)%list = Some (set c).
Proof.
  intros Hid Hfind.
  destruct (update_one_Some ConsultaDoc_eq_dec (com_id consulta_id) set docs c Hfind)
    as (l1 & l2 & Hdocs & Hnone & Hupd).
  exists l1, l2. split; [exact Hdocs|]. split; [exact Hupd|].
  rewrite (find_one_app_None _ _ _ Hnone). cbn.
  apply find_some in Hfind. destruct Hfind as [_ Hc].
  unfold com_id in *. rewrite Hid, Hc. reflexivity.
Qed.

(** [cancelar_consulta] on an id that is stored. *)
Lemma cancelar_consulta_existente (db : Database) (agora consulta_id : Z) (c : ConsultaDoc) :
  find_one (com_id consulta_id) (consulta db) = Some c ->
  exists l1 l2,
    consulta db = (l1 ++ c :: l2)%list
    /\ let db' := set_consulta db (l1 ++ set_cancelada agora c :: l2)%list in
       find_one (com_id consulta_id) (consulta db') = Some (set_cancelada agora c)
       /\ cancelar_consulta agora consulta_id db
          = (db', if ConsultaDoc_eq_dec c (set_cancelada agora c)
                  then Levanta (ValueError (NaoEncontradaOuCancelada consulta_id))
                  else _enriquecer_e_validar_agendamento db' (Some (set_cancelada agora c))).
Proof.
  intros Hfind.
  destruct (update_por_id (consulta db) consulta_id (set_cancelada agora) c
              (fun _ => eq_refl) Hfind) as (l1 & l2 & Hdocs & Hupd & Hread).
  exists l1, l2. split; [exact Hdocs|]. cbn zeta. split; [exact Hread|].
  unfold cancelar_consulta, bind, consultas_update_one.
  change (fun c0 : ConsultaDoc => _id c0 =? consulta_id) with (com_id consulta_id).
  fold (set_cancelada agora). rewrite Hupd.
  destruct (ConsultaDoc_eq_dec c (set_cancelada agora c)); cbn beta iota zeta.
  - reflexivity.
  - change (1 =? 0) with false. cbn beta iota. unfold bind, ler, ler_r.
    cbn [consulta set_consulta]. rewrite Hread. reflexivity.
Qed.

(** C2, as the code behaves on a cancelled appointment. The update of
    [cancelar_consulta] is keyed by id alone, so on a stored appointment
    whose status is already CANCELADA, whenever the clock reading differs
    from the stored [updated_at], the call does not fail: it returns the
    appointment, and the stored record changes (its [updated_at] becomes
    the clock reading). *)
Theorem C2_cancelar_ja_cancelada
  (db : Database) (agora consulta_id : Z) (c : ConsultaDoc) (obs : string) :
  find_one (com_id consulta_id) (consulta db) = Some c ->
  status c = CANCELADA ->
  observacoes c = Some obs ->
  updated_at c <> agora ->
  exists db' v c',
    cancelar_consulta agora consulta_id db = (db', Retorna (Some v))
    /\ ad_id v = consulta_id /\ ad_status v = CANCELADA
    /\ find_one (com_id consulta_id) (consulta db') = Some c'
    /\ c' <> c /\ updated_at c' = agora.
Proof.
  intros Hfind Hst Hobs Hupd.
  destruct (cancelar_consulta_existente db agora consulta_id c Hfind)
    as (l1 & l2 & _ & Hread & Hres).
  destruct (ConsultaDoc_eq_dec c (set_cancelada agora c)) as [E|_].
  { exfalso. apply Hupd. rewrite E at 1. reflexivity. }
  unfold _enriquecer_e_validar_agendamento, AgendamentoDetalhado_model_validate in Hres.
  cbn [observacoes set_cancelada] in Hres. rewrite Hobs in Hres.
  eexists. eexists. exists (set_cancelada agora c).
  split; [exact Hres|]. cbn [ad_id ad_status].
  apply find_some in Hfind. destruct Hfind as [_ Hid]. apply Z.eqb_eq in Hid.
  split; [exact Hid|]. split; [reflexivity|]. split; [exact Hread|].
  split; [|reflexivity].
  intros E. apply Hupd. rewrite <- E. reflexivity.
Qed.

Lemma C2_witness :
  exists db' v c',
    cancelar_consulta 1749700000000 123 db_cancelada = (db', Retorna (Some v))
    /\ ad_id v = 123 /\ ad_status v = CANCELADA
    /\ find_one (com_id 123) (consulta db') = Some c'
    /\ c' <> set_cancelada 1749600000000
               {| _id := 123; medico_id := Some 42; paciente_id := 101;
                  tipo_exame_id := Some 1; data := "2025-06-10"; hora_inicio := "14:00";
                  duracao_minutos := 30; status := AGENDADA;
                  observacoes := Some "Primeira consulta";
                  created_at := 1749500000000; updated_at := 1749500000000 |}
    /\ updated_at c' = 1749700000000.
Proof.
  apply (C2_cancelar_ja_cancelada db_cancelada 1749700000000 123 _ "Primeira consulta");
    [reflexivity|reflexivity|reflexivity|cbn; lia].
Defined.

(** The other half of C2 holds: cancelling an appointment whose status is
    AGENDADA succeeds and a later read shows CANCELADA. *)
Lemma cancelar_consulta_agendada
  (db : Database) (agora consulta_id : Z) (c : ConsultaDoc) (obs : string) :
  find_one (com_id consulta_id) (consulta db) = Some c ->
  status c = AGENDADA ->
  observacoes c = Some obs ->
  exists db' v c',
    cancelar_consulta agora consulta_id db = (db', Retorna (Some v))
    /\ ad_id v = consulta_id /\ ad_status v = CANCELADA
    /\ find_one (com_id consulta_id) (consulta db') = Some c'
    /\ status c' = CANCELADA.
Proof.
  intros Hfind Hst Hobs.
  destruct (cancelar_consulta_existente db agora consulta_id c Hfind)
    as (l1 & l2 & _ & Hread & Hres).
  destruct (ConsultaDoc_eq_dec c (set_cancelada agora c)) as [E|_].
  { exfalso. rewrite E in Hst. discriminate Hst. }
  unfold _enriquecer_e_validar_agendamento, AgendamentoDetalhado_model_validate in Hres.
  cbn [observacoes set_cancelada] in Hres. rewrite Hobs in Hres.
  eexists. eexists. exists (set_cancelada agora c).
  split; [exact Hres|]. cbn [ad_id ad_status].
  apply find_some in Hfind. destruct Hfind as [_ Hid]. apply Z.eqb_eq in Hid.
  split; [exact Hid|]. split; [reflexivity|]. split; [exact Hread|reflexivity].
Qed.

(** An id that is not stored: nothing is written and the call fails. *)
Lemma cancelar_consulta_inexistente (db : Database) (agora consulta_id : Z) :
  find_one (com_id consulta_id) (consulta db) = None ->
  cancelar_consulta agora consulta_id db
  = (set_consulta db (consulta db),
     Levanta (ValueError (NaoEncontradaOuCancelada consulta_id))).
Proof.
  intros Hfind. unfold cancelar_consulta, bind, consultas_update_one.
  change (fun c0 : ConsultaDoc => _id c0 =? consulta_id) with (com_id consulta_id).
  rewrite (update_one_None ConsultaDoc_eq_dec _ _ _ Hfind). reflexivity.
Qed.

Lemma set_consulta_mesma (db : Database) : set_consulta db (consulta db) = db.
Proof. destruct db; reflexivity. Qed.

Lemma reagendar_consulta_inexistente (db : Database) (agora consulta_id : Z)
  (nova_data_str nova_hora_str : string) :
  find_one (com_id consulta_id) (consulta db) = None ->
  reagendar_consulta agora consulta_id nova_data_str nova_hora_str db
  = (db, Levanta (ValueError (ConsultaNaoEncontrada consulta_id))).
Proof.
  intros Hfind. unfold reagendar_consulta, bind, ler. unfold com_id in Hfind.
  rewrite Hfind. reflexivity.
Qed.

Lemma reagendar_consulta_conflito (db : Database) (agora consulta_id : Z)
  (nova_data_str nova_hora_str : string) (original outra : ConsultaDoc) :
  find_one (com_id consulta_id) (consulta db) = Some original ->
  Py.truthy (medico_id original) = true ->
  find_one (conflita (medico_id original) nova_data_str nova_hora_str consulta_id)
    (consulta db) = Some outra ->
  reagendar_consulta agora consulta_id nova_data_str nova_hora_str db
  = (db, Levanta (ValueError (ConflitoReagendar nova_data_str nova_hora_str))).
Proof.
  intros Hfind Ht Hc. unfold reagendar_consulta, bind, ler. unfold com_id in Hfind.
  rewrite Hfind. cbn beta iota zeta. rewrite Ht. unfold conflita in Hc. rewrite Hc.
  reflexivity.
Qed.

Lemma reagendar_consulta_livre (db : Database) (agora consulta_id : Z)
  (nova_data_str nova_hora_str : string) (original : ConsultaDoc) :
  find_one (com_id consulta_id) (consulta db) = Some original ->
  (Py.truthy (medico_id original) = true ->
   find_one (conflita (medico_id original) nova_data_str nova_hora_str consulta_id)
     (consulta db) = None) ->
  let nova := set_reagendada agora nova_data_str nova_hora_str original in
  exists l1 l2,
    consulta db = (l1 ++ original :: l2)%list
    /\ let db' := set_consulta db (l1 ++ nova :: l2)%list in
       find_one (com_id consulta_id) (consulta db') = Some nova
       /\ reagendar_consulta agora consulta_id nova_data_str nova_hora_str db
          = (db', if ConsultaDoc_eq_dec original nova
                  then Levanta (ValueError NaoFoiPossivelReagendar)
                  else _enriquecer_e_validar_agendamento db' (Some nova)).
Proof.
  intros Hfind Hlivre nova.
  destruct (update_por_id (consulta db) consulta_id
              (set_reagendada agora nova_data_str nova_hora_str) original
              (fun _ => eq_refl) Hfind) as (l1 & l2 & Hdocs & Hupd & Hread).
  exists l1, l2. split; [exact Hdocs|]. cbn zeta. split; [exact Hread|].
  unfold reagendar_consulta, bind at 1, ler at 1. pose proof Hfind as Hf.
  unfold com_id in Hf. rewrite Hf. cbn beta iota zeta.
  unfold bind at 1, ler at 1.
  assert (Hnc : (if Py.truthy (medico_id original)
                 then find_one
                        (fun c => Valor_eqb (opt_int (medico_id c)) (opt_int (medico_id original))
                                  && String.eqb (data c) nova_data_str
                                  && String.eqb (hora_inicio c) nova_hora_str
                                  && negb (_id c =? consulta_id)) (consulta db)
                 else None) = None).
  { destruct (Py.truthy (medico_id original)); [|reflexivity]. exact (Hlivre eq_refl). }
  rewrite Hnc. cbn beta iota zeta.
  unfold bind at 1, consultas_update_one.
  change (fun c0 : ConsultaDoc => _id c0 =? consulta_id) with (com_id consulta_id).
  fold (set_reagendada agora nova_data_str nova_hora_str). rewrite Hupd. subst nova.
  destruct (ConsultaDoc_eq_dec original
              (set_reagendada agora nova_data_str nova_hora_str original));
    cbn beta iota zeta.
  - reflexivity.
  - change (1 =? 0) with false. cbn beta iota. unfold bind, ler, ler_r.
    cbn [consulta set_consulta]. rewrite Hread. reflexivity.
Qed.

Lemma truthy_Some (m : Z) : m <> 0 -> Py.truthy (Some m) = true.
Proof. intros H. cbn. destruct (Z.eqb_spec m 0); [contradiction|reflexivity]. Qed.

(** A blocking appointment makes the conflict query of
    [reagendar_consulta] return a document. *)
Lemma reagendar_consulta_ocupado (db : Database) (agora consulta_id m : Z)
  (nova_data_str nova_hora_str : string) (original outra : ConsultaDoc) :
  find_one (com_id consulta_id) (consulta db) = Some original ->
  medico_id original = Some m -> m <> 0 ->
  In outra (consulta db) ->
  ocupa m nova_data_str nova_hora_str consulta_id outra ->
  falha_com (reagendar_consulta agora consulta_id nova_data_str nova_hora_str db)
    db ConflictError.
Proof.
  intros Hfind Hm Hm0 Hin Hoc.
  apply conflita_ocupa in Hoc. rewrite <- Hm in Hoc.
  destruct (find_one_existe _ _ _ Hin Hoc) as (y & Hy).
  exists (ValueError (ConflitoReagendar nova_data_str nova_hora_str)).
  split; [|reflexivity].
  apply (reagendar_consulta_conflito db agora consulta_id _ _ original y Hfind);
    [rewrite Hm; apply truthy_Some; exact Hm0|exact Hy].
Qed.

(** C3. [reagendar_consulta] on an id that is not stored fails with the
    not-found error and writes nothing.  On a stored appointment with an
    assigned physician (a [medico_id] that is present and non-zero, the
    test the code applies), it fails with the conflict error and writes
    nothing whenever another stored appointment (different id) of that
    physician has exactly the new date and the new start time.  In every
    other case the update is applied: a read by id afterwards returns the
    appointment with the new date and start time and its other fields,
    [updated_at] apart, untouched; and the call returns that appointment,
    enriched, provided the write changed the document and its notes are a
    string. *)
Theorem C3_reagendar_consulta
  (db : Database) (agora consulta_id : Z) (nova_data_str nova_hora_str : string) :
  let r := reagendar_consulta agora consulta_id nova_data_str nova_hora_str db in
  (find_one (com_id consulta_id) (consulta db) = None -> falha_com r db NotFoundError)
  /\ (forall original m outra,
        find_one (com_id consulta_id) (consulta db) = Some original ->
        medico_id original = Some m -> m <> 0 ->
        In outra (consulta db) ->
        ocupa m nova_data_str nova_hora_str consulta_id outra ->
        falha_com r db ConflictError)
  /\ (forall original,
        find_one (com_id consulta_id) (consulta db) = Some original ->
        (forall m outra, medico_id original = Some m -> m <> 0 -> In outra (consulta db) ->
                         ~ ocupa m nova_data_str nova_hora_str consulta_id outra) ->
        exists c',
          find_one (com_id consulta_id) (consulta (fst r)) = Some c'
          /\ data c' = nova_data_str /\ hora_inicio c' = nova_hora_str
          /\ _id c' = consulta_id /\ status c' = status original
          /\ paciente_id c' = paciente_id original /\ medico_id c' = medico_id original
          /\ tipo_exame_id c' = tipo_exame_id original
          /\ (forall obs, observacoes original = Some obs -> c' <> original ->
                exists v, snd r = Retorna (Some v)
                          /\ ad_id v = consulta_id /\ ad_data v = nova_data_str
                          /\ ad_hora_inicio v = nova_hora_str
                          /\ ad_status v = status original)).
Proof.
  intros r. subst r. split; [|split].
  - intros Hfind. rewrite (reagendar_consulta_inexistente _ _ _ _ _ Hfind).
    eexists. split; reflexivity.
  - intros original m outra Hfind Hm Hm0 Hin Hoc.
    exact (reagendar_consulta_ocupado db agora consulta_id m _ _ original outra
             Hfind Hm Hm0 Hin Hoc).
  - intros original Hfind Hlivre.
    assert (Hnone : Py.truthy (medico_id original) = true ->
              find_one (conflita (medico_id original) nova_data_str nova_hora_str consulta_id)
                (consulta db) = None).
    { intros Ht. destruct (medico_id original) as [m|] eqn:Hm; [|discriminate Ht].
      assert (Hm0 : m <> 0).
      { intros ->. discriminate Ht. }
      apply find_one_nenhum. intros x Hx.
      destruct (conflita (Some m) nova_data_str nova_hora_str consulta_id x) eqn:E;
        [|reflexivity].
      apply conflita_ocupa in E. exfalso. exact (Hlivre m x eq_refl Hm0 Hx E). }
    destruct (reagendar_consulta_livre db agora consulta_id nova_data_str nova_hora_str
                original Hfind Hnone) as (l1 & l2 & _ & Hread & Hres).
    rewrite Hres. cbn [fst snd].
    exists (set_reagendada agora nova_data_str nova_hora_str original).
    split; [exact Hread|]. cbn [set_reagendada data hora_inicio _id status paciente_id
                                medico_id tipo_exame_id].
    pose proof Hfind as Hid. apply find_some in Hid. destruct Hid as [_ Hid].
    apply Z.eqb_eq in Hid.
    do 2 (split; [reflexivity|]). split; [exact Hid|]. do 4 (split; [reflexivity|]).
    intros obs Hobs Hdif.
    destruct (ConsultaDoc_eq_dec original
                (set_reagendada agora nova_data_str nova_hora_str original)) as [E|_];
      [exfalso; apply Hdif; symmetry; exact E|].
    unfold _enriquecer_e_validar_agendamento, AgendamentoDetalhado_model_validate.
    cbn [observacoes set_reagendada]. rewrite Hobs.
    eexists. split; [reflexivity|]. cbn [ad_id ad_data ad_hora_inicio ad_status].
    split; [exact Hid|]. repeat split.
Qed.

Lemma C3_witness :
  let r := reagendar_consulta 1749600000000 123 "2025-07-15" "09:00" db_exemplos in
  falha_com (reagendar_consulta 1749600000000 999 "2025-07-15" "09:00" db_exemplos)
    db_exemplos NotFoundError
  /\ exists c',
       find_one (com_id 123) (consulta (fst r)) = Some c'
       /\ data c' = "2025-07-15" /\ hora_inicio c' = "09:00"
       /\ _id c' = 123 /\ status c' = AGENDADA
       /\ paciente_id c' = 101 /\ medico_id c' = Some 42
       /\ tipo_exame_id c' = Some 1.
Proof.
  split.
  - exact (proj1 (C3_reagendar_consulta db_exemplos 1749600000000 999 "2025-07-15" "09:00")
             eq_refl).
  - destruct (proj2 (proj2 (C3_reagendar_consulta db_exemplos 1749600000000 123
                              "2025-07-15" "09:00")) _ eq_refl) as (c' & H).
    + intros m outra _ _ [<-|[]] (_ & _ & _ & Hid). apply Hid. reflexivity.
    + exists c'. decompose [and] H. repeat split; assumption.
Defined.

(** C9. The conflict check of [reagendar_consulta] does not look at the
    status: for a stored appointment with an assigned physician (a
    [medico_id] present and non-zero), the call fails with the conflict
    error and writes nothing whenever another stored appointment of that
    physician has exactly the new date and start time, whatever the status
    of that other appointment, CANCELADA and CONCLUIDA included. *)
Theorem C9_conflito_ignora_status
  (db : Database) (agora consulta_id m : Z) (nova_data_str nova_hora_str : string)
  (original outra : ConsultaDoc) (st : StatusConsulta) :
  find_one (com_id consulta_id) (consulta db) = Some original ->
  medico_id original = Some m -> m <> 0 ->
  In outra (consulta db) ->
  ocupa m nova_data_str nova_hora_str consulta_id outra ->
  status outra = st ->
  falha_com (reagendar_consulta agora consulta_id nova_data_str nova_hora_str db)
    db ConflictError.
Proof.
  intros Hfind Hm Hm0 Hin Hoc _.
  exact (reagendar_consulta_ocupado db agora consulta_id m _ _ original outra
           Hfind Hm Hm0 Hin Hoc).
Qed.

Lemma C9_witness :
  falha_com (reagendar_consulta 1749600000000 123 "2025-06-11" "10:00" db_com_cancelada)
    db_com_cancelada ConflictError.
Proof.
  refine (C9_conflito_ignora_status db_com_cancelada 1749600000000 123 42
            "2025-06-11" "10:00" _
            {| _id := 124; medico_id := Some 42; paciente_id := 102; tipo_exame_id := None;
               data := "2025-06-11"; hora_inicio := "10:00"; duracao_minutos := 30;
               status := CANCELADA; observacoes := Some "Retorno";
               created_at := 1749500000000; updated_at := 1749550000000 |}
            CANCELADA eq_refl eq_refl _ _ _ eq_refl).
  - lia.
  - cbn. right. left. reflexivity.
  - unfold ocupa. cbn. repeat split. lia.
Defined.

(* ================================================================== *)
(** ** Properties: booking an exam *)
(* ================================================================== *)

(** C8, counterexample on the store of [inserir_exemplos], where the
    exam type "Exame de Sangue" exists: the appointment is returned, and
    the physician name it carries is the Portuguese default of the code,
    "N/A (Apenas Exame)", not an English rendering of it. *)
Lemma C8_counterexample :
  In {| exa_id := 1; exa_descricao := "Exame de Sangue" |} (tipo_exame db_exemplos)
  /\ exists v,
       snd (agendar_exame_simples 1752570000000 1752570000000 "Carlos Silva"
              "111.222.333-44" "2025-07-15" "09:00" "Exame de Sangue" db_exemplos)
       = Retorna (Some v)
       /\ ad_tipo_exame_id v = Some 1 /\ ad_medico_id v = None
       /\ descricao_exame v = "Exame de Sangue"
       /\ nome_medico v = "N/A (Apenas Exame)"
       /\ nome_medico v <> "N/A (exam only)".
Proof.
  split; [left; reflexivity|].
  eexists. split; [vm_compute; reflexivity|].
  cbn. repeat split. discriminate.
Qed.

(** Whatever the state of the patient collection, resolving a valid
    national ID succeeds and touches no other collection. *)
Lemma obter_paciente_total (db : Database) (nome_completo cpf cpf_limpo : string) :
  _limpar_e_validar_cpf cpf = Retorna cpf_limpo ->
  exists p db1,
    _obter_ou_criar_paciente nome_completo cpf db = (db1, Retorna p)
    /\ tipo_exame db1 = tipo_exame db /\ medico db1 = medico db
    /\ consulta db1 = consulta db.
Proof.
  intros Hcpf.
  destruct (find_one (cpf_igual cpf_limpo) (paciente db)) as [doc|] eqn:Hfind.
  - eexists. exists db.
    rewrite (obter_paciente_existente db _ cpf cpf_limpo doc Hcpf Hfind). auto.
  - eexists. eexists.
    rewrite (obter_paciente_novo db _ cpf cpf_limpo Hcpf Hfind).
    split; [reflexivity|]. cbn. auto.
Qed.

Lemma find_one_por_id_exame (l : list TipoExameDoc) (e : TipoExameDoc) :
  NoDup (map exa_id l) -> In e l ->
  find_one (fun x => id_igual (Some (exa_id e)) (exa_id x)) l = Some e.
Proof.
  unfold find_one. induction l as [|a r IH]; intros Hnd Hin; [destruct Hin|].
  cbn [map] in Hnd. apply NoDup_cons_iff in Hnd. destruct Hnd as [Hnotin Hnd].
  cbn [List.find id_igual]. destruct Hin as [->|Hin].
  - rewrite Z.eqb_refl. reflexivity.
  - destruct (Z.eqb_spec (exa_id a) (exa_id e)) as [E|_].
    + exfalso. apply Hnotin. rewrite E. apply in_map. exact Hin.
    + exact (IH Hnd Hin).
Qed.

(** C8. Booking the exam "Exame de Sangue" with
    [agendar_exame_simples] for national ID "111.222.333-44" on
    "2025-07-15" at "09:00", when the first stored exam type whose
    description matches that name without regard to case is described
    exactly "Exame de Sangue" and has a non-zero id (ids being unique in
    the collection), returns an appointment whose [tipo_exame_id] is that
    id, whose [medico_id] is absent, whose [descricao_exame] is
    "Exame de Sangue" and whose [nome_medico] is "N/A (Apenas Exame)". *)
Theorem C8_agendar_exame_de_sangue
  (db : Database) (created updated : Z) (nome_paciente : string) (e : TipoExameDoc) :
  find_one (fun x => regex_exato_i "Exame de Sangue" (exa_descricao x)) (tipo_exame db) = Some e ->
  exa_descricao e = "Exame de Sangue" ->
  exa_id e <> 0 ->
  NoDup (map exa_id (tipo_exame db)) ->
  exists db' v,
    agendar_exame_simples created updated nome_paciente "111.222.333-44"
      "2025-07-15" "09:00" "Exame de Sangue" db = (db', Retorna (Some v))
    /\ ad_tipo_exame_id v = Some (exa_id e) /\ ad_medico_id v = None
    /\ descricao_exame v = "Exame de Sangue"
    /\ nome_medico v = "N/A (Apenas Exame)"
    /\ ad_data v = "2025-07-15" /\ ad_hora_inicio v = "09:00" /\ ad_status v = AGENDADA.
Proof.
  intros Hfind Hdesc Hid Hnd.
  destruct (obter_paciente_total db nome_paciente "111.222.333-44" "11122233344" eq_refl)
    as (p & db1 & Hp & Hte & Hmed & Hcon).
  unfold agendar_exame_simples.
  change (Py.in_lista (Py.lower "Exame de Sangue") EXAMES_SEM_ESPECIALISTA) with true.
  cbn [negb]. unfold bind at 1. rewrite Hp.
  unfold bind at 1, ler at 1. rewrite Hte, Hfind.
  rewrite agendar_consulta_insere.
  set (nova := nova_consulta_de db1 created updated (id p) "2025-07-15" "09:00" None
                 (Some (exa_id e)) (Some ("Exame: " ++ "Exame de Sangue"))).
  set (db2 := set_consulta db1 (consulta db1 ++ [nova])%list).
  assert (Hte2 : tipo_exame db2 = tipo_exame db) by (cbn; exact Hte).
  assert (Hnm : medico_id nova = None) by reflexivity.
  assert (Hne : tipo_exame_id nova = Some (exa_id e)).
  { cbn. destruct (Z.eqb_spec (exa_id e) 0); [contradiction|reflexivity]. }
  unfold _enriquecer_e_validar_agendamento, AgendamentoDetalhado_model_validate.
  rewrite Hnm, Hne, Hte2.
  rewrite (find_one_por_id_exame (tipo_exame db) e Hnd)
    by (apply find_some in Hfind; exact (proj1 Hfind)).
  rewrite (find_one_nenhum (fun m => id_igual None (med_id m)) (medico db2))
    by reflexivity.
  cbn [observacoes nova nova_consulta_de].
  eexists. eexists. split; [reflexivity|].
  cbn [ad_tipo_exame_id ad_medico_id descricao_exame nome_medico ad_data ad_hora_inicio
       ad_status data hora_inicio status].
  rewrite Hdesc. repeat split.
Qed.

Lemma C8_witness :
  exists db' v,
    agendar_exame_simples 1752570000000 1752570000000 "Carlos Silva" "111.222.333-44"
      "2025-07-15" "09:00" "Exame de Sangue" db_exemplos = (db', Retorna (Some v))
    /\ ad_tipo_exame_id v = Some 1 /\ ad_medico_id v = None
    /\ descricao_exame v = "Exame de Sangue"
    /\ nome_medico v = "N/A (Apenas Exame)"
    /\ ad_data v = "2025-07-15" /\ ad_hora_inicio v = "09:00" /\ ad_status v = AGENDADA.
Proof.
  refine (C8_agendar_exame_de_sangue db_exemplos 1752570000000 1752570000000
            "Carlos Silva" {| exa_id := 1; exa_descricao := "Exame de Sangue" |}
            eq_refl eq_refl _ _).
  - cbn. lia.
  - cbn. repeat constructor; cbn; intuition lia.
Defined.

(** The provisos of C8 are needed.  An exam type with id 0 is
    found by name but never recorded on the appointment, since
    [agendar_consulta] keeps a [tipo_exame_id] only when it is truthy. *)
Example agendar_exame_id_zero :
  let db := {| medico := []; consulta := []; especialidade := []; paciente := [];
               tipo_exame := [ {| exa_id := 0; exa_descricao := "Exame de Sangue" |} ] |} in
  exists v,
    snd (agendar_exame_simples 1 1 "Carlos Silva" "111.222.333-44" "2025-07-15" "09:00"
           "Exame de Sangue" db) = Retorna (Some v)
    /\ ad_tipo_exame_id v = None /\ descricao_exame v = "Consulta de Rotina".
Proof. eexists. split; [vm_compute; reflexivity|]. split; reflexivity. Qed.

(** The exam type is looked up without regard to case, and the
    description returned is the stored one. *)
Example agendar_exame_outra_caixa :
  let db := {| medico := []; consulta := []; especialidade := []; paciente := [];
               tipo_exame := [ {| exa_id := 7; exa_descricao := "EXAME DE SANGUE" |};
                               {| exa_id := 1; exa_descricao := "Exame de Sangue" |} ] |} in
  exists v,
    snd (agendar_exame_simples 1 1 "Carlos Silva" "111.222.333-44" "2025-07-15" "09:00"
           "Exame de Sangue" db) = Retorna (Some v)
    /\ ad_tipo_exame_id v = Some 7 /\ descricao_exame v = "EXAME DE SANGUE".
Proof. eexists. split; [vm_compute; reflexivity|]. split; reflexivity. Qed.

(* ================================================================== *)
(** ** Further properties: national IDs *)
(* ================================================================== *)

Lemma byte_de_ascii_de (b : Z) : 0 <= b < 256 -> Py.byte_de (Py.ascii_de b) = b.
Proof.
  intros Hb. unfold Py.byte_de, Py.ascii_de.
  rewrite nat_ascii_embedding by lia. lia.
Qed.

Lemma byte_de_range (c : ascii) : 0 <= Py.byte_de c < 256.
Proof. unfold Py.byte_de. pose proof (nat_ascii_bounded c). lia. Qed.

(** Every code point the decoder gives fits in twenty-one bits. *)
Lemma pontos_aux_range (s : string) :
  forall falta acc,
    0 <= acc -> acc * 64 ^ Z.of_nat falta < 2097152 -> (falta <= 3)%nat ->
    Forall (fun x => 0 <= x < 2097152) (Py.pontos_aux falta acc s).
Proof.
  induction s as [|c t IH]; intros falta acc Ha Hacc Hf; [constructor|].
  pose proof (byte_de_range c) as Hb.
  assert (Hm : 0 <= Py.byte_de c mod 64 < 64) by (apply Z.mod_pos_bound; lia).
  assert (H0 : Forall (fun x => 0 <= x < 2097152) (Py.pontos_aux 0 0 t))
    by (apply IH; cbn; lia).
  cbn [Py.pontos_aux]. cbv zeta.
  destruct falta as [|[|[|[|n]]]]; [| | | |lia].
  - repeat match goal with
           | |- context [if ?x <? ?y then _ else _] => destruct (Z.ltb_spec x y)
           end;
      try (constructor; [lia|exact H0]); apply IH; cbn; lia.
  - change (64 ^ Z.of_nat 1) with 64 in Hacc. constructor; [lia|exact H0].
  - change (64 ^ Z.of_nat 2) with 4096 in Hacc. apply IH; [lia| |lia].
    change (64 ^ Z.of_nat 1) with 64. lia.
  - change (64 ^ Z.of_nat 3) with 262144 in Hacc. apply IH; [lia| |lia].
    change (64 ^ Z.of_nat 2) with 4096. lia.
Qed.

Lemma pontos_range (s : string) : Forall (fun x => 0 <= x < 2097152) (Py.pontos s).
Proof. apply pontos_aux_range; cbn; lia. Qed.

(** Decoding reads back what encoding wrote. *)
Lemma pontos_utf8_ponto (x : Z) (t : string) :
  0 <= x < 2097152 ->
  Py.pontos_aux 0 0 (Py.utf8_ponto x ++ t) = x :: Py.pontos_aux 0 0 t.
Proof.
  intros Hx. unfold Py.utf8_ponto.
  destruct (Z.ltb_spec x 128); [|destruct (Z.ltb_spec x 2048); [|destruct (Z.ltb_spec x 65536)]];
    cbn [append Py.pontos_aux]; cbv zeta;
    rewrite !byte_de_ascii_de by (Z.div_mod_to_equations; lia);
    repeat match goal with
           | |- context [if ?a <? ?b then _ else _] =>
               destruct (Z.ltb_spec a b); try (exfalso; Z.div_mod_to_equations; lia)
           end;
    f_equal; Z.div_mod_to_equations; lia.
Qed.

Lemma pontos_utf8 (l : list Z) :
  Forall (fun x => 0 <= x < 2097152) l -> Py.pontos (Py.utf8 l) = l.
Proof.
  unfold Py.pontos. induction 1 as [|x r Hx Hr IH]; [reflexivity|].
  cbn [Py.utf8]. rewrite (pontos_utf8_ponto x _ Hx), IH. reflexivity.
Qed.

Lemma digito_range (x : Z) : Py.digito x = true -> 0 <= x < 2097152.
Proof.
  unfold Py.digito. intros H. apply existsb_exists in H.
  destruct H as (r & Hr & Hx).
  assert (Ht : forallb (fun r => (0 <=? fst r) && (snd r <? 2097152)) Py.tabela_digitos = true)
    by (vm_compute; reflexivity).
  rewrite forallb_forall in Ht. specialize (Ht r Hr). lia.
Qed.

Lemma isspace_nao_digito (x : Z) : Py.isspace x = true -> Py.digito x = false.
Proof.
  unfold Py.isspace. intros H. apply existsb_exists in H.
  destruct H as (y & Hy & Hxy). apply Z.eqb_eq in Hxy. subst y.
  assert (Ht : forallb (fun y => negb (Py.digito y)) Py.tabela_espacos = true)
    by (vm_compute; reflexivity).
  rewrite forallb_forall in Ht. apply negb_true_iff. exact (Ht x Hy).
Qed.

Lemma digito_nao_isspace (x : Z) : Py.digito x = true -> Py.isspace x = false.
Proof.
  intros Hd. destruct (Py.isspace x) eqn:E; [|reflexivity].
  rewrite (isspace_nao_digito x E) in Hd. discriminate.
Qed.

Lemma lstrip_digitos (l : list Z) : forallb Py.digito l = true -> Py.lstrip l = l.
Proof.
  destruct l as [|x r]; [reflexivity|]. cbn [forallb Py.lstrip]. intros H.
  apply andb_true_iff in H. rewrite (digito_nao_isspace x (proj1 H)). reflexivity.
Qed.

Lemma rstrip_digitos (l : list Z) : forallb Py.digito l = true -> Py.rstrip l = l.
Proof.
  induction l as [|x r IH]; [reflexivity|]. cbn [forallb Py.rstrip]. intros H.
  apply andb_true_iff in H. destruct H as [Hx Hr]. rewrite (IH Hr).
  destruct r; [|reflexivity]. rewrite (digito_nao_isspace x Hx). reflexivity.
Qed.

Lemma In_lstrip (l : list Z) (x : Z) : In x (Py.lstrip l) -> In x l.
Proof.
  induction l as [|a r IH]; [trivial|]. cbn [Py.lstrip].
  destruct (Py.isspace a); [right; auto|trivial].
Qed.

Lemma In_rstrip (l : list Z) (x : Z) : In x (Py.rstrip l) -> In x l.
Proof.
  induction l as [|a r IH]; [trivial|]. cbn [Py.rstrip].
  destruct (Py.rstrip r) as [|b r'].
  - destruct (Py.isspace a); [intros []|intros [<-|[]]; left; reflexivity].
  - intros [<-|H]; [left; reflexivity|right; apply IH, H].
Qed.

(** Removing an ASCII character leaves the bytes of every other code
    point in place. *)
Lemma remove_char_utf8_ponto (c x : Z) (t : string) :
  0 <= c < 128 -> 0 <= x < 2097152 -> x <> c ->
  Py.remove_char (Py.ascii_de c) (Py.utf8_ponto x ++ t)
  = (Py.utf8_ponto x ++ Py.remove_char (Py.ascii_de c) t).
Proof.
  intros Hc Hx Hne.
  assert (Hdif : forall b, 0 <= b < 256 -> b <> c ->
            Ascii.eqb (Py.ascii_de c) (Py.ascii_de b) = false).
  { intros b Hb Hbc. apply Ascii.eqb_neq. intros E.
    apply (f_equal Py.byte_de) in E.
    rewrite !byte_de_ascii_de in E by lia. congruence. }
  unfold Py.utf8_ponto.
  destruct (Z.ltb_spec x 128); [|destruct (Z.ltb_spec x 2048); [|destruct (Z.ltb_spec x 65536)]];
    cbn [append Py.remove_char];
    rewrite !Hdif by (Z.div_mod_to_equations; lia); reflexivity.
Qed.

Lemma remove_char_utf8 (c : Z) (l : list Z) :
  0 <= c < 128 -> Py.digito c = false -> forallb Py.digito l = true ->
  Py.remove_char (Py.ascii_de c) (Py.utf8 l) = Py.utf8 l.
Proof.
  intros Hc Hnd. induction l as [|x r IH]; [reflexivity|]. cbn [forallb Py.utf8].
  intros H. apply andb_true_iff in H. destruct H as [Hx Hr].
  rewrite remove_char_utf8_ponto; [rewrite (IH Hr); reflexivity|exact Hc| |].
  - exact (digito_range x Hx).
  - intros ->. rewrite Hnd in Hx. discriminate.
Qed.

(** X1. A national ID that [_limpar_e_validar_cpf] returns is a fixed
    point of the cleaning: it is made of eleven digit characters, and
    given back to the function it is returned unchanged. *)
Theorem limpar_cpf_ponto_fixo (cpf_bruto cpf_limpo : string) :
  _limpar_e_validar_cpf cpf_bruto = Retorna cpf_limpo ->
  Py.len cpf_limpo = 11
  /\ forallb Py.digito (Py.pontos cpf_limpo) = true
  /\ _limpar_e_validar_cpf cpf_limpo = Retorna cpf_limpo.
Proof.
  intros H. destruct (cpf_limpo_onze_digitos _ _ H) as [Hlen Hdig].
  assert (Hfa : forallb Py.digito (Py.pontos cpf_limpo) = true).
  { unfold Py.isdigit in Hdig. destruct (Py.pontos cpf_limpo); [discriminate|exact Hdig]. }
  split; [exact Hlen|]. split; [exact Hfa|].
  assert (Hl : exists l, cpf_limpo = Py.utf8 l /\ Py.pontos cpf_limpo = l).
  { unfold _limpar_e_validar_cpf in H.
    destruct (negb _ || negb _)%bool in H; [discriminate|]. inversion H as [E].
    unfold Py.strip. eexists. split; [reflexivity|]. apply pontos_utf8.
    rewrite Forall_forall. intros x Hx. apply In_rstrip, In_lstrip in Hx.
    pose proof (pontos_range (Py.remove_char "-" (Py.remove_char "." cpf_bruto))) as Hr.
    rewrite Forall_forall in Hr. exact (Hr x Hx). }
  destruct Hl as (l & -> & Hl). rewrite Hl in Hfa.
  unfold _limpar_e_validar_cpf.
  change "."%char with (Py.ascii_de 46). change "-"%char with (Py.ascii_de 45).
  rewrite (remove_char_utf8 46 l) by (try lia; reflexivity || exact Hfa).
  rewrite (remove_char_utf8 45 l) by (try lia; reflexivity || exact Hfa).
  unfold Py.strip. rewrite Hl, (lstrip_digitos l Hfa), (rstrip_digitos l Hfa).
  rewrite Hdig. unfold Py.len in Hlen |- *. rewrite Hlen. reflexivity.
Qed.

Lemma limpar_cpf_ponto_fixo_witness :
  Py.len "11122233344" = 11
  /\ forallb Py.digito (Py.pontos "11122233344") = true
  /\ _limpar_e_validar_cpf "11122233344" = Retorna "11122233344".
Proof.
  exact (limpar_cpf_ponto_fixo " 111.222.333-44" "11122233344" eq_refl).
Defined.

(* ================================================================== *)
(** ** Further properties: what the writers leave behind *)
(* ================================================================== *)

Lemma NoDup_snoc {A} (l : list A) (x : A) :
  NoDup l -> ~ In x l -> NoDup (l ++ [x])%list.
Proof.
  induction l as [|a r IH]; intros Hnd Hx; cbn.
  - constructor; [intros []|constructor].
  - apply NoDup_cons_iff in Hnd. destruct Hnd as [Ha Hr]. constructor.
    + intros Hin. apply in_app_or in Hin. destruct Hin as [Hin|[<-|[]]].
      * exact (Ha Hin).
      * apply Hx. left. reflexivity.
    + apply IH; [exact Hr|]. intros Hin. apply Hx. right. exact Hin.
Qed.

Lemma update_one_ids (p : ConsultaDoc -> bool) (set : ConsultaDoc -> ConsultaDoc)
  (docs : list ConsultaDoc) :
  (forall x, _id (set x) = _id x) ->
  map _id (fst (update_one ConsultaDoc_eq_dec p set docs)) = map _id docs.
Proof.
  intros Hid. induction docs as [|d r IH]; [reflexivity|]. cbn [update_one].
  destruct (p d).
  - cbn. rewrite Hid. reflexivity.
  - destruct (update_one ConsultaDoc_eq_dec p set r) as [r' n]. cbn in IH |- *.
    rewrite IH. reflexivity.
Qed.

(** A read by id after a write that keeps ids: the document read is the
    one that was there, or its rewritten version. *)
Lemma find_apos_update (p : ConsultaDoc -> bool) (set : ConsultaDoc -> ConsultaDoc)
  (docs : list ConsultaDoc) (i : Z) :
  (forall x, _id (set x) = _id x) ->
  match find_one (com_id i) docs with
  | None => find_one (com_id i) (fst (update_one ConsultaDoc_eq_dec p set docs)) = None
  | Some c =>
      find_one (com_id i) (fst (update_one ConsultaDoc_eq_dec p set docs)) = Some c
      \/ (p c = true
          /\ find_one (com_id i) (fst (update_one ConsultaDoc_eq_dec p set docs)) = Some (set c))
  end.
Proof.
  intros Hid. unfold find_one. induction docs as [|d r IH]; [reflexivity|].
  cbn [update_one]. destruct (p d) eqn:Hp.
  - cbn [fst List.find].
    assert (E : com_id i (set d) = com_id i d) by (unfold com_id; rewrite Hid; reflexivity).
    rewrite E. destruct (com_id i d).
    + right. split; [exact Hp|reflexivity].
    + destruct (List.find (com_id i) r); [left; reflexivity|reflexivity].
  - destruct (update_one ConsultaDoc_eq_dec p set r) as [r' n]. cbn [fst] in IH |- *.
    cbn [List.find]. destruct (com_id i d); [left; reflexivity|exact IH].
Qed.

Lemma cancelar_consulta_bd (db : Database) (agora consulta_id : Z) :
  fst (cancelar_consulta agora consulta_id db)
  = set_consulta db
      (fst (update_one ConsultaDoc_eq_dec (com_id consulta_id) (set_cancelada agora)
              (consulta db))).
Proof.
  unfold cancelar_consulta, bind, consultas_update_one, levanta, ler, ler_r.
  change (fun c : ConsultaDoc => _id c =? consulta_id) with (com_id consulta_id).
  fold (set_cancelada agora).
  destruct (update_one ConsultaDoc_eq_dec (com_id consulta_id) (set_cancelada agora)
              (consulta db)) as [l n].
  cbn [fst]. destruct (n =? 0); reflexivity.
Qed.

Lemma reagendar_consulta_bd (db : Database) (agora consulta_id : Z)
  (nova_data_str nova_hora_str : string) :
  let r := reagendar_consulta agora consulta_id nova_data_str nova_hora_str db in
  fst r = db
  \/ fst r = set_consulta db
               (fst (update_one ConsultaDoc_eq_dec (com_id consulta_id)
                       (set_reagendada agora nova_data_str nova_hora_str) (consulta db))).
Proof.
  cbn zeta.
  destruct (find_one (com_id consulta_id) (consulta db)) as [original|] eqn:Hfind.
  2:{ left. rewrite (reagendar_consulta_inexistente _ _ _ _ _ Hfind). reflexivity. }
  destruct (Py.truthy (medico_id original)) eqn:Ht.
  - destruct (find_one (conflita (medico_id original) nova_data_str nova_hora_str consulta_id)
                (consulta db)) as [outra|] eqn:Hc.
    + left. rewrite (reagendar_consulta_conflito _ _ _ _ _ original outra Hfind Ht Hc).
      reflexivity.
    + right. unfold reagendar_consulta, bind at 1, ler at 1.
      pose proof Hfind as Hf. unfold com_id in Hf. rewrite Hf. cbn beta iota zeta.
      unfold bind at 1, ler at 1. rewrite Ht. unfold conflita in Hc. rewrite Hc.
      cbn beta iota zeta. unfold bind, consultas_update_one, levanta, ler, ler_r.
      change (fun c : ConsultaDoc => _id c =? consulta_id) with (com_id consulta_id).
      fold (set_reagendada agora nova_data_str nova_hora_str).
      destruct (update_one ConsultaDoc_eq_dec (com_id consulta_id)
                  (set_reagendada agora nova_data_str nova_hora_str) (consulta db)) as [l n].
      cbn [fst]. destruct (n =? 0); reflexivity.
  - right. unfold reagendar_consulta, bind at 1, ler at 1.
    pose proof Hfind as Hf. unfold com_id in Hf. rewrite Hf. cbn beta iota zeta.
    unfold bind at 1, ler at 1. rewrite Ht.
    cbn beta iota zeta. unfold bind, consultas_update_one, levanta, ler, ler_r.
    change (fun c : ConsultaDoc => _id c =? consulta_id) with (com_id consulta_id).
    fold (set_reagendada agora nova_data_str nova_hora_str).
    destruct (update_one ConsultaDoc_eq_dec (com_id consulta_id)
                (set_reagendada agora nova_data_str nova_hora_str) (consulta db)) as [l n].
    cbn [fst]. destruct (n =? 0); reflexivity.
Qed.

(** [_obter_ou_criar_paciente] either leaves the database alone or
    appends the one new patient. *)
Lemma obter_paciente_casos (db : Database) (nome_completo cpf : string) :
  let r := _obter_ou_criar_paciente nome_completo cpf db in
  fst r = db
  \/ exists cpf_limpo,
       _limpar_e_validar_cpf cpf = Retorna cpf_limpo
       /\ find_one (cpf_igual cpf_limpo) (paciente db) = None
       /\ r = (set_paciente db (paciente db ++ [novo_paciente db nome_completo cpf_limpo])%list,
               Retorna (Paciente_model_validate (novo_paciente db nome_completo cpf_limpo))).
Proof.
  cbn zeta. destruct (_limpar_e_validar_cpf cpf) as [cpf_limpo|e] eqn:Hcpf.
  - destruct (find_one (cpf_igual cpf_limpo) (paciente db)) as [doc|] eqn:Hfind.
    + left. rewrite (obter_paciente_existente db _ cpf cpf_limpo doc Hcpf Hfind). reflexivity.
    + right. exists cpf_limpo. split; [reflexivity|]. split; [exact Hfind|].
      exact (obter_paciente_novo db _ cpf cpf_limpo Hcpf Hfind).
  - left. unfold _obter_ou_criar_paciente, bind, lift. rewrite Hcpf. reflexivity.
Qed.

Lemma agendar_exame_simples_bd (db : Database) (created updated : Z)
  (nome_paciente cpf_paciente data_str hora_inicio_str nome_exame : string) :
  let r := agendar_exame_simples created updated nome_paciente cpf_paciente data_str
             hora_inicio_str nome_exame db in
  let db1 := fst (_obter_ou_criar_paciente nome_paciente cpf_paciente db) in
  fst r = db \/ fst r = db1
  \/ exists pid e obs,
       fst r = fst (agendar_consulta created updated pid data_str hora_inicio_str
                      None e obs db1).
Proof.
  cbn zeta. unfold agendar_exame_simples.
  destruct (negb (Py.in_lista (Py.lower nome_exame) EXAMES_SEM_ESPECIALISTA));
    [left; reflexivity|].
  unfold bind, ler, levanta.
  destruct (_obter_ou_criar_paciente nome_paciente cpf_paciente db) as [db1 [p|e]];
    [|right; left; reflexivity].
  cbn [fst].
  destruct (find_one _ (tipo_exame db1)) as [ex|]; [|right; left; reflexivity].
  right. right. eexists. eexists. eexists. reflexivity.
Qed.

Lemma agendar_consulta_com_medico_bd (regex_i : string -> option (string -> bool))
  (db : Database) (created updated : Z)
  (nome_paciente cpf_paciente data_str hora_inicio_str nome_medico_arg : string)
  (motivo_consulta : option string) :
  let r := agendar_consulta_com_medico regex_i created updated nome_paciente cpf_paciente
             data_str hora_inicio_str nome_medico_arg motivo_consulta db in
  let db1 := fst (_obter_ou_criar_paciente nome_paciente cpf_paciente db) in
  fst r = db \/ fst r = db1
  \/ exists pid m e,
       fst r = fst (agendar_consulta created updated pid data_str hora_inicio_str
                      m e motivo_consulta db1).
Proof.
  cbn zeta. unfold agendar_consulta_com_medico.
  destruct (regex_i nome_medico_arg) as [casa|]; [|left; reflexivity].
  destruct (find_one _ (medico db)) as [md|]; [|left; reflexivity].
  destruct (_obter_ou_criar_paciente nome_paciente cpf_paciente db) as [db1 [p|e]];
    [|right; left; reflexivity].
  cbn [fst].
  assert (Hag : forall e,
            exists pid m e0,
              fst (let (db2, r0) := agendar_consulta created updated (id p) data_str
                                      hora_inicio_str (Some (med_id md)) e motivo_consulta db1 in
                   match r0 with
                   | Retorna v => (db2, @inr ExcecaoBusca _ v)
                   | Levanta e1 => (db2, inl (DoServico e1))
                   end)
              = fst (agendar_consulta created updated pid data_str hora_inicio_str
                       m e0 motivo_consulta db1)).
  { intros e. exists (id p), (Some (med_id md)), e.
    destruct (agendar_consulta _ _ _ _ _ _ _ _ db1) as [db2 [v|e1]]; reflexivity. }
  destruct motivo_consulta as [[|c0 t0]|]; try (right; right; apply Hag).
  destruct (regex_i (String c0 t0)) as [casa_exame|]; [|right; left; reflexivity].
  destruct (find_one _ (tipo_exame db1)); right; right; apply Hag.
Qed.

Lemma ver_minhas_consultas_bd (db : Database) (hoje : Py.date) (cpf_paciente : string) :
  fst (ver_minhas_consultas hoje cpf_paciente db)
  = fst (_obter_ou_criar_paciente "Busca" cpf_paciente db).
Proof.
  unfold ver_minhas_consultas, bind.
  destruct (_obter_ou_criar_paciente "Busca" cpf_paciente db) as [db1 [p|e]]; reflexivity.
Qed.

Lemma bd_integra_obter (db : Database) (nome_completo cpf : string) :
  bd_integra db -> bd_integra (fst (_obter_ou_criar_paciente nome_completo cpf db)).
Proof.
  intros (Hid & Hcpf & Hcon).
  destruct (obter_paciente_casos db nome_completo cpf) as [->|(limpo & _ & Hfind & ->)];
    [repeat split; assumption|].
  cbn [fst]. unfold bd_integra. cbn [paciente consulta set_paciente].
  rewrite !map_app. cbn [map]. split; [|split; [|exact Hcon]].
  - apply NoDup_snoc; [exact Hid|]. intros Hin. apply in_map_iff in Hin.
    destruct Hin as (x & Hx & Hin). cbn in Hx.
    exact (proximo_id_novo 101 (paciente db) x Hin Hx).
  - apply NoDup_snoc; [exact Hcpf|]. intros Hin. apply in_map_iff in Hin.
    destruct Hin as (x & Hx & Hin). cbn in Hx.
    pose proof (find_one_None_forall _ _ Hfind x Hin) as Hq.
    unfold cpf_igual in Hq. rewrite Hx, String.eqb_refl in Hq. discriminate.
Qed.

Lemma bd_integra_agendar (db : Database) (created updated pid : Z) (d h : string)
  (m e : option Z) (o : option string) :
  bd_integra db -> bd_integra (fst (agendar_consulta created updated pid d h m e o db)).
Proof.
  intros (Hid & Hcpf & Hcon). rewrite agendar_consulta_insere. cbn [fst].
  unfold bd_integra. cbn [paciente consulta set_consulta].
  split; [exact Hid|]. split; [exact Hcpf|].
  rewrite map_app. cbn [map]. apply NoDup_snoc; [exact Hcon|].
  intros Hin. apply in_map_iff in Hin. destruct Hin as (x & Hx & Hin). cbn in Hx.
  exact (proximo_id_novo 123 (consulta db) x Hin Hx).
Qed.

Lemma bd_integra_update (db : Database) (p : ConsultaDoc -> bool)
  (set : ConsultaDoc -> ConsultaDoc) :
  (forall x, _id (set x) = _id x) ->
  bd_integra db ->
  bd_integra (set_consulta db (fst (update_one ConsultaDoc_eq_dec p set (consulta db)))).
Proof.
  intros Hset (Hid & Hcpf & Hcon). unfold bd_integra. cbn [paciente consulta set_consulta].
  rewrite (update_one_ids p set (consulta db) Hset). auto.
Qed.

(** X2. Every method of the service that can write keeps the store
    well-formed: patient ids, patient national IDs and appointment ids stay
    pairwise distinct, whatever the arguments (and the regular-expression
    engine) and whether the method returns or raises. *)
Theorem servico_preserva_integridade (db : Database) :
  bd_integra db ->
  (forall nome cpf, bd_integra (fst (_obter_ou_criar_paciente nome cpf db)))
  /\ (forall c u pid d h m e o, bd_integra (fst (agendar_consulta c u pid d h m e o db)))
  /\ (forall c u nome cpf d h ex,
        bd_integra (fst (agendar_exame_simples c u nome cpf d h ex db)))
  /\ (forall hoje cpf, bd_integra (fst (ver_minhas_consultas hoje cpf db)))
  /\ (forall agora i d h, bd_integra (fst (reagendar_consulta agora i d h db)))
  /\ (forall agora i, bd_integra (fst (cancelar_consulta agora i db)))
  /\ (forall regex_i c u nome cpf d h nm mot,
        bd_integra (fst (agendar_consulta_com_medico regex_i c u nome cpf d h nm mot db))).
Proof.
  intros Hdb. split; [|split; [|split; [|split; [|split; [|split]]]]].
  - intros. apply bd_integra_obter, Hdb.
  - intros. apply bd_integra_agendar, Hdb.
  - intros c u nome cpf d h ex.
    destruct (agendar_exame_simples_bd db c u nome cpf d h ex) as [->|[->|(pid & e & o & ->)]].
    + exact Hdb.
    + apply bd_integra_obter, Hdb.
    + apply bd_integra_agendar, bd_integra_obter, Hdb.
  - intros. rewrite ver_minhas_consultas_bd. apply bd_integra_obter, Hdb.
  - intros agora i d h.
    destruct (reagendar_consulta_bd db agora i d h) as [->| ->]; [exact Hdb|].
    apply bd_integra_update; [reflexivity|exact Hdb].
  - intros agora i. rewrite cancelar_consulta_bd.
    apply bd_integra_update; [reflexivity|exact Hdb].
  - intros regex_i c u nome cpf d h nm mot.
    destruct (agendar_consulta_com_medico_bd regex_i db c u nome cpf d h nm mot)
      as [->|[->|(pid & m & e & ->)]].
    + exact Hdb.
    + apply bd_integra_obter, Hdb.
    + apply bd_integra_agendar, bd_integra_obter, Hdb.
Qed.

Lemma bd_integra_exemplos : bd_integra db_exemplos.
Proof.
  unfold bd_integra. cbn. repeat split; repeat constructor; cbn; intuition discriminate.
Qed.

Lemma servico_preserva_integridade_witness :
  bd_integra (fst (agendar_exame_simples 1752570000000 1752570000000 "Nova Paciente"
                     "999.888.777-66" "2025-07-15" "09:00" "Raio-X" db_exemplos))
  /\ bd_integra (fst (cancelar_consulta 1752570000000 123 db_exemplos)).
Proof.
  pose proof (servico_preserva_integridade db_exemplos bd_integra_exemplos) as H.
  split.
  - exact (proj1 (proj2 (proj2 H)) _ _ _ _ _ _ _).
  - exact (proj1 (proj2 (proj2 (proj2 (proj2 (proj2 H))))) _ _).
Defined.

Lemma so_toca_refl (i : Z) (db : Database) : so_toca i db db.
Proof.
  unfold so_toca. repeat (split; [reflexivity|]).
  intros j c Hc. exists c. split; [exact Hc|]. split; [|reflexivity].
  unfold mesmo_atendimento. repeat split.
Qed.

Lemma so_toca_update (db : Database) (consulta_id : Z) (set : ConsultaDoc -> ConsultaDoc) :
  (forall x, mesmo_atendimento x (set x)) ->
  so_toca consulta_id db
    (set_consulta db
       (fst (update_one ConsultaDoc_eq_dec (com_id consulta_id) set (consulta db)))).
Proof.
  intros Hset.
  assert (Hid : forall x, _id (set x) = _id x) by (intros x; apply (Hset x)).
  unfold so_toca. cbn [paciente medico tipo_exame especialidade consulta set_consulta].
  repeat (split; [reflexivity|]). split; [apply update_one_ids, Hid|].
  intros j c Hc.
  pose proof (find_apos_update (com_id consulta_id) set (consulta db) j Hid) as H.
  rewrite Hc in H. destruct H as [H|[Hp H]].
  - exists c. split; [exact H|]. split; [|reflexivity].
    unfold mesmo_atendimento. repeat split.
  - exists (set c). split; [exact H|]. split; [apply Hset|].
    intros Hj. exfalso. apply Hj.
    apply find_some in Hc. destruct Hc as [_ Hc].
    unfold com_id in Hc, Hp. apply Z.eqb_eq in Hc. apply Z.eqb_eq in Hp. congruence.
Qed.

(** X3. [reagendar_consulta] and [cancelar_consulta] touch nothing but the
    appointment they are given: the other collections are untouched, no
    appointment is added or removed, every other appointment reads back
    identical, and the target keeps its id, patient, physician, exam type,
    duration, notes and creation time.  This holds for every argument and
    whether the call returns or raises. *)
Theorem reagendar_e_cancelar_so_tocam_a_consulta
  (db : Database) (agora consulta_id : Z) (nova_data_str nova_hora_str : string) :
  so_toca consulta_id db
    (fst (reagendar_consulta agora consulta_id nova_data_str nova_hora_str db))
  /\ so_toca consulta_id db (fst (cancelar_consulta agora consulta_id db)).
Proof.
  split.
  - destruct (reagendar_consulta_bd db agora consulta_id nova_data_str nova_hora_str)
      as [->| ->]; [apply so_toca_refl|].
    apply so_toca_update. intros x. unfold mesmo_atendimento. repeat split.
  - rewrite cancelar_consulta_bd.
    apply so_toca_update. intros x. unfold mesmo_atendimento. repeat split.
Qed.

Lemma enriquecer_nunca_value_error (db : Database) (o : option ConsultaDoc) (m : Mensagem) :
  _enriquecer_e_validar_agendamento db o <> Levanta (ValueError m).
Proof.
  unfold _enriquecer_e_validar_agendamento, AgendamentoDetalhado_model_validate.
  destruct o as [doc|]; [|discriminate]. destruct (observacoes doc); discriminate.
Qed.

(** X4. When [reagendar_consulta] or [cancelar_consulta] raises one of
    the service's own [ValueError]s (not found, conflict, nothing to
    change), the database is exactly as it was before the call. *)
Theorem erro_de_valor_nada_escreve
  (db : Database) (agora consulta_id : Z) (nova_data_str nova_hora_str : string)
  (m : Mensagem) :
  (snd (reagendar_consulta agora consulta_id nova_data_str nova_hora_str db)
   = Levanta (ValueError m) ->
   fst (reagendar_consulta agora consulta_id nova_data_str nova_hora_str db) = db)
  /\ (snd (cancelar_consulta agora consulta_id db) = Levanta (ValueError m) ->
      fst (cancelar_consulta agora consulta_id db) = db).
Proof.
  split.
  - destruct (find_one (com_id consulta_id) (consulta db)) as [original|] eqn:Hfind.
    2:{ rewrite (reagendar_consulta_inexistente _ _ _ _ _ Hfind). reflexivity. }
    destruct (Py.truthy (medico_id original)) eqn:Ht;
      [destruct (find_one (conflita (medico_id original) nova_data_str nova_hora_str
                             consulta_id) (consulta db)) as [outra|] eqn:Hc|].
    + rewrite (reagendar_consulta_conflito _ _ _ _ _ original outra Hfind Ht Hc).
      reflexivity.
    + destruct (reagendar_consulta_livre db agora consulta_id nova_data_str nova_hora_str
                  original Hfind (fun _ => Hc)) as (l1 & l2 & Hdocs & _ & ->).
      cbn [fst snd].
      destruct (ConsultaDoc_eq_dec original
                  (set_reagendada agora nova_data_str nova_hora_str original)) as [<-|_].
      * intros _. rewrite <- Hdocs. apply set_consulta_mesma.
      * intros H. exfalso. exact (enriquecer_nunca_value_error _ _ _ H).
    + destruct (reagendar_consulta_livre db agora consulta_id nova_data_str nova_hora_str
                  original Hfind) as (l1 & l2 & Hdocs & _ & ->);
        [intros H; congruence|].
      cbn [fst snd].
      destruct (ConsultaDoc_eq_dec original
                  (set_reagendada agora nova_data_str nova_hora_str original)) as [<-|_].
      * intros _. rewrite <- Hdocs. apply set_consulta_mesma.
      * intros H. exfalso. exact (enriquecer_nunca_value_error _ _ _ H).
  - destruct (find_one (com_id consulta_id) (consulta db)) as [c|] eqn:Hfind.
    + destruct (cancelar_consulta_existente db agora consulta_id c Hfind)
        as (l1 & l2 & Hdocs & _ & ->).
      cbn [fst snd].
      destruct (ConsultaDoc_eq_dec c (set_cancelada agora c)) as [<-|_].
      * intros _. rewrite <- Hdocs. apply set_consulta_mesma.
      * intros H. exfalso. exact (enriquecer_nunca_value_error _ _ _ H).
    + rewrite (cancelar_consulta_inexistente _ _ _ Hfind). cbn [fst snd]. intros _.
      apply set_consulta_mesma.
Qed.

Lemma erro_de_valor_nada_escreve_witness :
  fst (reagendar_consulta 1749600000000 999 "2025-07-15" "09:00" db_exemplos) = db_exemplos
  /\ fst (cancelar_consulta 1749600000000 999 db_exemplos) = db_exemplos.
Proof.
  split.
  - exact (proj1 (erro_de_valor_nada_escreve db_exemplos 1749600000000 999
                    "2025-07-15" "09:00" (ConsultaNaoEncontrada 999)) eq_refl).
  - exact (proj2 (erro_de_valor_nada_escreve db_exemplos 1749600000000 999
                    "2025-07-15" "09:00" (NaoEncontradaOuCancelada 999)) eq_refl).
Defined.

Lemma permanece_cancelada_refl (db : Database) : permanece_cancelada db db.
Proof. intros i c Hc Hs. exists c. auto. Qed.

Lemma permanece_cancelada_trans (db1 db2 db3 : Database) :
  permanece_cancelada db1 db2 -> permanece_cancelada db2 db3 -> permanece_cancelada db1 db3.
Proof.
  intros H12 H23 i c Hc Hs. destruct (H12 i c Hc Hs) as (c2 & Hc2 & Hs2).
  exact (H23 i c2 Hc2 Hs2).
Qed.

Lemma permanece_cancelada_obter (db : Database) (nome_completo cpf : string) :
  permanece_cancelada db (fst (_obter_ou_criar_paciente nome_completo cpf db)).
Proof.
  destruct (obter_paciente_casos db nome_completo cpf) as [->|(limpo & _ & _ & ->)];
    [apply permanece_cancelada_refl|].
  intros i c Hc Hs. exists c. auto.
Qed.

Lemma permanece_cancelada_agendar (db : Database) (created updated pid : Z) (d h : string)
  (m e : option Z) (o : option string) :
  permanece_cancelada db (fst (agendar_consulta created updated pid d h m e o db)).
Proof.
  rewrite agendar_consulta_insere. cbn [fst]. intros i c Hc Hs. exists c.
  split; [|exact Hs]. cbn [consulta set_consulta]. apply find_one_app_Some, Hc.
Qed.

Lemma permanece_cancelada_update (db : Database) (p : ConsultaDoc -> bool)
  (set : ConsultaDoc -> ConsultaDoc) :
  (forall x, _id (set x) = _id x) ->
  (forall x, status x = CANCELADA -> status (set x) = CANCELADA) ->
  permanece_cancelada db
    (set_consulta db (fst (update_one ConsultaDoc_eq_dec p set (consulta db)))).
Proof.
  intros Hid Hst i c Hc Hs. cbn [consulta set_consulta].
  pose proof (find_apos_update p set (consulta db) i Hid) as H.
  rewrite Hc in H. destruct H as [H|[_ H]].
  - exists c. auto.
  - exists (set c). split; [exact H|apply Hst, Hs].
Qed.

(** X5. CANCELADA is terminal: an appointment that reads as cancelled
    still reads as cancelled after any method of the service that can
    write, whatever its arguments (in particular a reschedule of a
    cancelled appointment moves it without reviving it). *)
Theorem cancelada_e_terminal (db : Database) :
  (forall nome cpf, permanece_cancelada db (fst (_obter_ou_criar_paciente nome cpf db)))
  /\ (forall c u pid d h m e o,
        permanece_cancelada db (fst (agendar_consulta c u pid d h m e o db)))
  /\ (forall c u nome cpf d h ex,
        permanece_cancelada db (fst (agendar_exame_simples c u nome cpf d h ex db)))
  /\ (forall hoje cpf, permanece_cancelada db (fst (ver_minhas_consultas hoje cpf db)))
  /\ (forall agora i d h, permanece_cancelada db (fst (reagendar_consulta agora i d h db)))
  /\ (forall agora i, permanece_cancelada db (fst (cancelar_consulta agora i db)))
  /\ (forall regex_i c u nome cpf d h nm mot,
        permanece_cancelada db
          (fst (agendar_consulta_com_medico regex_i c u nome cpf d h nm mot db))).
Proof.
  split; [|split; [|split; [|split; [|split; [|split]]]]].
  - intros. apply permanece_cancelada_obter.
  - intros. apply permanece_cancelada_agendar.
  - intros c u nome cpf d h ex.
    destruct (agendar_exame_simples_bd db c u nome cpf d h ex) as [->|[->|(pid & e & o & ->)]].
    + apply permanece_cancelada_refl.
    + apply permanece_cancelada_obter.
    + eapply permanece_cancelada_trans;
        [apply permanece_cancelada_obter|apply permanece_cancelada_agendar].
  - intros. rewrite ver_minhas_consultas_bd. apply permanece_cancelada_obter.
  - intros agora i d h.
    destruct (reagendar_consulta_bd db agora i d h) as [->| ->];
      [apply permanece_cancelada_refl|].
    apply permanece_cancelada_update; [reflexivity|intros x Hx; exact Hx].
  - intros agora i. rewrite cancelar_consulta_bd.
    apply permanece_cancelada_update; reflexivity.
  - intros regex_i c u nome cpf d h nm mot.
    destruct (agendar_consulta_com_medico_bd regex_i db c u nome cpf d h nm mot)
      as [->|[->|(pid & m & e & ->)]].
    + apply permanece_cancelada_refl.
    + apply permanece_cancelada_obter.
    + eapply permanece_cancelada_trans;
        [apply permanece_cancelada_obter|apply permanece_cancelada_agendar].
Qed.

(** X6. [cancelar_consulta] succeeds on every stored appointment that is
    not yet cancelled, a CONCLUIDA one included, at any clock reading: it
    returns the appointment with status CANCELADA (when its notes are a
    string) and a read by id afterwards shows CANCELADA. *)
Theorem cancelar_consulta_nao_cancelada
  (db : Database) (agora consulta_id : Z) (c : ConsultaDoc) (obs : string) :
  find_one (com_id consulta_id) (consulta db) = Some c ->
  status c <> CANCELADA ->
  observacoes c = Some obs ->
  exists db' v c',
    cancelar_consulta agora consulta_id db = (db', Retorna (Some v))
    /\ ad_id v = consulta_id /\ ad_status v = CANCELADA
    /\ ad_data v = data c /\ ad_hora_inicio v = hora_inicio c
    /\ find_one (com_id consulta_id) (consulta db') = Some c'
    /\ status c' = CANCELADA.
Proof.
  intros Hfind Hst Hobs.
  destruct (cancelar_consulta_existente db agora consulta_id c Hfind)
    as (l1 & l2 & _ & Hread & Hres).
  destruct (ConsultaDoc_eq_dec c (set_cancelada agora c)) as [E|_].
  { exfalso. apply Hst. rewrite E. reflexivity. }
  unfold _enriquecer_e_validar_agendamento, AgendamentoDetalhado_model_validate in Hres.
  cbn [observacoes set_cancelada] in Hres. rewrite Hobs in Hres.
  eexists. eexists. exists (set_cancelada agora c).
  split; [exact Hres|]. cbn [ad_id ad_status ad_data ad_hora_inicio].
  apply find_some in Hfind. destruct Hfind as [_ Hid]. apply Z.eqb_eq in Hid.
  split; [exact Hid|]. do 3 (split; [reflexivity|]). split; [exact Hread|reflexivity].
Qed.

Lemma cancelar_consulta_nao_cancelada_witness :
  exists db' v c',
    cancelar_consulta 1749500000000 123 (set_consulta db_exemplos [consulta_concluida])
    = (db', Retorna (Some v))
    /\ ad_id v = 123 /\ ad_status v = CANCELADA
    /\ ad_data v = "2025-06-10" /\ ad_hora_inicio v = "14:00"
    /\ find_one (com_id 123) (consulta db') = Some c'
    /\ status c' = CANCELADA.
Proof.
  refine (cancelar_consulta_nao_cancelada (set_consulta db_exemplos [consulta_concluida])
            1749500000000 123 consulta_concluida "Primeira consulta" eq_refl _ eq_refl).
  cbn. discriminate.
Defined.

(* ================================================================== *)
(** ** Further properties: exam booking, failures *)
(* ================================================================== *)

(** X7. [agendar_exame_simples] checks in this order.  An exam name off
    the list of simple exams is refused first, before the national ID is
    looked at, and nothing is written.  Then an invalid national ID is
    refused, nothing written.  Then the patient is resolved, and only
    afterwards the exam type is looked up: when the store has no exam type
    of that name the call fails, but a patient that did not exist has
    already been inserted and stays. *)
Theorem agendar_exame_simples_ordem_das_falhas
  (db : Database) (created updated : Z)
  (nome_paciente cpf_paciente data_str hora_inicio_str nome_exame : string) :
  let r := agendar_exame_simples created updated nome_paciente cpf_paciente data_str
             hora_inicio_str nome_exame db in
  (Py.in_lista (Py.lower nome_exame) EXAMES_SEM_ESPECIALISTA = false ->
   r = (db, Levanta (ValueError (ExameNaoSimples nome_exame))))
  /\ (Py.in_lista (Py.lower nome_exame) EXAMES_SEM_ESPECIALISTA = true ->
      forall e, _limpar_e_validar_cpf cpf_paciente = Levanta e ->
      r = (db, Levanta (ValueError CPFInvalido)))
  /\ (Py.in_lista (Py.lower nome_exame) EXAMES_SEM_ESPECIALISTA = true ->
      forall cpf_limpo,
        _limpar_e_validar_cpf cpf_paciente = Retorna cpf_limpo ->
        find_one (cpf_igual cpf_limpo) (paciente db) = None ->
        find_one (fun e => regex_exato_i nome_exame (exa_descricao e)) (tipo_exame db) = None ->
        r = (set_paciente db
               (paciente db ++ [ {| pac_id := proximo_id 101 (paciente db);
                                    pac_nome := nome_paciente; pac_cpf := cpf_limpo |} ])%list,
             Levanta (ValueError (ExameNaoEncontrado nome_exame)))).
Proof.
  cbn zeta. unfold agendar_exame_simples. split; [|split].
  - intros ->. reflexivity.
  - intros -> e He. cbn [negb]. unfold bind, _obter_ou_criar_paciente, lift.
    rewrite He. f_equal. f_equal.
    unfold _limpar_e_validar_cpf in He.
    destruct (negb _ || negb _)%bool in He; [|discriminate]. inversion He. reflexivity.
  - intros -> cpf_limpo Hcpf Hpac Hex. cbn [negb]. unfold bind at 1.
    rewrite (obter_paciente_novo db nome_paciente cpf_paciente cpf_limpo Hcpf Hpac).
    unfold bind, ler, levanta. cbn [tipo_exame set_paciente]. rewrite Hex. reflexivity.
Qed.

Lemma agendar_exame_simples_ordem_das_falhas_witness :
  agendar_exame_simples 1 1 "Nova Paciente" "999.888.777-66" "2025-07-15" "09:00" "Raio-X"
    {| medico := []; consulta := []; especialidade := []; tipo_exame := []; paciente := [] |}
  = ({| medico := []; consulta := []; especialidade := []; tipo_exame := [];
        paciente := [ {| pac_id := 101; pac_nome := "Nova Paciente";
                         pac_cpf := "99988877766" |} ] |},
     Levanta (ValueError (ExameNaoEncontrado "Raio-X"))).
Proof.
  exact (proj2 (proj2 (agendar_exame_simples_ordem_das_falhas
                         {| medico := []; consulta := []; especialidade := [];
                            tipo_exame := []; paciente := [] |}
                         1 1 "Nova Paciente" "999.888.777-66" "2025-07-15" "09:00" "Raio-X"))
           eq_refl "99988877766" eq_refl eq_refl eq_refl).
Defined.

(* ================================================================== *)
(** ** Further properties: availability *)
(* ================================================================== *)

Lemma mapR_origem {A B} (f : A -> Resultado B) (xs : list A) (ys : list B) :
  mapR f xs = Retorna ys ->
  forall y, In y ys -> exists x, In x xs /\ f x = Retorna y.
Proof.
  revert ys. induction xs as [|a r IH]; intros ys Hm y Hy.
  - cbn in Hm. inversion Hm; subst. destruct Hy.
  - cbn in Hm. destruct (f a) as [b|] eqn:Hfa; [|discriminate].
    destruct (mapR f r) as [bs|] eqn:Hr; [|discriminate].
    inversion Hm; subst ys. destruct Hy as [<-|Hy].
    + exists a. split; [left; reflexivity|exact Hfa].
    + destruct (IH bs eq_refl y Hy) as (x & Hx & Hfx).
      exists x. split; [right; exact Hx|exact Hfx].
Qed.

Lemma mapR_app {A B} (f : A -> Resultado B) (xs : list A) (ys : list B) (x : A) (y : B) :
  mapR f xs = Retorna ys -> f x = Retorna y ->
  mapR f (xs ++ [x])%list = Retorna (ys ++ [y])%list.
Proof.
  revert ys. induction xs as [|a r IH]; intros ys Hm Hx.
  - cbn in Hm. inversion Hm; subst. cbn. rewrite Hx. reflexivity.
  - cbn in Hm |- *. destruct (f a) as [b|]; [|discriminate].
    destruct (mapR f r) as [bs|]; [|discriminate].
    inversion Hm; subst ys. rewrite (IH bs eq_refl Hx). reflexivity.
Qed.

Lemma mapR_falha {A B} (f : A -> Resultado B) (xs : list A) (x : A) (e : Excecao) :
  In x xs -> f x = Levanta e -> exists e', mapR f xs = Levanta e'.
Proof.
  induction xs as [|a r IH]; intros Hin Hx; [destruct Hin|]. cbn.
  destruct (f a) as [b|e0] eqn:Hfa; [|eexists; reflexivity].
  destruct Hin as [->|Hin]; [congruence|].
  destruct (IH Hin Hx) as (e' & ->). eexists; reflexivity.
Qed.

Lemma verificar_retorna_inv (db : Database) (medico_id_arg : Z) (data_str : string)
  (slots : list Slot) :
  verificar_disponibilidade_medico db medico_id_arg data_str = Some (Retorna slots) ->
  exists d oc,
    Py.strptime_Ymd data_str = Some d
    /\ mapR (horario_ocupado d) (find (agendada_com medico_id_arg data_str) (consulta db))
       = Retorna oc
    /\ slots = map slot_de (filter (livre oc) inicios_do_dia).
Proof.
  intros Hv.
  destruct (Py.strptime_Ymd data_str) as [d|] eqn:Hd;
    [|unfold verificar_disponibilidade_medico in Hv; rewrite Hd in Hv; discriminate].
  destruct (mapR (horario_ocupado d) (find (agendada_com medico_id_arg data_str) (consulta db)))
    as [oc|e] eqn:Hoc.
  2:{ unfold verificar_disponibilidade_medico in Hv. rewrite Hd in Hv.
      unfold agendada_com in Hoc. rewrite Hoc in Hv. discriminate. }
  exists d, oc. split; [reflexivity|]. split; [exact Hoc|].
  rewrite (verificar_disponibilidade_medico_livres db medico_id_arg data_str d oc Hd Hoc) in Hv.
  apply Some_Retorna_inj in Hv. symmetry. exact Hv.
Qed.

Lemma agendada_com_true (m : Z) (data_str : string) (c : ConsultaDoc) :
  agendada_com m data_str c = true
  <-> medico_id c = Some m /\ data c = data_str /\ status c = AGENDADA.
Proof.
  unfold agendada_com. rewrite !andb_true_iff, String.eqb_eq.
  destruct (medico_id c) as [z|]; cbn [id_igual].
  - rewrite Z.eqb_eq. destruct (status c); cbn; intuition congruence.
  - intuition congruence.
Qed.

Lemma livre_true (oc : list (Py.time * Py.time)) (a : Py.time) :
  livre oc a = true <-> forall s e, In (s, e) oc -> a + 30 <= s \/ e <= a.
Proof.
  unfold livre, sobrepoe. rewrite negb_true_iff. split.
  - intros H s e Hin.
    destruct (Z.ltb_spec a e) as [H1|H1]; [|lia].
    destruct (Z.ltb_spec s (a + 30)) as [H2|H2]; [|lia].
    exfalso.
    assert (X : existsb (fun o => (a <? snd o) && (fst o <? a + 30)) oc = true).
    { apply existsb_exists. exists (s, e). split; [exact Hin|]. cbn [fst snd].
      apply andb_true_iff. split; apply Z.ltb_lt; assumption. }
    congruence.
  - intros H.
    destruct (existsb (fun o => (a <? snd o) && (fst o <? a + 30)) oc) eqn:E; [|reflexivity].
    apply existsb_exists in E. destruct E as ([s e] & Hin & Ho). cbn [fst snd] in Ho.
    apply andb_true_iff in Ho. destruct Ho as [H1 H2].
    apply Z.ltb_lt in H1. apply Z.ltb_lt in H2.
    destruct (H s e Hin); lia.
Qed.

(** X8. The slots [verificar_disponibilidade_medico] returns are exactly
    the free ones among the twenty slots of the day: a slot is in the
    result if and only if it is the half hour starting at one of 08:00,
    08:30, ..., 17:30 and, for every stored AGENDADA consultation of the
    physician on that date, with the interval [(s,e)] the code computes for
    it, the slot ends by [s] or starts at or after [e]. *)
Theorem slot_retornado_sse_livre
  (db : Database) (medico_id_arg : Z) (data_str : string) (slots : list Slot) :
  verificar_disponibilidade_medico db medico_id_arg data_str = Some (Retorna slots) ->
  exists d,
    Py.strptime_Ymd data_str = Some d
    /\ forall sl,
         In sl slots
         <-> exists a,
               In a inicios_do_dia /\ sl = slot_de a
               /\ forall c, In c (consulta db) ->
                    medico_id c = Some medico_id_arg -> data c = data_str ->
                    status c = AGENDADA ->
                    exists s e, horario_ocupado d c = Retorna (s, e)
                                /\ (a + 30 <= s \/ e <= a).
Proof.
  intros Hv. destruct (verificar_retorna_inv _ _ _ _ Hv) as (d & oc & Hd & Hoc & ->).
  exists d. split; [exact Hd|]. intros sl. rewrite in_map_iff. split.
  - intros (a & <- & Ha). apply filter_In in Ha. destruct Ha as [Ha Hl].
    exists a. split; [exact Ha|]. split; [reflexivity|].
    intros c Hc Hm Hdt Hst.
    assert (Hin : In c (find (agendada_com medico_id_arg data_str) (consulta db))).
    { apply filter_In. split; [exact Hc|]. apply agendada_com_true. auto. }
    destruct (mapR_Retorna _ _ _ Hoc c Hin) as ([s e] & Hse & Hhc).
    exists s, e. split; [exact Hhc|]. exact (proj1 (livre_true oc a) Hl s e Hse).
  - intros (a & Ha & -> & Hfree). exists a. split; [reflexivity|].
    apply filter_In. split; [exact Ha|]. apply livre_true. intros s e Hse.
    destruct (mapR_origem _ _ _ Hoc (s, e) Hse) as (c & Hc & Hhc).
    apply filter_In in Hc. destruct Hc as [Hc Hq]. apply agendada_com_true in Hq.
    destruct Hq as (Hm & Hdt & Hst).
    destruct (Hfree c Hc Hm Hdt Hst) as (s' & e' & Hhc' & Hor).
    rewrite Hhc in Hhc'. inversion Hhc'; subst. exact Hor.
Qed.

Lemma slot_retornado_sse_livre_witness :
  exists d,
    Py.strptime_Ymd "2025-06-10" = Some d
    /\ forall sl,
         In sl (map slot_de (filter (fun a => negb (a =? 840)) inicios_do_dia))
         <-> exists a,
               In a inicios_do_dia /\ sl = slot_de a
               /\ forall c, In c (consulta db_exemplos) ->
                    medico_id c = Some 42 -> data c = "2025-06-10" ->
                    status c = AGENDADA ->
                    exists s e, horario_ocupado d c = Retorna (s, e)
                                /\ (a + 30 <= s \/ e <= a).
Proof.
  apply (slot_retornado_sse_livre db_exemplos 42 "2025-06-10").
  vm_compute. reflexivity.
Defined.

Lemma find_app {D} (p : D -> bool) (l1 l2 : list D) :
  find p (l1 ++ l2)%list = (find p l1 ++ find p l2)%list.
Proof. unfold find. apply filter_app. Qed.

Lemma livre_app (oc : list (Py.time * Py.time)) (o : Py.time * Py.time) (a : Py.time) :
  livre (oc ++ [o])%list a = livre oc a && negb ((a <? snd o) && (fst o <? a + 30)).
Proof.
  unfold livre, sobrepoe. rewrite existsb_app. cbn [existsb].
  rewrite orb_false_r, negb_orb. reflexivity.
Qed.

Lemma slot_de_inj (a b : Py.time) :
  In a inicios_do_dia -> In b inicios_do_dia -> slot_de a = slot_de b -> a = b.
Proof.
  intros Ha Hb E. apply inicios_do_dia_range in Ha, Hb.
  apply (f_equal (fun s => Py.strptime_HM (slot_hora_inicio s))) in E.
  cbn [slot_de slot_hora_inicio] in E.
  rewrite !strptime_strftime_HM in E by lia. congruence.
Qed.

Lemma inicios_do_dia_passo (a b : Py.time) :
  In a inicios_do_dia -> In b inicios_do_dia ->
  (a <? b + 30) && (b <? a + 30) = true -> a = b.
Proof.
  unfold inicios_do_dia. intros Ha Hb H.
  apply in_map_iff in Ha. destruct Ha as (i & <- & _).
  apply in_map_iff in Hb. destruct Hb as (j & <- & _).
  apply andb_true_iff in H. destruct H as [H1 H2].
  apply Z.ltb_lt in H1. apply Z.ltb_lt in H2. lia.
Qed.

(** The appointment [agendar_consulta] stores for a physician blocks the
    half hour from its start. *)
Lemma horario_ocupado_nova (db : Database) (created updated pid m : Z)
  (data_str : string) (e : option Z) (obs : option string) (d : Py.date) (a : Py.time) :
  1 <= d <= Py.MAXORDINAL -> 0 <= a -> a + 30 < 1440 ->
  horario_ocupado d
    (nova_consulta_de db created updated pid data_str (Py.strftime_HM a) (Some m) e obs)
  = Retorna (a, a + 30).
Proof.
  intros Hd Ha0 Ha. unfold horario_ocupado. cbn [hora_inicio duracao_minutos nova_consulta_de].
  rewrite strptime_strftime_HM by lia. unfold Py.combine.
  rewrite datetime_add_minutes_mesmo_dia by lia. reflexivity.
Qed.

Lemma agendada_com_nova (db : Database) (created updated pid m : Z)
  (data_str hora_inicio_str : string) (e : option Z) (obs : option string) :
  m <> 0 ->
  agendada_com m data_str
    (nova_consulta_de db created updated pid data_str hora_inicio_str (Some m) e obs) = true.
Proof.
  intros Hm. apply agendada_com_true. cbn [medico_id data status nova_consulta_de].
  rewrite (truthy_Some m Hm). auto.
Qed.

(** X9. Booking a slot takes it, and only it, off the availability: when
    [verificar_disponibilidade_medico] returns [slots] for a physician and
    a date, and [agendar_consulta] then books that physician on that date
    at the start time of one of them, the availability afterwards consists
    of the same slots without the booked one. *)
Theorem agendar_retira_o_slot
  (db : Database) (created updated pid m : Z) (data_str : string)
  (e : option Z) (obs : option string) (slots : list Slot) (sl : Slot) :
  m <> 0 ->
  verificar_disponibilidade_medico db m data_str = Some (Retorna slots) ->
  In sl slots ->
  exists slots',
    verificar_disponibilidade_medico
      (fst (agendar_consulta created updated pid data_str (slot_hora_inicio sl)
              (Some m) e obs db)) m data_str
    = Some (Retorna slots')
    /\ forall x, In x slots' <-> In x slots /\ x <> sl.
Proof.
  intros Hm Hv Hsl.
  destruct (verificar_retorna_inv _ _ _ _ Hv) as (d & oc & Hd & Hoc & ->).
  apply in_map_iff in Hsl. destruct Hsl as (a & <- & Ha).
  apply filter_In in Ha. destruct Ha as [Ha Hla].
  pose proof (inicios_do_dia_range a Ha) as Har.
  pose proof (strptime_Ymd_range _ _ Hd) as Hdr.
  rewrite agendar_consulta_insere. cbn [fst slot_de slot_hora_inicio].
  set (nova := nova_consulta_de db created updated pid data_str (Py.strftime_HM a)
                 (Some m) e obs).
  assert (Hnova : agendada_com m data_str nova = true).
  { apply agendada_com_nova, Hm. }
  assert (Hoc' : mapR (horario_ocupado d)
                   (find (agendada_com m data_str)
                      (consulta (set_consulta db (consulta db ++ [nova])%list)))
                 = Retorna (oc ++ [(a, a + 30)])%list).
  { cbn [consulta set_consulta]. rewrite find_app.
    unfold find at 2. cbn [filter]. rewrite Hnova.
    apply mapR_app; [exact Hoc|]. apply horario_ocupado_nova; lia. }
  eexists. split.
  - exact (verificar_disponibilidade_medico_livres _ m data_str d _ Hd Hoc').
  - intros x. rewrite !in_map_iff. split.
    + intros (b & <- & Hb). apply filter_In in Hb. destruct Hb as [Hb Hlb].
      rewrite livre_app in Hlb. cbn [fst snd] in Hlb.
      apply andb_true_iff in Hlb. destruct Hlb as [Hlb Hne]. split.
      * exists b. split; [reflexivity|]. apply filter_In. auto.
      * intros E. apply (slot_de_inj b a Hb Ha) in E. subst b.
        apply negb_true_iff in Hne. apply andb_false_iff in Hne.
        destruct Hne as [H|H]; apply Z.ltb_ge in H; lia.
    + intros ((b & <- & Hb) & Hne). apply filter_In in Hb. destruct Hb as [Hb Hlb].
      exists b. split; [reflexivity|]. apply filter_In. split; [exact Hb|].
      rewrite livre_app, Hlb. cbn [fst snd andb]. apply negb_true_iff.
      destruct ((b <? a + 30) && (a <? b + 30)) eqn:E; [|reflexivity].
      exfalso. apply Hne. f_equal. exact (inicios_do_dia_passo b a Hb Ha E).
Qed.

Lemma agendar_retira_o_slot_witness :
  exists slots',
    verificar_disponibilidade_medico
      (fst (agendar_consulta 1 1 102 "2025-06-10" "09:00" (Some 42) None (Some "Retorno")
              db_exemplos)) 42 "2025-06-10"
    = Some (Retorna slots')
    /\ forall x,
         In x slots'
         <-> In x (map slot_de (filter (fun a => negb (a =? 840)) inicios_do_dia))
             /\ x <> slot_de 540.
Proof.
  apply (agendar_retira_o_slot db_exemplos 1 1 102 42 "2025-06-10" None (Some "Retorno")
           _ (slot_de 540)).
  - lia.
  - vm_compute. reflexivity.
  - vm_compute. tauto.
Defined.

(** X10. [agendar_consulta] does not check the start time it is given.
    With a start time that is not of the form HH:MM the booking is stored
    and returned all the same, and from then on
    [verificar_disponibilidade_medico] raises for that physician and date
    instead of returning slots. *)
Theorem hora_malformada_quebra_disponibilidade
  (db : Database) (created updated pid m : Z) (data_str hora_inicio_str obs : string)
  (e : option Z) (d : Py.date) :
  m <> 0 ->
  Py.strptime_Ymd data_str = Some d ->
  Py.strptime_HM hora_inicio_str = None ->
  let r := agendar_consulta created updated pid data_str hora_inicio_str (Some m) e (Some obs)
             db in
  (exists v, snd r = Retorna (Some v) /\ ad_hora_inicio v = hora_inicio_str
             /\ ad_status v = AGENDADA)
  /\ exists ex, verificar_disponibilidade_medico (fst r) m data_str = Some (Levanta ex).
Proof.
  intros Hm Hd Hh. cbn zeta. rewrite agendar_consulta_insere. cbn [fst snd].
  set (nova := nova_consulta_de db created updated pid data_str hora_inicio_str
                 (Some m) e (Some obs)).
  split.
  - unfold _enriquecer_e_validar_agendamento, AgendamentoDetalhado_model_validate.
    cbn [observacoes nova nova_consulta_de]. eexists. split; [reflexivity|]. split; reflexivity.
  - assert (Hnova : agendada_com m data_str nova = true).
    { apply agendada_com_nova, Hm. }
    assert (Hf : horario_ocupado d nova
                 = Levanta (ValueError (StrptimeNaoCasa hora_inicio_str))).
    { unfold horario_ocupado. cbn [hora_inicio nova nova_consulta_de]. rewrite Hh. reflexivity. }
    assert (Hin : In nova (find (agendada_com m data_str)
                             (consulta (set_consulta db (consulta db ++ [nova])%list)))).
    { cbn [consulta set_consulta]. apply filter_In. split; [|exact Hnova].
      apply in_or_app. right. left. reflexivity. }
    destruct (mapR_falha (horario_ocupado d) _ nova _ Hin Hf) as (ex & Hex).
    exists ex. unfold verificar_disponibilidade_medico. rewrite Hd.
    unfold agendada_com in Hex. rewrite Hex. reflexivity.
Qed.

Lemma hora_malformada_quebra_disponibilidade_witness :
  let r := agendar_consulta 1 1 102 "2025-06-10" "9h30" (Some 42) None (Some "Retorno")
             db_exemplos in
  (exists v, snd r = Retorna (Some v) /\ ad_hora_inicio v = "9h30" /\ ad_status v = AGENDADA)
  /\ exists ex, verificar_disponibilidade_medico (fst r) 42 "2025-06-10" = Some (Levanta ex).
Proof.
  apply (hora_malformada_quebra_disponibilidade db_exemplos 1 1 102 42 "2025-06-10" "9h30"
           "Retorno" None 739412); [lia|reflexivity|reflexivity].
Defined.

(** X11. Cancelling gives the time back: after [cancelar_consulta] on a
    stored appointment, [verificar_disponibilidade_medico] answers, for
    every physician and date, as it would on the store without that
    appointment. *)
Theorem cancelar_libera_o_horario
  (db : Database) (agora consulta_id : Z) (c : ConsultaDoc) :
  find_one (com_id consulta_id) (consulta db) = Some c ->
  exists l1 l2,
    consulta db = (l1 ++ c :: l2)%list
    /\ forall m data_str,
         verificar_disponibilidade_medico (fst (cancelar_consulta agora consulta_id db))
           m data_str
         = verificar_disponibilidade_medico (set_consulta db (l1 ++ l2)%list) m data_str.
Proof.
  intros Hfind.
  destruct (cancelar_consulta_existente db agora consulta_id c Hfind)
    as (l1 & l2 & Hdocs & _ & Hres).
  exists l1, l2. split; [exact Hdocs|]. intros m data_str. rewrite Hres. cbn [fst].
  unfold verificar_disponibilidade_medico. cbn [consulta set_consulta].
  rewrite !(find_app _ l1). unfold find at 2. cbn [filter set_cancelada status].
  rewrite andb_false_r. reflexivity.
Qed.

Lemma cancelar_libera_o_horario_witness :
  exists l1 l2,
    consulta db_exemplos
    = (l1 ++ {| _id := 123; medico_id := Some 42; paciente_id := 101;
                tipo_exame_id := Some 1; data := "2025-06-10"; hora_inicio := "14:00";
                duracao_minutos := 30; status := AGENDADA;
                observacoes := Some "Primeira consulta";
                created_at := 1749500000000; updated_at := 1749500000000 |} :: l2)%list
    /\ forall m data_str,
         verificar_disponibilidade_medico (fst (cancelar_consulta 1749600000000 123 db_exemplos))
           m data_str
         = verificar_disponibilidade_medico (set_consulta db_exemplos (l1 ++ l2)%list)
             m data_str.
Proof.
  exact (cancelar_libera_o_horario db_exemplos 1749600000000 123 _ eq_refl).
Defined.

(* ================================================================== *)
(** ** Further properties: ISO dates *)
(* ================================================================== *)
Lemma is_leap_decomp (a b c e : Z) :
  0 <= a -> 0 <= b <= 3 -> 0 <= c <= 24 -> 0 <= e <= 3 ->
  Py.is_leap (400 * a + 100 * b + 4 * c + e + 1)
  = (e =? 3) && (negb (c =? 24) || (b =? 3)).
Proof.
  intros Ha Hb Hc He. unfold Py.is_leap.
  destruct (Z.eqb_spec e 3), (Z.eqb_spec c 24), (Z.eqb_spec b 3);
    repeat match goal with
    | |- context [?x mod ?k =? 0] => destruct (Z.eqb_spec (x mod k) 0)
    end; cbn; try reflexivity; exfalso;
    repeat match goal with
    | H : _ mod _ = 0 |- _ => revert H
    | H : _ mod _ <> 0 |- _ => revert H
    end; Z.div_mod_to_equations; lia.
Qed.

Lemma days_before_year_decomp (a b c e : Z) :
  0 <= a -> 0 <= b <= 3 -> 0 <= c <= 24 -> 0 <= e <= 3 ->
  Py.days_before_year (400 * a + 100 * b + 4 * c + e + 1)
  = 146097 * a + 36524 * b + 1461 * c + 365 * e.
Proof.
  intros. unfold Py.days_before_year. Z.div_mod_to_equations. lia.
Qed.

(** Evaluates the table look-ups at a known index. *)
Ltac calc_nth :=
  repeat match goal with
  | |- context [nth ?n ?l ?d] =>
      let v := eval vm_compute in (nth n l d) in change (nth n l d) with v
  | H : context [nth ?n ?l ?d] |- _ =>
      let v := eval vm_compute in (nth n l d) in change (nth n l d) with v in H
  end.

Lemma ord2ymd_valida (n0 : Z) :
  1 <= n0 <= Py.MAXORDINAL ->
  let '(y, m, d) := Py.ord2ymd n0 in
  1 <= y <= 9999 /\ 1 <= m <= 12 /\ 1 <= d <= Py.days_in_month y m
  /\ Py.ymd2ord y m d = n0.
Proof.
  unfold Py.MAXORDINAL. intros H0.
  unfold Py.ord2ymd, Py.DI400Y, Py.DI100Y, Py.DI4Y.
  remember (n0 - 1) as n eqn:En.
  remember (n / 146097) as a eqn:Ea. remember (n mod 146097) as r400 eqn:Er400.
  remember (r400 / 36524) as b eqn:Eb. remember (r400 mod 36524) as r100 eqn:Er100.
  remember (r100 / 1461) as c eqn:Ec. remember (r100 mod 1461) as r4 eqn:Er4.
  remember (r4 / 365) as e eqn:Ee. remember (r4 mod 365) as r eqn:Er.
  assert (F1 : n = 146097 * a + r400 /\ 0 <= r400 < 146097)
    by (rewrite Ea, Er400; Z.div_mod_to_equations; lia).
  assert (F2 : r400 = 36524 * b + r100 /\ 0 <= r100 < 36524)
    by (rewrite Eb, Er100; Z.div_mod_to_equations; lia).
  assert (F3 : r100 = 1461 * c + r4 /\ 0 <= r4 < 1461)
    by (rewrite Ec, Er4; Z.div_mod_to_equations; lia).
  assert (F4 : r4 = 365 * e + r /\ 0 <= r < 365)
    by (rewrite Ee, Er; Z.div_mod_to_equations; lia).
  clear Ea Er400 Eb Er100 Ec Er4 Ee Er.
  assert (Ba : 0 <= a <= 24) by lia.
  assert (Bb : 0 <= b <= 4) by lia.
  assert (Bc : 0 <= c <= 24) by lia.
  assert (Be : 0 <= e <= 4) by lia.
  destruct (Z.eqb_spec e 4) as [E4|E4]; cbn [orb].
  { (* 31 December of a leap year *)
    assert (b <> 4) by lia.
    replace (a * 400 + 1 + b * 100 + c * 4 + e - 1)
      with (400 * a + 100 * b + 4 * c + 3 + 1) by lia.
    unfold Py.days_in_month, Py.ymd2ord, Py.days_before_month.
    rewrite days_before_year_decomp, is_leap_decomp by lia.
    calc_nth. cbn [Z.eqb Z.ltb Z.compare Pos.compare Pos.compare_cont andb].
    destruct (Z.eqb_spec c 24); [lia|]. cbn [Pos.eqb andb orb negb]. lia. }
  destruct (Z.eqb_spec b 4) as [B4|B4].
  { replace (a * 400 + 1 + b * 100 + c * 4 + e - 1)
      with (400 * a + 100 * 3 + 4 * 24 + 3 + 1) by lia.
    unfold Py.days_in_month, Py.ymd2ord, Py.days_before_month.
    rewrite days_before_year_decomp, is_leap_decomp by lia.
    calc_nth. cbn [Z.eqb Z.ltb Z.compare Pos.compare Pos.compare_cont Pos.eqb andb orb negb]. lia. }
  replace (a * 400 + 1 + b * 100 + c * 4 + e) with (400 * a + 100 * b + 4 * c + e + 1) by lia.
  rewrite Z.shiftr_div_pow2 by lia. change (2 ^ 5) with 32.
  remember ((e =? 3) && (negb (c =? 24) || (b =? 3))) as leap eqn:El.
  assert (Hleap : Py.is_leap (400 * a + 100 * b + 4 * c + e + 1) = leap)
    by (rewrite El; apply is_leap_decomp; lia).
  assert (Hdby : Py.days_before_year (400 * a + 100 * b + 4 * c + e + 1) = n - r)
    by (rewrite days_before_year_decomp by lia; lia).
  assert (Hmes : (r + 50) / 32 = 1 \/ (r + 50) / 32 = 2 \/ (r + 50) / 32 = 3
                 \/ (r + 50) / 32 = 4 \/ (r + 50) / 32 = 5 \/ (r + 50) / 32 = 6
                 \/ (r + 50) / 32 = 7 \/ (r + 50) / 32 = 8 \/ (r + 50) / 32 = 9
                 \/ (r + 50) / 32 = 10 \/ (r + 50) / 32 = 11 \/ (r + 50) / 32 = 12)
    by (Z.div_mod_to_equations; lia).
  assert (Hr : forall k, (r + 50) / 32 = k -> 32 * k - 50 <= r < 32 * k - 18)
    by (intros k Hk; revert Hk; Z.div_mod_to_equations; lia).
  clear El.
  repeat (destruct Hmes as [Hmes|Hmes]); rewrite Hmes; specialize (Hr _ Hmes);
    calc_nth; destruct leap; cbn [Z.eqb Z.ltb Z.compare Pos.compare Pos.compare_cont andb];
    cbn [Z.sub Z.add Z.opp Z.pos_sub Pos.add Pos.succ Pos.pred_double Z.double Z.succ_double Z.pred_double Pos.add_carry].
  all: match goal with |- context [if ?x <? ?p then _ else _] => destruct (Z.ltb_spec x p) end.
  all: unfold Py.days_in_month, Py.ymd2ord, Py.days_before_month; rewrite ?Hleap, ?Hdby.
  all: cbn [Z.sub Z.add Z.opp Z.pos_sub Pos.add Pos.succ Pos.pred_double Z.double Z.succ_double Z.pred_double Pos.add_carry Z.eqb Z.ltb Z.compare Pos.compare Pos.compare_cont andb Pos.eqb].
  all: calc_nth.
  all: lia.
Qed.

Lemma digit_char_ok (k : Z) :
  0 <= k <= 9 -> Py.is_digit (Py.digit_char k) = true /\ Py.digit_val (Py.digit_char k) = k.
Proof.
  intros H.
  assert (Hk : k = 0 \/ k = 1 \/ k = 2 \/ k = 3 \/ k = 4 \/ k = 5 \/ k = 6 \/ k = 7
               \/ k = 8 \/ k = 9) by lia.
  repeat (destruct Hk as [->|Hk]); try subst k; split; reflexivity.
Qed.

Lemma match_Y_fmt04 (y : Z) (r : string) :
  0 <= y <= 9999 -> Py.match_Y (Py.fmt04 y ++ r) = Some (y, r).
Proof.
  intros Hy. unfold Py.fmt04, Py.fmt02. cbn [append]. unfold Py.match_Y.
  destruct (digit_char_ok (y / 1000)) as [D1 V1]; [Z.div_mod_to_equations; lia|].
  destruct (digit_char_ok ((y / 100) mod 10)) as [D2 V2]; [Z.div_mod_to_equations; lia|].
  destruct (digit_char_ok (y mod 100 / 10)) as [D3 V3]; [Z.div_mod_to_equations; lia|].
  destruct (digit_char_ok ((y mod 100) mod 10)) as [D4 V4]; [Z.div_mod_to_equations; lia|].
  rewrite D1, D2, D3, D4, V1, V2, V3, V4. cbn [andb]. f_equal. f_equal.
  Z.div_mod_to_equations. lia.
Qed.

Lemma match_m_fmt02 (m : Z) (r : string) :
  1 <= m <= 12 -> Py.match_m (Py.fmt02 m ++ r) = Some (m, r).
Proof.
  intros H.
  assert (Hm : m = 1 \/ m = 2 \/ m = 3 \/ m = 4 \/ m = 5 \/ m = 6 \/ m = 7 \/ m = 8
               \/ m = 9 \/ m = 10 \/ m = 11 \/ m = 12) by lia.
  repeat (destruct Hm as [->|Hm]); try subst m; reflexivity.
Qed.

Lemma match_d_fmt02 (d : Z) (r : string) :
  1 <= d <= 31 -> Py.match_d (Py.fmt02 d ++ r) = Some (d, r).
Proof.
  intros H.
  assert (Hd : exists k, d = Z.of_nat k /\ (1 <= k <= 31)%nat)
    by (exists (Z.to_nat d); lia).
  destruct Hd as (k & -> & Hk).
  do 32 (destruct k as [|k]; [try lia; reflexivity|]). lia.
Qed.

Lemma days_in_month_31 (y m : Z) : 1 <= m <= 12 -> Py.days_in_month y m <= 31.
Proof.
  intros H. unfold Py.days_in_month.
  assert (Hm : m = 1 \/ m = 2 \/ m = 3 \/ m = 4 \/ m = 5 \/ m = 6 \/ m = 7 \/ m = 8
               \/ m = 9 \/ m = 10 \/ m = 11 \/ m = 12) by lia.
  repeat (destruct Hm as [->|Hm]); try subst m;
    destruct (Py.is_leap y); cbn [Z.eqb Pos.eqb andb]; calc_nth; lia.
Qed.

(** [strptime] reads back the date [isoformat] writes. *)
Lemma strptime_isoformat (d : Py.date) :
  1 <= d <= Py.MAXORDINAL -> Py.strptime_Ymd (Py.isoformat d) = Some d.
Proof.
  intros Hd. pose proof (ord2ymd_valida d Hd) as H. unfold Py.isoformat.
  destruct (Py.ord2ymd d) as [[y m] dd]. destruct H as (Hy & Hm & Hdd & Hord).
  pose proof (days_in_month_31 y m Hm) as H31.
  unfold Py.strptime_Ymd.
  rewrite match_Y_fmt04 by lia. cbn [Py.match_lit append Ascii.eqb Bool.eqb].
  rewrite match_m_fmt02 by lia. cbn [Py.match_lit append Ascii.eqb Bool.eqb].
  change (Py.fmt02 dd) with (Py.fmt02 dd ++ "").
  rewrite (match_d_fmt02 dd "") by lia.
  destruct (Z.leb_spec 1 y); [|lia].
  destruct (Z.leb_spec dd (Py.days_in_month y m)); [|lia].
  cbn [andb]. rewrite Hord. reflexivity.
Qed.

Lemma horario_ocupado_erros (d : Py.date) (l : list ConsultaDoc) (e : Excecao) :
  mapR (horario_ocupado d) l = Levanta e -> e <> ValueError DataInvalida.
Proof.
  induction l as [|c r IH]; cbn; [discriminate|].
  unfold horario_ocupado at 1.
  destruct (Py.strptime_HM (hora_inicio c)); [|intros E; inversion E; discriminate].
  destruct (Py.datetime_add_minutes _ _); [|intros E; inversion E; discriminate].
  destruct (mapR (horario_ocupado d) r); [discriminate|].
  intros E. inversion E; subst. apply IH. reflexivity.
Qed.

(** A date string [strptime] accepts is never reported as malformed. *)
Lemma verificar_data_aceita (db : Database) (m : Z) (data_str : string) (d : Py.date) :
  Py.strptime_Ymd data_str = Some d ->
  verificar_disponibilidade_medico db m data_str <> Some (Levanta (ValueError DataInvalida)).
Proof.
  intros Hd.
  destruct (mapR (horario_ocupado d) (find (agendada_com m data_str) (consulta db)))
    as [oc|e] eqn:Hoc.
  - rewrite (verificar_disponibilidade_medico_livres db m data_str d oc Hd Hoc). discriminate.
  - pose proof (horario_ocupado_erros _ _ _ Hoc) as He.
    unfold verificar_disponibilidade_medico. rewrite Hd.
    unfold agendada_com in Hoc. rewrite Hoc. congruence.
Qed.

(** X12. On any day at least a week before the last date Python
    represents, [obter_data_por_termo_relativo] returns for every term: the
    result is the ISO form of a date from today to seven days ahead, and it
    is a string [strptime] reads back as that date, so that
    [verificar_disponibilidade_medico] never refuses it as malformed. *)
Theorem obter_data_por_termo_relativo_resultado (hoje : Py.date) (termo_data : string) :
  1 <= hoje -> hoje + 7 <= Py.MAXORDINAL ->
  exists d,
    hoje <= d <= hoje + 7
    /\ obter_data_por_termo_relativo hoje termo_data = Retorna (Py.isoformat d)
    /\ Py.strptime_Ymd (Py.isoformat d) = Some d
    /\ forall db m,
         verificar_disponibilidade_medico db m (Py.isoformat d)
         <> Some (Levanta (ValueError DataInvalida)).
Proof.
  intros H1 H7.
  assert (Hfim : forall d, hoje <= d <= hoje + 7 ->
            Py.strptime_Ymd (Py.isoformat d) = Some d
            /\ forall db m,
                 verificar_disponibilidade_medico db m (Py.isoformat d)
                 <> Some (Levanta (ValueError DataInvalida))).
  { intros d Hd. assert (Hs : Py.strptime_Ymd (Py.isoformat d) = Some d)
      by (apply strptime_isoformat; lia).
    split; [exact Hs|]. intros db m. exact (verificar_data_aceita db m _ d Hs). }
  assert (Hadd : forall k, 0 < k <= 7 -> Py.date_add_days hoje k = Some (hoje + k)).
  { intros k Hk. unfold Py.date_add_days.
    destruct (Z.ltb_spec 0 (hoje + k)); [|lia].
    destruct (Z.leb_spec (hoje + k) Py.MAXORDINAL); [|lia]. reflexivity. }
  unfold obter_data_por_termo_relativo.
  destruct (Py.contem "hoje" (Py.lower termo_data)).
  { exists hoje. split; [lia|]. split; [reflexivity|]. apply Hfim. lia. }
  destruct (Py.contem "amanha" (Py.lower termo_data) || Py.contem "amanhã" (Py.lower termo_data)).
  { exists (hoje + 1). split; [lia|]. rewrite (Hadd 1) by lia.
    split; [reflexivity|]. apply Hfim. lia. }
  destruct (List.find _ dias_semana) as [[nome_dia num_dia]|] eqn:Hf.
  - assert (Hn : 0 <= num_dia < 7).
    { apply find_some in Hf. destruct Hf as [Hin _].
      apply dias_semana_num in Hin. exact Hin. }
    destruct (dias_a_frente_proxima hoje num_dia Hn) as (Hk & _ & _).
    cbn zeta in Hk. rewrite (Hadd _) by lia.
    eexists. split; [|split; [reflexivity|apply Hfim]]; lia.
  - exists hoje. split; [lia|]. split; [reflexivity|]. apply Hfim. lia.
Qed.

Lemma obter_data_por_termo_relativo_resultado_witness :
  exists d,
    739446 <= d <= 739446 + 7
    /\ obter_data_por_termo_relativo 739446 "sábado de manhã" = Retorna (Py.isoformat d)
    /\ Py.strptime_Ymd (Py.isoformat d) = Some d
    /\ forall db m,
         verificar_disponibilidade_medico db m (Py.isoformat d)
         <> Some (Levanta (ValueError DataInvalida)).
Proof.
  apply (obter_data_por_termo_relativo_resultado 739446 "sábado de manhã"); unfold Py.MAXORDINAL; lia.
Defined.

(* ================================================================== *)
(** ** Further properties: listing *)
(* ================================================================== *)

Lemma In_inserir {D} (key : D -> string) (d x : D) (l : list D) :
  In x (inserir key d l) <-> x = d \/ In x l.
Proof.
  induction l as [|a r IH]; cbn.
  - intuition.
  - destruct (String.leb (key d) (key a)); cbn; [intuition|].
    rewrite IH. intuition.
Qed.

Lemma In_sort_asc {D} (key : D -> string) (x : D) (l : list D) :
  In x (sort_asc key l) <-> In x l.
Proof.
  unfold sort_asc. induction l as [|a r IH]; cbn; [tauto|].
  rewrite In_inserir, IH. intuition.
Qed.

Lemma Sorted_inserir {D} (key : D -> string) (d : D) (l : list D) :
  Sorted (fun a b => String.leb (key a) (key b) = true) l ->
  Sorted (fun a b => String.leb (key a) (key b) = true) (inserir key d l).
Proof.
  induction 1 as [|a r Hs IH Hhd]; cbn.
  - constructor; constructor.
  - destruct (String.leb (key d) (key a)) eqn:E.
    + constructor; [constructor; assumption|constructor; exact E].
    + constructor; [exact IH|].
      assert (Hda : String.leb (key a) (key d) = true).
      { destruct (String.leb_total (key a) (key d)) as [H|H]; [exact H|congruence]. }
      destruct r as [|b r']; cbn.
      * constructor. exact Hda.
      * destruct (String.leb (key d) (key b)); constructor; [exact Hda|].
        inversion Hhd. assumption.
Qed.

Lemma Sorted_sort_asc {D} (key : D -> string) (l : list D) :
  Sorted (fun a b => String.leb (key a) (key b) = true) (sort_asc key l).
Proof.
  unfold sort_asc. induction l as [|a r IH]; cbn; [constructor|].
  apply Sorted_inserir, IH.
Qed.

Lemma mapR_enriquecer (db : Database) (cs : list ConsultaDoc)
  (views : list (option AgendamentoDetalhado)) :
  mapR (fun c => _enriquecer_e_validar_agendamento db (Some c)) cs = Retorna views ->
  Forall2 vista_de cs views.
Proof.
  revert views. induction cs as [|c r IH]; intros views Hm; cbn [mapR] in Hm.
  - inversion Hm. constructor.
  - destruct (_enriquecer_e_validar_agendamento db (Some c)) as [ov|] eqn:Hc; [|discriminate].
    destruct (mapR _ r) as [vs|]; [|discriminate]. inversion Hm; subst views.
    constructor; [|apply IH; reflexivity].
    unfold _enriquecer_e_validar_agendamento, AgendamentoDetalhado_model_validate in Hc.
    destruct (observacoes c); [|discriminate]. inversion Hc; subst ov.
    eexists. split; [reflexivity|]. cbn. repeat split.
Qed.

Lemma Permutation_inserir {D} (key : D -> string) (d : D) (l : list D) :
  Permutation (inserir key d l) (d :: l).
Proof.
  induction l as [|x r IH]; cbn [inserir]; [apply Permutation_refl|].
  destruct (String.leb (key d) (key x)); [apply Permutation_refl|].
  apply perm_trans with (x :: d :: r); [apply perm_skip, IH|apply perm_swap].
Qed.

Lemma Permutation_sort_asc {D} (key : D -> string) (l : list D) :
  Permutation (sort_asc key l) l.
Proof.
  unfold sort_asc. induction l as [|x r IH]; cbn [fold_right]; [apply perm_nil|].
  apply perm_trans with (x :: fold_right (inserir key) [] r);
    [apply Permutation_inserir|apply perm_skip, IH].
Qed.

(** X13. For a patient already in the store, [ver_minhas_consultas]
    writes nothing and, when it returns, lists exactly that patient's
    appointments that have status AGENDADA and a date string not below
    today's ISO date: the appointments listed are those of the store that
    pass this test, each as many times as the store holds it, rearranged
    in non-decreasing order of the date string, and the result has one
    view per listed appointment, in that order, showing its stored
    fields. *)
Theorem ver_minhas_consultas_lista
  (db : Database) (hoje : Py.date) (cpf cpf_limpo : string) (doc : PacienteDoc)
  (db' : Database) (views : list (option AgendamentoDetalhado)) :
  _limpar_e_validar_cpf cpf = Retorna cpf_limpo ->
  find_one (cpf_igual cpf_limpo) (paciente db) = Some doc ->
  ver_minhas_consultas hoje cpf db = (db', Retorna views) ->
  db' = db
  /\ exists cs,
       Forall2 vista_de cs views
       /\ Permutation cs
            (filter (fun c => (paciente_id c =? pac_id doc)
                              && StatusConsulta_eqb (status c) AGENDADA
                              && String.leb (Py.isoformat hoje) (data c)) (consulta db))
       /\ (forall c, In c cs <->
             In c (consulta db) /\ paciente_id c = pac_id doc /\ status c = AGENDADA
             /\ String.leb (Py.isoformat hoje) (data c) = true)
       /\ Sorted (fun a b => String.leb (data a) (data b) = true) cs.
Proof.
  intros Hcpf Hfind Hv. unfold ver_minhas_consultas, bind in Hv.
  rewrite (obter_paciente_existente db "Busca" cpf cpf_limpo doc Hcpf Hfind) in Hv.
  cbn [Paciente_model_validate id] in Hv.
  change (fun c : ConsultaDoc =>
            (paciente_id c =? pac_id doc) && StatusConsulta_eqb (status c) AGENDADA
            && String.leb (Py.isoformat hoje) (data c))
    with (futura_de (pac_id doc) (Py.isoformat hoje)) in Hv |- *.
  injection Hv as Hdb Hviews. split; [symmetry; exact Hdb|].
  exists (sort_asc data (find (futura_de (pac_id doc) (Py.isoformat hoje)) (consulta db))).
  split; [exact (mapR_enriquecer db _ _ Hviews)|].
  split; [apply Permutation_sort_asc|]. split; [|apply Sorted_sort_asc].
  intros c. rewrite In_sort_asc. unfold find. rewrite filter_In. unfold futura_de.
  rewrite !andb_true_iff, Z.eqb_eq. destruct (status c); cbn; intuition congruence.
Qed.

Lemma ver_minhas_consultas_lista_witness :
  exists cs,
    Forall2 vista_de cs
      [ Some {| ad_id := 123; ad_paciente_id := 101; ad_data := "2025-06-10";
                ad_hora_inicio := "14:00"; ad_status := AGENDADA;
                ad_observacoes := "Primeira consulta"; ad_medico_id := Some 42;
                ad_tipo_exame_id := Some 1; nome_medico := "Dr. João Silva";
                descricao_exame := "Exame de Sangue" |} ]
    /\ Permutation cs
         (filter (fun c => (paciente_id c =? 101)
                           && StatusConsulta_eqb (status c) AGENDADA
                           && String.leb (Py.isoformat 739400) (data c))
            (consulta db_exemplos))
    /\ (forall c, In c cs <->
          In c (consulta db_exemplos) /\ paciente_id c = 101 /\ status c = AGENDADA
          /\ String.leb (Py.isoformat 739400) (data c) = true)
    /\ Sorted (fun a b => String.leb (data a) (data b) = true) cs.
Proof.
  exact (proj2 (ver_minhas_consultas_lista db_exemplos 739400 "111.222.333-44" "11122233344"
                  {| pac_id := 101; pac_nome := "Carlos Silva"; pac_cpf := "11122233344" |}
                  db_exemplos _ eq_refl eq_refl eq_refl)).
Defined.

(* ================================================================== *)
(** ** Further properties: specialties and physicians *)
(* ================================================================== *)

(** A [find] keeps the values of a field distinct. *)
Lemma find_sem_repeticao {D K : Type} (chave : D -> K) (filtro : D -> bool)
  (docs : list D) (Hnd : NoDup (map chave docs)) :
  NoDup (map chave (find filtro docs)).
Proof.
  unfold find. induction docs as [|a r IH]; cbn; [constructor|].
  apply NoDup_cons_iff in Hnd. destruct Hnd as [Ha Hr].
  destruct (filtro a); cbn; [|exact (IH Hr)].
  constructor; [|exact (IH Hr)].
  intros Hin. apply Ha. apply in_map_iff in Hin. destruct Hin as (x & Hx & Hin).
  apply filter_In in Hin. apply in_map_iff. exists x. tauto.
Qed.

(** X14. [listar_especialidades_com_medicos] lists a name exactly when it
    is the name of a stored specialty to which at least one stored
    physician belongs; and when specialty names are unique in the store
    (the unique index on [nome]) no name is listed twice. *)
Theorem listar_especialidades_com_medicos_sse (db : Database) :
  (forall nome_esp,
     In nome_esp (listar_especialidades_com_medicos db)
     <-> exists e m, In e (especialidade db) /\ In m (medico db)
                     /\ med_especialidade_id m = esp_id e /\ esp_nome e = nome_esp)
  /\ (NoDup (map esp_nome (especialidade db)) ->
      NoDup (listar_especialidades_com_medicos db)).
Proof.
  unfold listar_especialidades_com_medicos.
  assert (Hids : forall z, In z (distinct_especialidade_id (medico db))
                           <-> exists m, In m (medico db) /\ med_especialidade_id m = z).
  { intros z. unfold distinct_especialidade_id. rewrite nodup_In, in_map_iff.
    split; intros (m & H1 & H2); exists m; auto. }
  assert (Hex : forall e, existsb (Z.eqb (esp_id e)) (distinct_especialidade_id (medico db)) = true
                          <-> exists m, In m (medico db) /\ med_especialidade_id m = esp_id e).
  { intros e. rewrite existsb_exists. split.
    - intros (z & Hz & Heq). apply Z.eqb_eq in Heq. apply Hids in Hz.
      destruct Hz as (m & Hm & Hmz). exists m. split; [exact Hm|congruence].
    - intros (m & Hm & Hmz). exists (esp_id e). split; [|apply Z.eqb_refl].
      apply Hids. exists m. auto. }
  destruct (distinct_especialidade_id (medico db)) as [|z0 zs] eqn:Hd.
  - split; [|intros _; constructor]. intros nome_esp. split; [intros []|].
    intros (e & m & _ & Hm & Hme & _).
    assert (Hin : In (esp_id e) []) by (apply Hids; exists m; auto). destruct Hin.
  - split.
    + intros nome_esp. rewrite in_map_iff. split.
      * intros (e & Hn & He). apply filter_In in He. destruct He as [He Hp].
        apply Hex in Hp. destruct Hp as (m & Hm & Hme). exists e, m. auto.
      * intros (e & m & He & Hm & Hme & Hn). exists e. split; [exact Hn|].
        apply filter_In. split; [exact He|]. apply Hex. exists m. auto.
    + intros Hnd. apply (find_sem_repeticao _ _ _ Hnd).
Qed.

Lemma listar_especialidades_com_medicos_sse_witness :
  NoDup (listar_especialidades_com_medicos db_exemplos)
  /\ (In "Cardiologia" (listar_especialidades_com_medicos db_exemplos)
      <-> exists e m, In e (especialidade db_exemplos) /\ In m (medico db_exemplos)
                      /\ med_especialidade_id m = esp_id e /\ esp_nome e = "Cardiologia").
Proof.
  split.
  - apply (proj2 (listar_especialidades_com_medicos_sse db_exemplos)).
    cbn. repeat constructor; cbn; intuition discriminate.
  - exact (proj1 (listar_especialidades_com_medicos_sse db_exemplos) "Cardiologia").
Defined.

Lemma endswith_sse (sufixo s : string) :
  endswith sufixo s = true <-> exists p, s = p ++ sufixo.
Proof.
  induction s as [|c t IH]; cbn [endswith].
  - rewrite orb_false_r, String.eqb_eq. split.
    + intros <-. exists "". reflexivity.
    + intros ([|? ?] & Hp); cbn in Hp; [exact Hp|discriminate].
  - rewrite orb_true_iff, String.eqb_eq, IH. split.
    + intros [<-|(p & ->)]; [exists ""; reflexivity|exists (String c p); reflexivity].
    + intros ([|c' p] & Hp); cbn in Hp; [left; exact Hp|].
      right. inversion Hp. exists p. reflexivity.
Qed.

Lemma substring_prefixo (p s : string) :
  String.substring 0 (String.length p) (p ++ s) = p.
Proof. induction p as [|c t IH]; cbn; [destruct s; reflexivity|]. rewrite IH. reflexivity. Qed.

Lemma length_append (p s : string) :
  String.length (p ++ s) = (String.length p + String.length s)%nat.
Proof. induction p as [|c t IH]; cbn; [reflexivity|]. rewrite IH. reflexivity. Qed.

Lemma corta_final_append (p sufixo : string) :
  corta_final (String.length sufixo) (p ++ sufixo) = p.
Proof.
  unfold corta_final. rewrite length_append.
  replace (String.length p + String.length sufixo - String.length sufixo)%nat
    with (String.length p) by lia.
  apply substring_prefixo.
Qed.

Lemma append_mesmo_fim (p q u v : string) :
  p ++ u = q ++ v -> (String.length p <= String.length q)%nat ->
  exists w, q = p ++ w /\ u = w ++ v.
Proof.
  revert q. induction p as [|c t IH]; intros q E Hl; cbn in *.
  - exists q. auto.
  - destruct q as [|c' t']; cbn in *; [lia|]. inversion E; subst c'.
    destruct (IH t' H1) as (w & -> & ->); [lia|]. exists w. auto.
Qed.

Lemma logia_nao_logista (b : string) : endswith "logista" (b ++ "logia") = false.
Proof.
  destruct (endswith "logista" (b ++ "logia")) eqn:E; [|reflexivity]. exfalso.
  apply endswith_sse in E. destruct E as (p & E).
  assert (Hl : (String.length p <= String.length b)%nat).
  { apply (f_equal String.length) in E. rewrite !length_append in E. cbn in E. lia. }
  symmetry in E. destruct (append_mesmo_fim p b "logista" "logia" E Hl) as (w & _ & Hw).
  assert (Hw2 : String.length w = 2%nat).
  { apply (f_equal String.length) in Hw. rewrite length_append in Hw. cbn in Hw. lia. }
  destruct w as [|c1 [|c2 [|c3 w]]]; try discriminate Hw2.
  cbn in Hw. injection Hw as _ _ Hw. discriminate Hw.
Qed.

(** X15. [procurar_medicos] drops one final "logista" or "logia" from the
    lower-cased term before it searches the specialties: two terms that
    lower-case to the same stem followed by "logista" for one and by
    "logia" for the other give the same answer, the answer of the search
    for the stem. *)
Theorem procurar_medicos_sufixo
  (regex_i : string -> option (string -> bool)) (db : Database) (t1 t2 base : string) :
  Py.lower t1 = base ++ "logista" ->
  Py.lower t2 = base ++ "logia" ->
  procurar_medicos regex_i db (Some t1) = procurar_medicos regex_i db (Some t2)
  /\ procurar_medicos regex_i db (Some t1)
     = match regex_i base with
       | None => None
       | Some casa =>
           match find_one (fun e => casa (esp_nome e)) (especialidade db) with
           | None => Some []
           | Some esp_doc =>
               Some (map (com_especialidade db)
                       (find (fun m => med_especialidade_id m =? esp_id esp_doc) (medico db)))
           end
       end.
Proof.
  intros H1 H2.
  assert (E1 : procurar_medicos regex_i db (Some t1)
               = match regex_i base with
                 | None => None
                 | Some casa =>
                     match find_one (fun e => casa (esp_nome e)) (especialidade db) with
                     | None => Some []
                     | Some esp_doc =>
                         Some (map (com_especialidade db)
                                 (find (fun m => med_especialidade_id m =? esp_id esp_doc)
                                    (medico db)))
                     end
                 end).
  { unfold procurar_medicos. destruct t1 as [|c t]; [destruct base; discriminate H1|].
    rewrite H1.
    rewrite (proj2 (endswith_sse "logista" (base ++ "logista"))) by (exists base; reflexivity).
    pose proof (corta_final_append base "logista") as Hc. cbn [String.length] in Hc.
    rewrite Hc. reflexivity. }
  split; [|exact E1]. rewrite E1.
  unfold procurar_medicos. destruct t2 as [|c t]; [destruct base; discriminate H2|].
  rewrite H2, logia_nao_logista.
  rewrite (proj2 (endswith_sse "logia" (base ++ "logia"))) by (exists base; reflexivity).
  pose proof (corta_final_append base "logia") as Hc. cbn [String.length] in Hc.
  rewrite Hc. reflexivity.
Qed.

Lemma procurar_medicos_sufixo_witness :
  procurar_medicos regex_literal db_exemplos (Some "Cardiologista")
  = procurar_medicos regex_literal db_exemplos (Some "CARDIOLOGIA")
  /\ procurar_medicos regex_literal db_exemplos (Some "Cardiologista")
     = Some [ {| m_id := 42; m_nome := "Dr. João Silva"; m_crm := "12345";
                 m_especialidade_id := 1; nome_especialidade := "Cardiologia" |} ].
Proof.
  exact (procurar_medicos_sufixo regex_literal db_exemplos "Cardiologista" "CARDIOLOGIA"
           "cardio" eq_refl eq_refl).
Defined.

Lemma find_one_primeiro {D} (p : D -> bool) (l1 l2 : list D) (x : D) :
  (forall y, In y l1 -> p y = false) -> p x = true ->
  List.find p (l1 ++ x :: l2)%list = Some x.
Proof.
  intros Hl1 Hx. induction l1 as [|a r IH]; cbn [List.find app].
  - rewrite Hx. reflexivity.
  - rewrite (Hl1 a (or_introl eq_refl)). apply IH. intros y Hy. apply Hl1. right. exact Hy.
Qed.

(** X16. [procurar_medicos] with a term searches the specialties for the
    stem of the term: the lower-cased term without a final "logista" or
    "logia".  When the name of no stored specialty matches the stem, the
    answer is empty.  Otherwise the first specialty in store order whose
    name matches decides, and the answer is the stored physicians with its
    id as [especialidade_id], all of them and no other, in store order.
    Without a term (absent or empty) the answer is every stored physician,
    in store order.  In each case a physician is returned with its stored
    id, name and CRM and with the name of the stored specialty that has
    its [especialidade_id], or "N/A" when the store has none. *)
Theorem procurar_medicos_resultado
  (regex_i : string -> option (string -> bool)) (db : Database)
  (esp base : string) (casa : string -> bool) :
  esp <> "" ->
  Py.lower esp = base ++ "logista" \/ Py.lower esp = base ++ "logia"
  \/ (Py.lower esp = base /\ endswith "logista" base = false
      /\ endswith "logia" base = false) ->
  regex_i base = Some casa ->
  ((forall e, In e (especialidade db) -> casa (esp_nome e) = false) ->
   procurar_medicos regex_i db (Some esp) = Some [])
  /\ (forall antes_ e depois,
        especialidade db = (antes_ ++ e :: depois)%list ->
        casa (esp_nome e) = true ->
        (forall x, In x antes_ -> casa (esp_nome x) = false) ->
        procurar_medicos regex_i db (Some esp)
        = Some (map (com_especialidade db)
                  (filter (fun m => med_especialidade_id m =? esp_id e) (medico db))))
  /\ procurar_medicos regex_i db None = Some (map (com_especialidade db) (medico db))
  /\ procurar_medicos regex_i db (Some "") = Some (map (com_especialidade db) (medico db))
  /\ (forall m,
        let x := com_especialidade db m in
        m_id x = med_id m /\ m_nome x = med_nome m /\ m_crm x = med_crm m
        /\ m_especialidade_id x = med_especialidade_id m
        /\ ((exists e, In e (especialidade db) /\ esp_id e = med_especialidade_id m
                       /\ nome_especialidade x = esp_nome e)
            \/ ((forall e, In e (especialidade db) -> esp_id e <> med_especialidade_id m)
                /\ nome_especialidade x = "N/A"))).
Proof.
  intros Hne Hbase Hre.
  assert (E : procurar_medicos regex_i db (Some esp)
              = match find_one (fun e => casa (esp_nome e)) (especialidade db) with
                | None => Some []
                | Some esp_doc =>
                    Some (map (com_especialidade db)
                            (find (fun m => med_especialidade_id m =? esp_id esp_doc)
                               (medico db)))
                end).
  { unfold procurar_medicos. destruct esp as [|c t]; [congruence|].
    destruct Hbase as [H|[H|(H & H7 & H5)]]; rewrite H.
    - rewrite (proj2 (endswith_sse "logista" (base ++ "logista")))
        by (exists base; reflexivity).
      pose proof (corta_final_append base "logista") as Hc. cbn [String.length] in Hc.
      rewrite Hc, Hre. reflexivity.
    - rewrite logia_nao_logista.
      rewrite (proj2 (endswith_sse "logia" (base ++ "logia"))) by (exists base; reflexivity).
      pose proof (corta_final_append base "logia") as Hc. cbn [String.length] in Hc.
      rewrite Hc, Hre. reflexivity.
    - rewrite H7, H5, Hre. reflexivity. }
  split; [|split; [|split; [reflexivity|split; [reflexivity|]]]].
  - intros Hnone. rewrite E, (find_one_nenhum _ _ Hnone). reflexivity.
  - intros antes_ e depois Hl He Hantes. rewrite E, Hl.
    unfold find_one. rewrite (find_one_primeiro _ antes_ depois e Hantes He). reflexivity.
  - clear E. intros m. cbn zeta. unfold com_especialidade, Medico_model_validate.
    cbn [m_id m_nome m_crm m_especialidade_id nome_especialidade].
    do 4 (split; [reflexivity|]).
    destruct (find_one (fun e => esp_id e =? med_especialidade_id m) (especialidade db))
      as [e|] eqn:Hf.
    + left. apply find_some in Hf. destruct Hf as [He Hq]. apply Z.eqb_eq in Hq.
      exists e. auto.
    + right. split; [|reflexivity]. intros e He Hq.
      pose proof (find_one_None_forall _ _ Hf e He) as Hn. cbn in Hn.
      apply Z.eqb_neq in Hn. contradiction.
Qed.

(** "ortopedia" passes over Cardiologia, the first specialty of the store,
    and gives the one physician of Ortopedia; "derma" matches nothing. *)
Lemma procurar_medicos_resultado_witness :
  procurar_medicos regex_literal db_exemplos (Some "ORTOPEDIA")
  = Some [ {| m_id := 58; m_nome := "Dra. Maria Souza"; m_crm := "67890";
              m_especialidade_id := 2; nome_especialidade := "Ortopedia" |} ]
  /\ procurar_medicos regex_literal db_exemplos (Some "Dermatologista") = Some [].
Proof.
  split.
  - exact (proj1 (proj2 (procurar_medicos_resultado regex_literal db_exemplos
                           "ORTOPEDIA" "ortopedia" _ ltac:(discriminate)
                           (or_intror (or_intror (conj eq_refl (conj eq_refl eq_refl))))
                           eq_refl))
             [ {| esp_id := 1; esp_nome := "Cardiologia" |} ]
             {| esp_id := 2; esp_nome := "Ortopedia" |} [] eq_refl eq_refl
             ltac:(intros x [<-|[]]; reflexivity)).
  - refine (proj1 (procurar_medicos_resultado regex_literal db_exemplos
                     "Dermatologista" "dermato" _ ltac:(discriminate)
                     (or_introl eq_refl) eq_refl) _).
    intros e [<-|[<-|[]]]; reflexivity.
Defined.

(* ================================================================== *)
(** ** Further properties: booking with a physician *)
(* ================================================================== *)

(** After a valid national ID has been resolved, its patient is in the
    store, whichever way the call went. *)
Lemma obter_paciente_depois (db : Database) (nome_completo cpf cpf_limpo : string) :
  _limpar_e_validar_cpf cpf = Retorna cpf_limpo ->
  exists db1 doc,
    _obter_ou_criar_paciente nome_completo cpf db = (db1, Retorna (Paciente_model_validate doc))
    /\ find_one (cpf_igual cpf_limpo) (paciente db1) = Some doc
    /\ tipo_exame db1 = tipo_exame db /\ medico db1 = medico db
    /\ consulta db1 = consulta db.
Proof.
  intros Hcpf.
  destruct (find_one (cpf_igual cpf_limpo) (paciente db)) as [doc|] eqn:Hfind.
  - exists db, doc.
    rewrite (obter_paciente_existente db _ cpf cpf_limpo doc Hcpf Hfind). auto.
  - eexists. exists (novo_paciente db nome_completo cpf_limpo).
    rewrite (obter_paciente_novo db _ cpf cpf_limpo Hcpf Hfind).
    split; [reflexivity|]. cbn [paciente tipo_exame medico consulta set_paciente].
    split; [|auto].
    rewrite (find_one_app_None _ _ _ Hfind). cbn. unfold cpf_igual. cbn.
    rewrite String.eqb_refl. reflexivity.
Qed.

Lemma mapR_enriquecer_erro (db : Database) (cs : list ConsultaDoc) (e : Excecao) :
  mapR (fun c => _enriquecer_e_validar_agendamento db (Some c)) cs = Levanta e ->
  e = ValidationErrorPydantic.
Proof.
  induction cs as [|c r IH]; cbn [mapR]; [discriminate|].
  destruct (_enriquecer_e_validar_agendamento db (Some c)) as [ov|e0] eqn:Hc.
  - destruct (mapR _ r); [discriminate|]. intros E. inversion E; subst. apply IH. reflexivity.
  - intros E. inversion E; subst.
    unfold _enriquecer_e_validar_agendamento, AgendamentoDetalhado_model_validate in Hc.
    destruct (observacoes c); [discriminate|]. inversion Hc. reflexivity.
Qed.

(** X17. A booking with a physician and no reason leaves a broken record.
    When [agendar_consulta_com_medico] is called with [motivo_consulta]
    absent, for a physician the store has (non-zero id) and a valid
    national ID, the appointment is inserted, AGENDADA and with notes
    [None], and then the call raises pydantic's validation error.  From
    then on [ver_minhas_consultas] raises the same error for that national
    ID on every day up to the appointment's date. *)
Theorem agendar_sem_motivo_deixa_registro_invalido
  (regex_i : string -> option (string -> bool)) (db : Database) (created updated : Z)
  (nome_paciente cpf cpf_limpo data_str hora_inicio_str nome_medico_arg : string)
  (casa : string -> bool) (medico_doc : MedicoDoc) :
  regex_i nome_medico_arg = Some casa ->
  find_one (fun m => casa (med_nome m)) (medico db) = Some medico_doc ->
  med_id medico_doc <> 0 ->
  _limpar_e_validar_cpf cpf = Retorna cpf_limpo ->
  let r := agendar_consulta_com_medico regex_i created updated nome_paciente cpf data_str
             hora_inicio_str nome_medico_arg None db in
  snd r = inl (DoServico ValidationErrorPydantic)
  /\ (exists c, In c (consulta (fst r))
                /\ medico_id c = Some (med_id medico_doc) /\ data c = data_str
                /\ hora_inicio c = hora_inicio_str /\ status c = AGENDADA
                /\ observacoes c = None)
  /\ forall hoje,
       String.leb (Py.isoformat hoje) data_str = true ->
       ver_minhas_consultas hoje cpf (fst r) = (fst r, Levanta ValidationErrorPydantic).
Proof.
  intros Hre Hmed Hid Hcpf. cbn zeta. unfold agendar_consulta_com_medico.
  rewrite Hre, Hmed.
  destruct (obter_paciente_depois db nome_paciente cpf cpf_limpo Hcpf)
    as (db1 & doc & Hp & Hfind & _ & _ & _).
  rewrite Hp. rewrite agendar_consulta_insere.
  set (nova := nova_consulta_de db1 created updated (id (Paciente_model_validate doc))
                 data_str hora_inicio_str (Some (med_id medico_doc)) None None).
  set (db2 := set_consulta db1 (consulta db1 ++ [nova])%list).
  assert (Hen : _enriquecer_e_validar_agendamento db2 (Some nova)
                = Levanta ValidationErrorPydantic) by reflexivity.
  rewrite Hen. cbn [fst snd]. split; [reflexivity|]. split.
  - exists nova. split; [cbn; apply in_or_app; right; left; reflexivity|].
    cbn [medico_id data hora_inicio status observacoes nova nova_consulta_de].
    rewrite (truthy_Some _ Hid). auto.
  - intros hoje Hleb. unfold ver_minhas_consultas, bind.
    assert (Hfind2 : find_one (cpf_igual cpf_limpo) (paciente db2) = Some doc) by exact Hfind.
    rewrite (obter_paciente_existente db2 "Busca" cpf cpf_limpo doc Hcpf Hfind2).
    f_equal.
    match goal with |- mapR ?f ?l = _ => destruct (mapR f l) as [vs|e] eqn:Hm end.
    + exfalso.
      assert (Hin : In nova (sort_asc data
                (find (fun c => (paciente_id c =? id (Paciente_model_validate doc))
                                && StatusConsulta_eqb (status c) AGENDADA
                                && String.leb (Py.isoformat hoje) (data c)) (consulta db2)))).
      { apply In_sort_asc. apply filter_In. split.
        - cbn. apply in_or_app. right. left. reflexivity.
        - cbn [paciente_id status data nova nova_consulta_de]. rewrite Z.eqb_refl, Hleb.
          reflexivity. }
      destruct (mapR_Retorna _ _ _ Hm nova Hin) as (y & _ & Hy).
      rewrite Hen in Hy. discriminate.
    + f_equal. exact (mapR_enriquecer_erro _ _ _ Hm).
Qed.

Lemma agendar_sem_motivo_deixa_registro_invalido_witness :
  let r := agendar_consulta_com_medico regex_literal 1 1 "Carlos Silva" "111.222.333-44"
             "2025-07-15" "09:00" "maria" None db_exemplos in
  snd r = inl (DoServico ValidationErrorPydantic)
  /\ (exists c, In c (consulta (fst r))
                /\ medico_id c = Some 58 /\ data c = "2025-07-15"
                /\ hora_inicio c = "09:00" /\ status c = AGENDADA
                /\ observacoes c = None)
  /\ forall hoje,
       String.leb (Py.isoformat hoje) "2025-07-15" = true ->
       ver_minhas_consultas hoje "111.222.333-44" (fst r)
       = (fst r, Levanta ValidationErrorPydantic).
Proof.
  refine (agendar_sem_motivo_deixa_registro_invalido regex_literal db_exemplos 1 1
            "Carlos Silva" "111.222.333-44" "11122233344" "2025-07-15" "09:00" "maria"
            _ {| med_id := 58; med_nome := "Dra. Maria Souza"; med_crm := "67890";
                 med_especialidade_id := 2 |} eq_refl eq_refl _ eq_refl).
  cbn. lia.
Defined.

Lemma find_one_por_id_medico (l : list MedicoDoc) (m : MedicoDoc) :
  NoDup (map med_id l) -> In m l ->
  find_one (fun x => id_igual (Some (med_id m)) (med_id x)) l = Some m.
Proof.
  unfold find_one. induction l as [|a r IH]; intros Hnd Hin; [destruct Hin|].
  cbn [map] in Hnd. apply NoDup_cons_iff in Hnd. destruct Hnd as [Hnotin Hnd].
  cbn [List.find id_igual]. destruct Hin as [->|Hin].
  - rewrite Z.eqb_refl. reflexivity.
  - destruct (Z.eqb_spec (med_id a) (med_id m)) as [E|_].
    + exfalso. apply Hnotin. rewrite E. apply in_map. exact Hin.
    + exact (IH Hnd Hin).
Qed.

(** X18. [agendar_consulta_com_medico] looks the physician up before
    anything else: when no stored physician's name matches, it raises and
    nothing is written, not even a patient, whatever the other arguments.
    When one matches (the first match is taken; ids unique and non-zero),
    with a valid national ID and a non-empty reason that matches no exam
    type, it returns an AGENDADA appointment of that physician, carrying
    the physician's name, the reason as notes, no exam type and the
    description "Consulta de Rotina". *)
Theorem agendar_consulta_com_medico_resultado
  (regex_i : string -> option (string -> bool)) (db : Database) (created updated : Z)
  (nome_paciente cpf data_str hora_inicio_str nome_medico_arg : string)
  (casa : string -> bool) :
  regex_i nome_medico_arg = Some casa ->
  (find_one (fun m => casa (med_nome m)) (medico db) = None ->
   forall motivo,
     agendar_consulta_com_medico regex_i created updated nome_paciente cpf data_str
       hora_inicio_str nome_medico_arg motivo db
     = (db, inl (MedicoNaoEncontrado nome_medico_arg)))
  /\ (forall medico_doc cpf_limpo motivo casa_exame,
        find_one (fun m => casa (med_nome m)) (medico db) = Some medico_doc ->
        med_id medico_doc <> 0 ->
        NoDup (map med_id (medico db)) ->
        _limpar_e_validar_cpf cpf = Retorna cpf_limpo ->
        motivo <> "" ->
        regex_i motivo = Some casa_exame ->
        find_one (fun e => casa_exame (exa_descricao e)) (tipo_exame db) = None ->
        exists db' v,
          agendar_consulta_com_medico regex_i created updated nome_paciente cpf data_str
            hora_inicio_str nome_medico_arg (Some motivo) db = (db', inr (Some v))
          /\ ad_medico_id v = Some (med_id medico_doc)
          /\ nome_medico v = med_nome medico_doc
          /\ ad_status v = AGENDADA /\ ad_data v = data_str
          /\ ad_hora_inicio v = hora_inicio_str /\ ad_observacoes v = motivo
          /\ ad_tipo_exame_id v = None /\ descricao_exame v = "Consulta de Rotina").
Proof.
  intros Hre. split.
  - intros Hnone motivo. unfold agendar_consulta_com_medico. rewrite Hre, Hnone. reflexivity.
  - intros medico_doc cpf_limpo motivo casa_exame Hmed Hid Hnd Hcpf Hmot Hrm Hex.
    unfold agendar_consulta_com_medico. rewrite Hre, Hmed.
    destruct (obter_paciente_depois db nome_paciente cpf cpf_limpo Hcpf)
      as (db1 & doc & Hp & _ & Hte & Hmd & _).
    rewrite Hp. destruct motivo as [|c0 t0]; [congruence|].
    rewrite Hrm, Hte, Hex. rewrite agendar_consulta_insere.
    set (nova := nova_consulta_de db1 created updated (id (Paciente_model_validate doc))
                   data_str hora_inicio_str (Some (med_id medico_doc)) None
                   (Some (String c0 t0))).
    set (db2 := set_consulta db1 (consulta db1 ++ [nova])%list).
    assert (Hnm : medico_id nova = Some (med_id medico_doc)).
    { cbn [medico_id nova nova_consulta_de]. rewrite (truthy_Some _ Hid). reflexivity. }
    assert (Hne : tipo_exame_id nova = None) by reflexivity.
    unfold _enriquecer_e_validar_agendamento, AgendamentoDetalhado_model_validate.
    rewrite Hnm, Hne.
    assert (Hmd2 : medico db2 = medico db) by exact Hmd.
    rewrite Hmd2.
    rewrite (find_one_por_id_medico (medico db) medico_doc Hnd)
      by (apply find_some in Hmed; exact (proj1 Hmed)).
    rewrite (find_one_nenhum (fun e => id_igual None (exa_id e)) (tipo_exame db2))
      by reflexivity.
    cbn [observacoes nova nova_consulta_de].
    eexists. eexists. split; [reflexivity|].
    cbn [ad_medico_id nome_medico ad_status ad_data ad_hora_inicio ad_observacoes
         ad_tipo_exame_id descricao_exame data hora_inicio status].
    repeat split.
Qed.

Lemma agendar_consulta_com_medico_resultado_witness :
  exists db' v,
    agendar_consulta_com_medico regex_literal 1 1 "Carlos Silva" "111.222.333-44"
      "2025-07-15" "09:00" "maria" (Some "Dor no joelho") db_exemplos = (db', inr (Some v))
    /\ ad_medico_id v = Some 58
    /\ nome_medico v = "Dra. Maria Souza"
    /\ ad_status v = AGENDADA /\ ad_data v = "2025-07-15"
    /\ ad_hora_inicio v = "09:00" /\ ad_observacoes v = "Dor no joelho"
    /\ ad_tipo_exame_id v = None /\ descricao_exame v = "Consulta de Rotina".
Proof.
  refine (proj2 (agendar_consulta_com_medico_resultado regex_literal db_exemplos 1 1
                   "Carlos Silva" "111.222.333-44" "2025-07-15" "09:00" "maria" _ eq_refl)
            {| med_id := 58; med_nome := "Dra. Maria Souza"; med_crm := "67890";
               med_especialidade_id := 2 |}
            "11122233344" "Dor no joelho" _ eq_refl _ _ eq_refl _ eq_refl eq_refl).
  - cbn. lia.
  - cbn. repeat constructor; cbn; intuition discriminate.
  - discriminate.
Defined.

(* ================================================================== *)
(** ** Further properties: the tools' HTTP answers *)
(* ================================================================== *)

(** X19. What the tools answer for what does not exist.  For an
    appointment id the store does not have, the cancel tool answers 404 and
    the reschedule tool 400, each with the service's own message.  For a
    national ID the service refuses, the listing tool answers 404 and the
    exam-booking tool (for an exam on the simple list) 400.  For a date
    [strptime] does not read, the availability tool answers 400.  In each
    case the store is left as it was. *)
Theorem tools_status_do_que_nao_existe
  (db : Database) (agora created updated consulta_id medico_id_arg : Z) (hoje : Py.date)
  (nova_data_str nova_hora_str cpf nome_paciente data_str hora_inicio_str nome_exame : string)
  (data_ruim : string) (e : Excecao) :
  find_one (com_id consulta_id) (consulta db) = None ->
  _limpar_e_validar_cpf cpf = Levanta e ->
  Py.in_lista (Py.lower nome_exame) EXAMES_SEM_ESPECIALISTA = true ->
  Py.strptime_Ymd data_ruim = None ->
  tool_cancelar_consulta agora consulta_id db
  = (db, HTTPException 404 (ValueError (NaoEncontradaOuCancelada consulta_id)))
  /\ tool_reagendar_consulta agora consulta_id nova_data_str nova_hora_str db
     = (db, HTTPException 400 (ValueError (ConsultaNaoEncontrada consulta_id)))
  /\ tool_ver_minhas_consultas hoje cpf db = (db, HTTPException 404 (ValueError CPFInvalido))
  /\ tool_agendar_exame_simples created updated nome_paciente cpf data_str hora_inicio_str
       nome_exame db
     = (db, HTTPException 400 (ValueError CPFInvalido))
  /\ tool_verificar_disponibilidade_medico db medico_id_arg data_ruim
     = Some (HTTPException 400 (ValueError DataInvalida)).
Proof.
  intros Hfind Hcpf Hex Hdata.
  assert (He : e = ValueError CPFInvalido).
  { unfold _limpar_e_validar_cpf in Hcpf.
    destruct (negb _ || negb _)%bool in Hcpf; [|discriminate]. inversion Hcpf. reflexivity. }
  subst e.
  split; [|split; [|split; [|split]]].
  - unfold tool_cancelar_consulta.
    rewrite (cancelar_consulta_inexistente db agora consulta_id Hfind), set_consulta_mesma.
    reflexivity.
  - unfold tool_reagendar_consulta.
    rewrite (reagendar_consulta_inexistente db agora consulta_id _ _ Hfind). reflexivity.
  - unfold tool_ver_minhas_consultas, ver_minhas_consultas, bind, _obter_ou_criar_paciente, lift.
    rewrite Hcpf. reflexivity.
  - unfold tool_agendar_exame_simples, agendar_exame_simples. rewrite Hex. cbn [negb].
    unfold bind, _obter_ou_criar_paciente, lift. rewrite Hcpf. reflexivity.
  - unfold tool_verificar_disponibilidade_medico, verificar_disponibilidade_medico.
    rewrite Hdata. reflexivity.
Qed.

Lemma tools_status_do_que_nao_existe_witness :
  tool_cancelar_consulta 5 999 db_exemplos
  = (db_exemplos, HTTPException 404 (ValueError (NaoEncontradaOuCancelada 999)))
  /\ tool_reagendar_consulta 5 999 "2025-07-15" "09:00" db_exemplos
     = (db_exemplos, HTTPException 400 (ValueError (ConsultaNaoEncontrada 999)))
  /\ tool_ver_minhas_consultas 739412 "123" db_exemplos
     = (db_exemplos, HTTPException 404 (ValueError CPFInvalido))
  /\ tool_agendar_exame_simples 1 1 "Carlos Silva" "123" "2025-07-15" "09:00" "Raio-X"
       db_exemplos
     = (db_exemplos, HTTPException 400 (ValueError CPFInvalido))
  /\ tool_verificar_disponibilidade_medico db_exemplos 42 "15/07/2025"
     = Some (HTTPException 400 (ValueError DataInvalida)).
Proof.
  exact (tools_status_do_que_nao_existe db_exemplos 5 1 1 999 42 739412 "2025-07-15" "09:00"
           "123" "Carlos Silva" "2025-07-15" "09:00" "Raio-X" "15/07/2025"
           (ValueError CPFInvalido) eq_refl eq_refl eq_refl eq_refl).
Defined.

(** X20. A 404 from the cancel tool does not mean that nothing was
    cancelled.  For a stored appointment that is not cancelled and whose
    notes are [None], the tool answers 404 (pydantic's validation error is
    a [ValueError]), and the appointment is CANCELADA in the store
    afterwards. *)
Theorem tool_cancelar_404_e_cancela
  (db : Database) (agora consulta_id : Z) (c : ConsultaDoc) :
  find_one (com_id consulta_id) (consulta db) = Some c ->
  status c <> CANCELADA ->
  observacoes c = None ->
  exists db' c',
    tool_cancelar_consulta agora consulta_id db
    = (db', HTTPException 404 ValidationErrorPydantic)
    /\ find_one (com_id consulta_id) (consulta db') = Some c'
    /\ status c' = CANCELADA /\ mesmo_atendimento c c'.
Proof.
  intros Hfind Hst Hobs.
  destruct (cancelar_consulta_existente db agora consulta_id c Hfind)
    as (l1 & l2 & _ & Hread & Hcall).
  cbn zeta in Hread, Hcall.
  destruct (ConsultaDoc_eq_dec c (set_cancelada agora c)) as [E|_].
  { exfalso. apply Hst. rewrite E. reflexivity. }
  eexists. exists (set_cancelada agora c).
  unfold tool_cancelar_consulta. rewrite Hcall.
  unfold _enriquecer_e_validar_agendamento, AgendamentoDetalhado_model_validate.
  cbn [observacoes set_cancelada]. rewrite Hobs. cbn [except_ValueError e_ValueError].
  split; [reflexivity|]. split; [exact Hread|]. split; [reflexivity|].
  unfold mesmo_atendimento. cbn. auto 10.
Qed.

Lemma tool_cancelar_404_e_cancela_witness :
  let db := fst (agendar_consulta 1 1 101 "2025-07-15" "09:00" (Some 58) None None
                   db_exemplos) in
  exists db' c',
    tool_cancelar_consulta 5 124 db = (db', HTTPException 404 ValidationErrorPydantic)
    /\ find_one (com_id 124) (consulta db') = Some c'
    /\ status c' = CANCELADA
    /\ mesmo_atendimento
         {| _id := 124; paciente_id := 101; data := "2025-07-15"; hora_inicio := "09:00";
            duracao_minutos := 30; status := AGENDADA; observacoes := None;
            created_at := 1; updated_at := 1; medico_id := Some 58;
            tipo_exame_id := None |} c'.
Proof.
  refine (tool_cancelar_404_e_cancela
            (fst (agendar_consulta 1 1 101 "2025-07-15" "09:00" (Some 58) None None
                    db_exemplos))
            5 124
            {| _id := 124; paciente_id := 101; data := "2025-07-15"; hora_inicio := "09:00";
               duracao_minutos := 30; status := AGENDADA; observacoes := None;
               created_at := 1; updated_at := 1; medico_id := Some 58;
               tipo_exame_id := None |} eq_refl _ eq_refl).
  discriminate.
Defined.

(* ================================================================== *)
(** ** Further properties: the example documents *)
(* ================================================================== *)

Section InsertManyFatos.
Context {D : Type} `{Documento D}.

Lemma chave_duplicada_app (ixs : list Indice) (docs l : list D) (d : D) :
  chave_duplicada ixs docs d = true -> chave_duplicada ixs (docs ++ l)%list d = true.
Proof.
  unfold chave_duplicada. intros E. apply orb_true_iff in E. apply orb_true_iff.
  destruct E as [E|E].
  - left. rewrite existsb_app, E. reflexivity.
  - right. apply existsb_exists in E. destruct E as (ix & Hix & E).
    apply existsb_exists. exists ix. split; [exact Hix|].
    apply andb_true_iff in E. destruct E as [Hu E]. rewrite Hu. cbn [andb].
    rewrite existsb_app, E. reflexivity.
Qed.

Lemma chave_duplicada_propria (ixs : list Indice) (docs : list D) (d : D) :
  chave_duplicada ixs (docs ++ [d])%list d = true.
Proof.
  unfold chave_duplicada. rewrite existsb_app. cbn [existsb]. rewrite Z.eqb_refl.
  rewrite orb_true_r. reflexivity.
Qed.

Lemma insert_many_ignorando_cons (ixs : list Indice) (docs r : list D) (a : D) :
  insert_many_ignorando ixs docs (a :: r)
  = insert_many_ignorando ixs
      (if chave_duplicada ixs docs a then docs else (docs ++ [a])%list) r.
Proof.
  unfold insert_many_ignorando. cbn [fold_left]. unfold insert_one.
  destruct (chave_duplicada ixs docs a); reflexivity.
Qed.

Lemma insert_many_ignorando_prefixo (ixs : list Indice) (novos : list D) :
  forall docs, exists l, insert_many_ignorando ixs docs novos = (docs ++ l)%list.
Proof.
  induction novos as [|d r IH]; intros docs.
  - exists []. cbn. rewrite app_nil_r. reflexivity.
  - rewrite insert_many_ignorando_cons. destruct (chave_duplicada ixs docs d).
    + apply IH.
    + destruct (IH (docs ++ [d])%list) as [l Hl]. exists (d :: l).
      rewrite Hl, <- app_assoc. reflexivity.
Qed.

Lemma insert_many_ignorando_todos (ixs : list Indice) (novos : list D) :
  forall docs d, In d novos ->
    chave_duplicada ixs (insert_many_ignorando ixs docs novos) d = true.
Proof.
  induction novos as [|a r IH]; intros docs d Hin; [destruct Hin|].
  rewrite insert_many_ignorando_cons.
  destruct Hin as [<-|Hin].
  - destruct (chave_duplicada ixs docs a) eqn:E.
    + destruct (insert_many_ignorando_prefixo ixs r docs) as [l Hl]. rewrite Hl.
      apply chave_duplicada_app. exact E.
    + destruct (insert_many_ignorando_prefixo ixs r (docs ++ [a])%list) as [l Hl].
      rewrite Hl. apply chave_duplicada_app. apply chave_duplicada_propria.
  - destruct (chave_duplicada ixs docs a); exact (IH _ d Hin).
Qed.

Lemma insert_many_ignorando_nada (ixs : list Indice) (novos docs : list D) :
  (forall d, In d novos -> chave_duplicada ixs docs d = true) ->
  insert_many_ignorando ixs docs novos = docs.
Proof.
  induction novos as [|a r IH]; intros Hall; [reflexivity|].
  rewrite insert_many_ignorando_cons, (Hall a (or_introl eq_refl)).
  apply IH. intros d Hd. apply Hall. right. exact Hd.
Qed.

Lemma insert_many_ignorando_de_novo (ixs : list Indice) (novos docs : list D) :
  insert_many_ignorando ixs (insert_many_ignorando ixs docs novos) novos
  = insert_many_ignorando ixs docs novos.
Proof.
  apply insert_many_ignorando_nada. intros d Hd.
  apply insert_many_ignorando_todos. exact Hd.
Qed.

Lemma insert_many_ignorando_ids (ixs : list Indice) (novos : list D) :
  forall docs, NoDup (map id_de docs) ->
    NoDup (map id_de (insert_many_ignorando ixs docs novos)).
Proof.
  induction novos as [|a r IH]; intros docs Hnd; [exact Hnd|].
  rewrite insert_many_ignorando_cons.
  destruct (chave_duplicada ixs docs a) eqn:E; [exact (IH _ Hnd)|].
  apply IH. rewrite map_app. cbn [map]. apply NoDup_snoc; [exact Hnd|].
  intros Hin. apply in_map_iff in Hin. destruct Hin as (x & Hx & Hin).
  unfold chave_duplicada in E. apply orb_false_iff in E. destruct E as [E _].
  assert (T : existsb (fun x => id_de x =? id_de a) docs = true).
  { apply existsb_exists. exists x. split; [exact Hin|]. apply Z.eqb_eq. exact Hx. }
  rewrite T in E. discriminate.
Qed.

End InsertManyFatos.

Lemma insert_many_ignorando_cpfs (novos : list PacienteDoc) :
  forall docs, NoDup (map pac_cpf docs) ->
    NoDup (map pac_cpf
             (insert_many_ignorando (ix_paciente criar_collections) docs novos)).
Proof.
  induction novos as [|a r IH]; intros docs Hnd; [exact Hnd|].
  rewrite insert_many_ignorando_cons.
  destruct (chave_duplicada (ix_paciente criar_collections) docs a) eqn:E;
    [exact (IH _ Hnd)|].
  apply IH. rewrite map_app. cbn [map]. apply NoDup_snoc; [exact Hnd|].
  intros Hin. apply in_map_iff in Hin. destruct Hin as (x & Hx & Hin).
  unfold chave_duplicada in E. apply orb_false_iff in E. destruct E as [_ E].
  cbn [ix_paciente criar_collections existsb unique andb orb] in E.
  rewrite orb_false_r in E.
  assert (T : existsb (fun y => chave_eqb
                 (chave_de {| chaves := ["cpf"]; unique := true |} y)
                 (chave_de {| chaves := ["cpf"]; unique := true |} a)) docs = true).
  { apply existsb_exists. exists x. split; [exact Hin|].
    unfold chave_de. cbn. rewrite Hx, String.eqb_refl. reflexivity. }
  rewrite T in E. discriminate.
Qed.

Lemma chave_duplicada_consulta (docs : list ConsultaDoc) (c : ConsultaDoc) :
  chave_duplicada (ix_consulta criar_collections) docs c
  = existsb (fun x => _id x =? _id c) docs.
Proof. unfold chave_duplicada. cbn. rewrite orb_false_r. reflexivity. Qed.

(** X21. Seeding is idempotent: running [inserir_exemplos] on a database
    it has already run on changes nothing, whatever the database was before
    the first run and whatever the clock reads at either run. *)
Theorem inserir_exemplos_idempotente (db : Database) (created updated created' updated' : Z) :
  inserir_exemplos created' updated' (inserir_exemplos created updated db)
  = inserir_exemplos created updated db.
Proof.
  unfold inserir_exemplos. cbn beta iota zeta.
  cbn [especialidade medico tipo_exame paciente consulta].
  rewrite !insert_many_ignorando_de_novo. f_equal.
  apply insert_many_ignorando_nada. intros d [<-|[]].
  rewrite chave_duplicada_consulta. cbn [_id].
  rewrite insert_many_ignorando_cons, chave_duplicada_consulta. cbn [_id].
  destruct (existsb (fun x => _id x =? 123) (consulta db)) eqn:E; [exact E|].
  change (insert_many_ignorando ?i ?l []) with l.
  rewrite existsb_app, E. reflexivity.
Qed.

(** X22. Seeding never removes or rewrites a stored document: every
    collection of the result starts with the collection as it was, and a
    well-formed store (patient ids, national IDs and appointment ids
    without repetition) stays well-formed. *)
Theorem inserir_exemplos_preserva (db : Database) (created updated : Z) :
  let db' := inserir_exemplos created updated db in
  (exists l, especialidade db' = (especialidade db ++ l)%list)
  /\ (exists l, medico db' = (medico db ++ l)%list)
  /\ (exists l, tipo_exame db' = (tipo_exame db ++ l)%list)
  /\ (exists l, paciente db' = (paciente db ++ l)%list)
  /\ (exists l, consulta db' = (consulta db ++ l)%list)
  /\ (bd_integra db -> bd_integra db').
Proof.
  cbn zeta. unfold inserir_exemplos. cbn beta iota zeta.
  cbn [especialidade medico tipo_exame paciente consulta].
  split; [apply insert_many_ignorando_prefixo|].
  split; [apply insert_many_ignorando_prefixo|].
  split; [apply insert_many_ignorando_prefixo|].
  split; [apply insert_many_ignorando_prefixo|].
  split; [apply insert_many_ignorando_prefixo|].
  intros (Hid & Hcpf & Hcon). unfold bd_integra.
  cbn [especialidade medico tipo_exame paciente consulta].
  split; [|split].
  - exact (@insert_many_ignorando_ids PacienteDoc Documento_Paciente _ _ _ Hid).
  - apply insert_many_ignorando_cpfs. exact Hcpf.
  - exact (@insert_many_ignorando_ids ConsultaDoc Documento_Consulta _ _ _ Hcon).
Qed.

(** On an empty database, seeding gives the example database. *)
Example inserir_exemplos_vazio :
  inserir_exemplos 1749500000000 1749500000000
    {| medico := []; consulta := []; especialidade := []; tipo_exame := []; paciente := [] |}
  = db_exemplos.
Proof. reflexivity. Qed.
